(** * Risk scoring engine of the fraud-detection service

    A shallow embedding of the scoring path of the service:
    - the class [FraudDetectionService] (rule engine), in its revision with
      the hourly velocity window and the amount patterns;
    - the class [MLService] (feature extraction and the wrapper around the
      network), in its revision with ten features and [FEATURE_STATS];
    - the router with the handlers of POST /check and POST /report-fraud,
      and the checks the two handlers make on a body before anything else,
      over arbitrary JSON values;
    - the configuration object, in its revision with feature flags.

    Conventions of the embedding.
    - JavaScript numbers are modelled by exact rationals [Q] (amounts, scores,
      coordinates) and by [Z] where the code only ever produces integers
      (millisecond timestamps, counts, hours).  Rounding of IEEE doubles is
      not modelled.
    - Every handler is a function from the state before the request to a
      response and the state after it.  A request reads the clock once
      ([now]); the trigonometric distance and the neural network are
      collaborators taken as parameters.
    - Redis keys are built from disjoint literal prefixes ("velocity:",
      "amount:", "device:", "geo:", ...), so each prefix is a separate finite
      map indexed by the part of the key after the prefix. *)

From Stdlib Require Import ZArith QArith Qminmax Qabs String Ascii List Lia Lqa.
From stdpp Require Import base option list gmap strings pretty.

Local Open Scope Q_scope.
Local Open Scope string_scope.
Local Open Scope list_scope.

(** ** JavaScript odds and ends *)

Module Js.

(** [x > y] and [x >= y] on numbers. *)
Definition gtb (x y : Q) : bool := negb (Qle_bool x y).
Definition geb (x y : Q) : bool := Qle_bool y x.

(** Truthiness of a possibly missing number: [undefined] and [0] are falsy. *)
Definition truthy_num (v : option Q) : bool :=
  match v with
  | Some q => negb (Qeq_bool q 0)
  | None => false
  end.

(** Truthiness of a possibly missing string: [undefined] and [""] are falsy. *)
Definition truthy_str (v : option string) : bool :=
  match v with
  | Some s => negb (String.eqb s "")
  | None => false
  end.

(** [a || b] on possibly missing strings. *)
Definition or_str (a b : option string) : option string :=
  if truthy_str a then a else b.

(** [Math.min] and the usual clamp. *)
Definition clamp (x lo hi : Q) : Q := Qmax lo (Qmin x hi).

(** [arr.reduce((a, b) => a + b, 0)]. *)
Definition sum (l : list Q) : Q := fold_left Qplus l 0.

(** [new Date(t).getHours()] and [getDay()], the process running in UTC.
    1 January 1970 was a Thursday (day 4). *)
Definition getHours (t : Z) : Z := ((t / 3600000) mod 24)%Z.
Definition getDay (t : Z) : Z := ((t / 86400000 + 4) mod 7)%Z.

End Js.

(** ** The key-value store *)

Module Redis.

(** A member of the two sorted sets, the string ["<amount>:<epochMs>"].
    Printing a number is injective, so two members are the same string
    exactly when the amounts are equal numbers and the stamps coincide. *)
Record Sample := { s_amount : Q; s_time : Z }.

Definition Sample_eqb (a b : Sample) : bool :=
  Qeq_bool (s_amount a) (s_amount b) && (s_time a =? s_time b)%Z.

(** A sorted set: members with their scores, each member at most once.
    The callers only take the length of a range or fold a commutative
    operation over it, so the order inside the list is left as inserted. *)
Definition zset := list (Sample * Z).

(** [ZADD key score member]: a member already present only has its score
    replaced. *)
Definition zadd (z : zset) (score : Z) (m : Sample) : zset :=
  (m, score) :: List.filter (fun e => negb (Sample_eqb (fst e) m)) z.

(** [ZRANGEBYSCORE key min max]: members with [min <= score <= max]. *)
Definition zrangebyscore (z : zset) (lo hi : Z) : list Sample :=
  List.map fst (List.filter (fun e => (lo <=? snd e)%Z && (snd e <=? hi)%Z) z).

(** The keys the engine touches, one map per key prefix.  A missing key
    reads as the empty collection, as in Redis. *)
Record Store := {
  velocity : gmap string zset;               (* velocity:<userId> *)
  amounts : gmap string zset;                (* amount:<userId> *)
  device : gmap string (gset string);        (* device:<deviceId> *)
  geo : gmap string (Q * Q);                 (* geo:<userId> = "<lat>:<lon>" *)
  tx24h : gmap string (list (option Q));     (* tx:<userId>:24h *)
  tx7d : gmap string (list (option Q));      (* tx:<userId>:7d *)
  userDevices24h : gmap string (gset string);(* user_devices:<userId>:24h *)
  txCache : gmap nat (Q * list string);      (* tx:<transactionId> *)
  modelVersion : Z;                          (* ml:model:version *)
  deadline : gmap string Z                   (* full key -> expiry instant *)
}.

Definition empty : Store :=
  {| velocity := ∅; amounts := ∅; device := ∅; geo := ∅; tx24h := ∅;
     tx7d := ∅; userDevices24h := ∅; txCache := ∅; modelVersion := 0%Z;
     deadline := ∅ |}.

Definition with_velocity (v : gmap string zset) (r : Store) : Store :=
  {| velocity := v; amounts := amounts r; device := device r; geo := geo r;
     tx24h := tx24h r; tx7d := tx7d r; userDevices24h := userDevices24h r;
     txCache := txCache r; modelVersion := modelVersion r;
     deadline := deadline r |}.

Definition with_amounts (v : gmap string zset) (r : Store) : Store :=
  {| velocity := velocity r; amounts := v; device := device r; geo := geo r;
     tx24h := tx24h r; tx7d := tx7d r; userDevices24h := userDevices24h r;
     txCache := txCache r; modelVersion := modelVersion r;
     deadline := deadline r |}.

Definition with_device (v : gmap string (gset string)) (r : Store) : Store :=
  {| velocity := velocity r; amounts := amounts r; device := v; geo := geo r;
     tx24h := tx24h r; tx7d := tx7d r; userDevices24h := userDevices24h r;
     txCache := txCache r; modelVersion := modelVersion r;
     deadline := deadline r |}.

Definition with_geo (v : gmap string (Q * Q)) (r : Store) : Store :=
  {| velocity := velocity r; amounts := amounts r; device := device r;
     geo := v; tx24h := tx24h r; tx7d := tx7d r;
     userDevices24h := userDevices24h r; txCache := txCache r;
     modelVersion := modelVersion r; deadline := deadline r |}.

Definition with_txCache (v : gmap nat (Q * list string)) (r : Store) : Store :=
  {| velocity := velocity r; amounts := amounts r; device := device r;
     geo := geo r; tx24h := tx24h r; tx7d := tx7d r;
     userDevices24h := userDevices24h r; txCache := v;
     modelVersion := modelVersion r; deadline := deadline r |}.

Definition with_modelVersion (v : Z) (r : Store) : Store :=
  {| velocity := velocity r; amounts := amounts r; device := device r;
     geo := geo r; tx24h := tx24h r; tx7d := tx7d r;
     userDevices24h := userDevices24h r; txCache := txCache r;
     modelVersion := v; deadline := deadline r |}.

Definition with_deadline (v : gmap string Z) (r : Store) : Store :=
  {| velocity := velocity r; amounts := amounts r; device := device r;
     geo := geo r; tx24h := tx24h r; tx7d := tx7d r;
     userDevices24h := userDevices24h r; txCache := txCache r;
     modelVersion := modelVersion r; deadline := v |}.

(** [EXPIRE key seconds] issued at instant [now]. *)
Definition expire (key : string) (seconds now : Z) (r : Store) : Store :=
  with_deadline (<[key := (now + seconds * 1000)%Z]> (deadline r)) r.

End Redis.

(** ** Configuration ([config.ts], second revision) *)

Record Thresholds := {
  maxTransactionAmount : Z;
  maxDailyTransactions : Z;
  maxVelocityPerMinute : Z;
  nightTimeStart : Z;
  nightTimeEnd : Z;
  fraudThreshold : Q;
  riskThreshold : Q
}.

Record Features := {
  enableMLModel : bool;
  enableGeolocation : bool;
  enableDeviceTracking : bool;
  enableRealTimeNotifications : bool
}.

Record Config := { thresholds : Thresholds; features : Features }.

(** The values taken when no environment variable is set. *)
Definition defaultConfig : Config :=
  {| thresholds :=
       {| maxTransactionAmount := 1000000; maxDailyTransactions := 20;
          maxVelocityPerMinute := 5; nightTimeStart := 23; nightTimeEnd := 5;
          fraudThreshold := 0.7; riskThreshold := 0.5 |};
     features :=
       {| enableMLModel := true; enableGeolocation := true;
          enableDeviceTracking := true; enableRealTimeNotifications := true |} |}.

(** ** Transactions *)

Record Location := { latitude : Q; longitude : Q }.

(** The fields of a request body the scoring path reads, after validation. *)
Record Transaction := {
  userId : string;
  deviceId : string;
  amount : Q;
  transactionType : string;
  location : option Location;
  createdAt : option Z
}.

(** ** The rule engine ([FraudDetectionService], second revision) *)

Module Rules.
Import Redis.

(** What one check returns: [{ score, reason? }]. *)
Record CheckResult := { score : Q; reason : option string }.

Definition clean : CheckResult := {| score := 0; reason := None |}.

Definition VELOCITY_KEY_PREFIX := "velocity:".
Definition DEVICE_KEY_PREFIX := "device:".
Definition GEO_KEY_PREFIX := "geo:".
Definition AMOUNT_KEY_PREFIX := "amount:".

Definition reason_velocity_minute :=
  "High transaction velocity detected (per minute)".
Definition reason_velocity_hour :=
  "High transaction velocity detected (per hour)".
Definition reason_amount_spike :=
  "Transaction amount significantly higher than usual pattern".
Definition reason_round_number := "Round number transaction detected".
Definition reason_device := "Device associated with multiple users".
Definition reason_geo := "Unusual geographical location".
Definition reason_amount_cap := "Transaction amount exceeds threshold".
Definition reason_night := "Night time transaction".

(** [checkVelocity]: the sample is added, the key re-armed for one hour,
    then both windows are read. *)
Definition checkVelocity (cfg : Config) (now : Z) (userId : string)
    (amount : Q) (r : Store) : CheckResult * Store :=
  let key := VELOCITY_KEY_PREFIX +:+ userId in
  let minuteAgo := (now - 60000)%Z in
  let hourAgo := (now - 3600000)%Z in
  let z := zadd (default [] (velocity r !! userId)) now
                {| s_amount := amount; s_time := now |} in
  let r := with_velocity (<[userId := z]> (velocity r)) r in
  let r := expire key 3600 now r in
  let recentTxns := zrangebyscore z minuteAgo now in
  let hourlyTxns := zrangebyscore z hourAgo now in
  if (Z.of_nat (length recentTxns) >? maxVelocityPerMinute (thresholds cfg))%Z
  then ({| score := 0.8; reason := Some reason_velocity_minute |}, r)
  else if (Z.of_nat (length hourlyTxns) >? 20)%Z
  then ({| score := 0.6; reason := Some reason_velocity_hour |}, r)
  else (clean, r).

(** [amount % 10000 === 0] on a rational: the amount is a whole multiple
    of ten thousand. *)
Definition multiple_of_10000 (a : Q) : bool :=
  Qeq_bool a (inject_Z (10000 * (Qnum a / (Z.pos (Qden a) * 10000)))).

(** [checkAmountPatterns].  [Math.max(...amounts)] is computed by the
    source and never used; it is left out. *)
Definition checkAmountPatterns (now : Z) (userId : string) (amount : Q)
    (r : Store) : CheckResult * Store :=
  let key := AMOUNT_KEY_PREFIX +:+ userId in
  let dayAgo := (now - 86400000)%Z in
  let recentAmounts :=
    zrangebyscore (default [] (amounts r !! userId)) dayAgo now in
  let amts := List.map s_amount recentAmounts in
  let store (_ : unit) :=
    let z := zadd (default [] (amounts r !! userId)) now
                  {| s_amount := amount; s_time := now |} in
    expire key 86400 now (with_amounts (<[userId := z]> (amounts r)) r) in
  if (0 <? length amts)%nat then
    let avgAmount := Js.sum amts / inject_Z (Z.of_nat (length amts)) in
    if Js.gtb amount (avgAmount * 10) && Js.gtb amount 100000
    then ({| score := 0.7; reason := Some reason_amount_spike |}, r)
    else if multiple_of_10000 amount && Js.geb amount 50000
    then ({| score := 0.3; reason := Some reason_round_number |}, r)
    else (clean, store ())
  else (clean, store ()).

(** [checkDeviceRisk]: the members are read, the user is added, then the
    members read before the insertion are tested. *)
Definition checkDeviceRisk (userId deviceId : string) (r : Store)
    : CheckResult * Store :=
  let userIds := default ∅ (device r !! deviceId) in
  let r := with_device (<[deviceId := {[userId]} ∪ userIds]> (device r)) r in
  if (0 <? size userIds)%nat && negb (bool_decide (userId ∈ userIds))
  then ({| score := 0.7; reason := Some reason_device |}, r)
  else (clean, r).

Section WithDistance.

(** [calculateDistance lat1 lon1 lat2 lon2]: the haversine distance in
    kilometres.  It is computed with floating-point trigonometry; the
    engine only compares its result with 100. *)
Variable calculateDistance : Q → Q → Q → Q → Q.

(** [checkGeoRisk]. *)
Definition checkGeoRisk (userId : string) (lat lon : Q) (r : Store)
    : CheckResult * Store :=
  let update (_ : unit) := with_geo (<[userId := (lat, lon)]> (geo r)) r in
  match geo r !! userId with
  | Some (lastLat, lastLon) =>
      let distance := calculateDistance lat lon lastLat lastLon in
      if Js.gtb distance 100
      then ({| score := 0.6; reason := Some reason_geo |}, r)
      else (clean, update ())
  | None => (clean, update ())
  end.

(** [if (c.score > 0) { totalScore += c.score;
                         if (c.reason) reasons.push(c.reason) }]. *)
Definition tally (acc : Q * list string) (c : CheckResult)
    : Q * list string :=
  if Js.gtb (score c) 0
  then (fst acc + score c,
        if Js.truthy_str (reason c)
        then snd acc ++ [default "" (reason c)] else snd acc)
  else acc.

Record Verdict := {
  isFreudulent : bool;
  riskScore : Q;
  reasons : list string
}.

(** [detectFraud]. *)
Definition detectFraud (cfg : Config) (now : Z) (tx : Transaction)
    (r : Store) : Verdict * Store :=
  let acc : Q * list string := (0, []) in
  (* 1. velocity *)
  let '(velocityCheck, r) := checkVelocity cfg now (userId tx) (amount tx) r in
  let acc := tally acc velocityCheck in
  (* 2. device *)
  let '(deviceCheck, r) := checkDeviceRisk (userId tx) (deviceId tx) r in
  let acc := tally acc deviceCheck in
  (* 3. geography, only with a location *)
  let '(acc, r) :=
    match location tx with
    | Some loc =>
        let '(geoCheck, r) :=
          checkGeoRisk (userId tx) (latitude loc) (longitude loc) r in
        (tally acc geoCheck, r)
    | None => (acc, r)
    end in
  (* 4. amount threshold *)
  let acc :=
    if Js.gtb (amount tx) (inject_Z (maxTransactionAmount (thresholds cfg)))
    then (fst acc + 0.5, snd acc ++ [reason_amount_cap]) else acc in
  (* 5. night time *)
  let hour := Js.getHours now in
  let acc :=
    if (nightTimeStart (thresholds cfg) <=? hour)%Z
       || (hour <=? nightTimeEnd (thresholds cfg))%Z
    then (fst acc + 0.3, snd acc ++ [reason_night]) else acc in
  let normalizedScore := Qmin (fst acc) 1 in
  ({| isFreudulent := Js.geb normalizedScore 0.7;
      riskScore := normalizedScore;
      reasons := snd acc |}, r).

End WithDistance.

End Rules.

(** ** The learned scorer ([MLService], the revision with ten features) *)

Module ML.
Import Redis.

Definition FEATURE_NAMES : list string :=
  [ "amount"; "hour"; "dayOfWeek"; "isNewDevice"; "deviceUserCount";
    "txCountLast24h"; "avgAmountLast24h"; "txCountLast7d";
    "avgAmountLast7d"; "uniqueDevicesLast24h" ].

(** Feature name, mean, standard deviation. *)
Definition FEATURE_STATS : list (string * (Q * Q)) :=
  [ ("amount", (50000, 200000));
    ("hour", (12, 6.93));
    ("dayOfWeek", (3, 2));
    ("isNewDevice", (0.1, 0.3));
    ("deviceUserCount", (1.2, 0.5));
    ("txCountLast24h", (2.5, 3.2));
    ("avgAmountLast24h", (45000, 180000));
    ("txCountLast7d", (12, 15));
    ("avgAmountLast7d", (48000, 190000));
    ("uniqueDevicesLast24h", (1.1, 0.4)) ].

(** [FEATURE_STATS[name]]. *)
Fixpoint stats_of (table : list (string * (Q * Q))) (name : string)
    : option (Q * Q) :=
  match table with
  | [] => None
  | (n, st) :: rest => if String.eqb n name then Some st else stats_of rest name
  end.

(** [transaction.createdAt || Date.now()]. *)
Definition stamp (now : Z) (tx : Transaction) : Z :=
  match createdAt tx with
  | Some t => if (t =? 0)%Z then now else t
  | None => now
  end.

(** [JSON.parse(tx).amount], and 0 when the list entry does not parse
    ([None]). *)
Definition entry_amount (e : option Q) : Q := default 0 e.

(** [l.length > 0 ? l.reduce((a, b) => a + b, 0) / l.length : 0]. *)
Definition average (l : list Q) : Q :=
  if (0 <? length l)%nat
  then Js.sum l / inject_Z (Z.of_nat (length l)) else 0.

Definition of_nat (n : nat) : Q := inject_Z (Z.of_nat n).

(** The ten raw features, in the order of [FEATURE_NAMES]. *)
Definition rawFeatures (now : Z) (tx : Transaction) (r : Store) : list Q :=
  let hour := Js.getHours (stamp now tx) in
  let dayOfWeek := Js.getDay (stamp now tx) in
  let userCount := size (default ∅ (device r !! deviceId tx)) in
  let recentTxs24h := default [] (tx24h r !! userId tx) in
  let txCount24h := length recentTxs24h in
  let recentTxs7d := default [] (tx7d r !! userId tx) in
  let txCount7d := length recentTxs7d in
  let avgAmount24h := average (List.map entry_amount recentTxs24h) in
  let avgAmount7d := average (List.map entry_amount recentTxs7d) in
  let uniqueDevices24h := size (default ∅ (userDevices24h r !! userId tx)) in
  [ amount tx; inject_Z hour; inject_Z dayOfWeek;
    (if (userCount =? 0)%nat then 1 else 0);
    of_nat userCount; of_nat txCount24h; avgAmount24h; of_nat txCount7d;
    avgAmount7d; of_nat uniqueDevices24h ].

(** The body of [features.map((feature, index) => ...)]. *)
Definition normalize (index : nat) (feature : Q) : Q :=
  match FEATURE_NAMES !! index with
  | Some featureName =>
      match stats_of FEATURE_STATS featureName with
      | Some (mean, std) => (feature - mean) / std
      | None => feature / 1000
      end
  | None => feature / 1000
  end.

(** [preprocessFeatures]: the single row of the tensor. *)
Definition preprocessFeatures (now : Z) (tx : Transaction) (r : Store)
    : list Q :=
  imap normalize (rawFeatures now tx r).

(** [fallbackRiskScore]. *)
Definition fallbackRiskScore (tx : Transaction) : Q :=
  if Js.gtb (amount tx) 1000000 then 0.9
  else if Js.gtb (amount tx) 500000 then 0.7
  else if Js.gtb (amount tx) 100000 then 0.5
  else 0.2.

Section WithModel.

(** The network.  [predict] answers [None] when the prediction is NaN
    or the call throws; [fit] answers [None] when the update throws. *)
Variable Model : Type.
Variable predict : Model → list Q → option Q.
Variable fit : Model → list Q → Q → option Model.

(** [predictRisk]. *)
Definition predictRisk (model : option Model) (now : Z) (tx : Transaction)
    (r : Store) : Q :=
  match model with
  | None => fallbackRiskScore tx
  | Some m =>
      match predict m (preprocessFeatures now tx r) with
      | Some sc => sc
      | None => fallbackRiskScore tx
      end
  end.

(** [updateModelWithTransaction]; [None] is a thrown error. *)
Definition updateModelWithTransaction (model : option Model) (now : Z)
    (tx : Transaction) (wasActuallyFraud : bool) (r : Store)
    : option (Model * Store) :=
  match model with
  | None => None (* throw new Error("Model not loaded") *)
  | Some m =>
      let label : Q := if wasActuallyFraud then 1 else 0 in
      match fit m (preprocessFeatures now tx r) label with
      | Some m' => Some (m', with_modelVersion (modelVersion r + 1)%Z r)
      | None => None
      end
  end.

End WithModel.

End ML.

(** ** The HTTP handlers ([routes/fraudDetection.ts]) *)

Module Routes.
Import Redis.

Inductive Status := PENDING | APPROVED | DENIED | FLAGGED.
Inductive Action := ALLOW | DENY.

(** A document of the [Transaction] collection. *)
Record TransactionRecord := {
  rec_tx : Transaction;
  ipAddress : string;
  rec_riskScore : Q;
  status : Status
}.

Definition with_status (st : Status) (t : TransactionRecord)
    : TransactionRecord :=
  {| rec_tx := rec_tx t; ipAddress := ipAddress t;
     rec_riskScore := rec_riskScore t; status := st |}.

(** The body of a successful /check answer. *)
Record CheckBody := {
  transactionId : nat;
  body_riskScore : Q;
  isHighRisk : bool;
  body_reasons : list string;
  recommendedAction : Action
}.

Inductive Response :=
| Scored (body : CheckBody)            (* 200 with the assessment *)
| Message (msg : string)               (* 200 with [{ message }] *)
| Failure (code : Z) (error : string). (* status code with [{ error }] *)

(** A /check request as it arrives: any field may be missing. *)
Record RawLocation := { raw_latitude : option Q; raw_longitude : option Q }.

Record CheckRequest := {
  body_userId : option string;
  body_amount : option Q;
  body_transactionType : option string;
  body_deviceId : option string;
  body_location : option RawLocation;
  body_createdAt : option Z;
  req_ip : option string;
  req_remoteAddress : option string
}.

Record ReportRequest := {
  body_transactionId : option nat;
  body_wasActuallyFraud : option bool  (* [None]: missing or not a boolean *)
}.

(** [validateTransaction]: [Some] is the answer sent instead of calling
    [next()]. *)
Definition validateTransaction (req : CheckRequest) : option Response :=
  if negb (Js.truthy_str (body_userId req))
     || negb (Js.truthy_num (body_amount req))
     || negb (Js.truthy_str (body_transactionType req))
     || negb (Js.truthy_str (body_deviceId req))
  then Some (Failure 400 "Missing required fields")
  else
    match body_location req with
    | Some loc =>
        if negb (Js.truthy_num (raw_latitude loc))
           || negb (Js.truthy_num (raw_longitude loc))
        then Some (Failure 400 "Invalid location format")
        else None
    | None => None
    end.

(** [req.body] read as a transaction. *)
Definition bodyTransaction (req : CheckRequest) : Transaction :=
  {| userId := default "" (body_userId req);
     deviceId := default "" (body_deviceId req);
     amount := default 0 (body_amount req);
     transactionType := default "" (body_transactionType req);
     location :=
       match body_location req with
       | Some loc =>
           Some {| latitude := default 0 (raw_latitude loc);
                   longitude := default 0 (raw_longitude loc) |}
       | None => None
       end;
     createdAt := body_createdAt req |}.

(** The schema's [enum] on [transactionType], checked by [save()]. *)
Definition schemaAccepts (t : TransactionRecord) : bool :=
  bool_decide (transactionType (rec_tx t) ∈ ["TRANSFER"; "CARD"; "QR"; "POS"]).

Section WithCollaborators.

Variable calculateDistance : Q → Q → Q → Q → Q.
Variable Model : Type.
Variable predict : Model → list Q → option Q.
Variable fit : Model → list Q → Q → option Model.

(** Everything a request can read or change.  A document's [_id] is its
    position in [transactions]. *)
Record System := {
  redis : Store;
  transactions : list TransactionRecord;
  model : option Model
}.

(** POST /check. *)
Definition check (cfg : Config) (now : Z) (req : CheckRequest) (s : System)
    : Response * System :=
  match validateTransaction req with
  | Some rejection => (rejection, s)
  | None =>
      let transaction := bodyTransaction req in
      let '(ruleBasedResult, r) :=
        Rules.detectFraud calculateDistance cfg now transaction (redis s) in
      let mlRiskScore := ML.predictRisk Model predict (model s) now transaction r in
      let finalRiskScore :=
        Rules.riskScore ruleBasedResult * 0.6 + mlRiskScore * 0.4 in
      let newTransaction :=
        {| rec_tx :=
             {| userId := userId transaction;
                deviceId := deviceId transaction;
                amount := amount transaction;
                transactionType := transactionType transaction;
                location := location transaction;
                createdAt := Some (default now (createdAt transaction)) |};
           ipAddress :=
             default "unknown"
               (Js.or_str (req_ip req)
                  (Js.or_str (req_remoteAddress req) (Some "unknown")));
           rec_riskScore := finalRiskScore;
           status := if Js.geb finalRiskScore 0.7 then FLAGGED else PENDING |} in
      if schemaAccepts newTransaction then
        let id := length (transactions s) in
        let r :=
          expire ("tx:" +:+ pretty id) 3600 now
            (with_txCache
               (<[id := (finalRiskScore, Rules.reasons ruleBasedResult)]>
                  (txCache r)) r) in
        (Scored
           {| transactionId := id;
              body_riskScore := finalRiskScore;
              isHighRisk := Js.geb finalRiskScore 0.7;
              body_reasons := Rules.reasons ruleBasedResult;
              recommendedAction :=
                if Js.geb finalRiskScore 0.7 then DENY else ALLOW |},
         {| redis := r;
            transactions := transactions s ++ [newTransaction];
            model := model s |})
      else
        (Failure 500 "Internal server error",
         {| redis := r; transactions := transactions s; model := model s |})
  end.

(** POST /report-fraud. *)
Definition reportFraud (now : Z) (req : ReportRequest) (s : System)
    : Response * System :=
  match body_transactionId req, body_wasActuallyFraud req with
  | Some id, Some wasActuallyFraud =>
      match transactions s !! id with
      | None => (Failure 404 "Transaction not found", s)
      | Some found =>
          let transaction :=
            with_status (if wasActuallyFraud then DENIED else APPROVED) found in
          let saved := <[id := transaction]> (transactions s) in
          match ML.updateModelWithTransaction Model fit (model s) now
                  (rec_tx transaction) wasActuallyFraud (redis s) with
          | Some (m, r) =>
              (Message "Fraud report processed successfully",
               {| redis := r; transactions := saved; model := Some m |})
          | None =>
              (Failure 500 "Internal server error",
               {| redis := redis s; transactions := saved; model := model s |})
          end
      end
  | _, _ => (Failure 400 "Missing required fields", s)
  end.

End WithCollaborators.

Arguments redis {Model} _.
Arguments transactions {Model} _.
Arguments model {Model} _.

End Routes.

(** ** Request bodies before any typing

    [express.json()] hands the handlers whatever JSON the client sent.  The
    handlers above are written over bodies whose fields, where present, have
    the types the client is meant to send; the two checks that look at a body
    before anything else are given here over arbitrary JSON values. *)

Module Wire.
Import Routes.

(** A JSON value; [JUndefined] is what reading a missing property gives.
    JSON has no NaN, so 0 is the only falsy number a body can hold. *)
#[warnings="-register-all"] Inductive JsValue :=
| JUndefined
| JNull
| JBool (b : bool)
| JNum (q : Q)
| JStr (s : string)
| JArr (items : list JsValue)
| JObj (fields : list (string * JsValue)).

(** Truthiness: [undefined], [null], [false], [0] and [""] are falsy, every
    other value is truthy (objects and arrays also when empty). *)
Definition truthy (v : JsValue) : bool :=
  match v with
  | JUndefined | JNull => false
  | JBool b => b
  | JNum q => negb (Qeq_bool q 0)
  | JStr s => negb (String.eqb s "")
  | JArr _ | JObj _ => true
  end.

(** [obj.name] on a parsed object, each key listed once. *)
Fixpoint getField (name : string) (fields : list (string * JsValue)) : JsValue :=
  match fields with
  | [] => JUndefined
  | (k, v) :: rest => if String.eqb k name then v else getField name rest
  end.

(** [v.name] for the two properties read off [location]: only an object
    carries them. *)
Definition member (v : JsValue) (name : string) : JsValue :=
  match v with
  | JObj fields => getField name fields
  | _ => JUndefined
  end.

(** [validateTransaction] on the body as parsed. *)
Definition validateTransactionRaw (body : list (string * JsValue))
    : option Response :=
  let userId := getField "userId" body in
  let amount := getField "amount" body in
  let transactionType := getField "transactionType" body in
  let deviceId := getField "deviceId" body in
  let location := getField "location" body in
  if negb (truthy userId) || negb (truthy amount)
     || negb (truthy transactionType) || negb (truthy deviceId)
  then Some (Failure 400 "Missing required fields")
  else if truthy location
          && (negb (truthy (member location "latitude"))
              || negb (truthy (member location "longitude")))
  then Some (Failure 400 "Invalid location format")
  else None.

(** The JSON of a typed request. *)
Definition ofString (v : option string) : JsValue :=
  match v with Some s => JStr s | None => JUndefined end.

Definition ofNumber (v : option Q) : JsValue :=
  match v with Some q => JNum q | None => JUndefined end.

Definition ofRequest (req : CheckRequest) : list (string * JsValue) :=
  [ ("userId", ofString (body_userId req));
    ("amount", ofNumber (body_amount req));
    ("transactionType", ofString (body_transactionType req));
    ("deviceId", ofString (body_deviceId req));
    ("location",
     match body_location req with
     | Some loc =>
         JObj [ ("latitude", ofNumber (raw_latitude loc));
                ("longitude", ofNumber (raw_longitude loc)) ]
     | None => JUndefined
     end) ].

Section WithCast.

Variable Model : Type.
Variable fit : Model → list Q → Q → option Model.

(** The cast [findById] applies to its argument: the position of the document
    an ObjectId names, or [None] when the value is no ObjectId and the query
    throws a [CastError]. *)
Variable castObjectId : JsValue → option nat.

(** POST /report-fraud on the body as parsed. *)
Definition reportFraudRaw (now : Z) (body : list (string * JsValue))
    (s : System Model) : Response * System Model :=
  let transactionId := getField "transactionId" body in
  let wasActuallyFraud := getField "wasActuallyFraud" body in
  match wasActuallyFraud with
  | JBool flag =>
      if negb (truthy transactionId)
      then (Failure 400 "Missing required fields", s)
      else
        match castObjectId transactionId with
        | Some id =>
            reportFraud Model fit now
              {| body_transactionId := Some id;
                 body_wasActuallyFraud := Some flag |} s
        | None => (Failure 500 "Internal server error", s)
        end
  | _ => (Failure 400 "Missing required fields", s)
  end.

End WithCast.

End Wire.

(** ** Vocabulary of the statements *)

(** The reasons one check hands to [detectFraud]: its reason when its score
    is positive and the reason is a non-empty string, nothing otherwise. *)
Definition said (c : Rules.CheckResult) : list string :=
  if Js.gtb (Rules.score c) 0 && Js.truthy_str (Rules.reason c)
  then [default "" (Rules.reason c)] else [].

(** The velocity window of a user as the rule reads it at instant [now]:
    the members of [velocity:<userId>] scored within the last [span]
    milliseconds. *)
Definition window (r : Redis.Store) (user : string) (now span : Z)
    : list Redis.Sample :=
  Redis.zrangebyscore (default [] (Redis.velocity r !! user)) (now - span) now.

(** A user and a device the stores know nothing about. *)
Definition noHistory (r : Redis.Store) (tx : Transaction) : Prop :=
  default [] (Redis.tx24h r !! userId tx) = [] ∧
  default [] (Redis.tx7d r !! userId tx) = [] ∧
  default ∅ (Redis.device r !! deviceId tx) = (∅ : gset string) ∧
  default ∅ (Redis.userDevices24h r !! userId tx) = (∅ : gset string).

(** Closing a goal by evaluation. *)
Ltac run := vm_compute; reflexivity.

(** Splitting a goal along every test and every optional value it reads. *)
Ltac split_cases :=
  repeat (cbv beta iota zeta;
    match goal with
    | |- context [if ?b then _ else _] => destruct b
    | |- context [match ?o with Some _ => _ | None => _ end] => destruct o
    | |- context [let '(_, _) := ?p in _] => is_var p; destruct p
    end).

(** The same, also looking through the projections of the store. *)
Ltac split_store_cases :=
  repeat (cbv beta iota zeta;
    cbn [Redis.velocity Redis.amounts Redis.device Redis.geo Redis.tx24h
         Redis.tx7d Redis.userDevices24h Redis.txCache Redis.modelVersion
         Redis.deadline Redis.with_velocity Redis.with_device Redis.with_geo
         Redis.with_deadline Redis.expire fst snd];
    match goal with
    | |- context [if ?b then _ else _] => destruct b
    | |- context [match ?o with Some _ => _ | None => _ end] => destruct o
    | |- context [let '(_, _) := ?p in _] => is_var p; destruct p
    end).

(** ** Concrete scenarios

    Stand-ins for the collaborators and a few literal states and requests,
    in the manner of the mocks of [tests/services.test.ts]. *)

Module Scenario.
Import Redis.

(** A rational stand-in for the haversine distance: 111 km for each
    degree of displacement along either axis. *)
Definition planar (lat1 lon1 lat2 lon2 : Q) : Q :=
  111 * (Qabs (lat2 - lat1) + Qabs (lon2 - lon1)).

(** A network that always answers 0.5, as the mocked [predict] does, and
    whose update succeeds. *)
Definition predictHalf (_ : unit) (_ : list Q) : option Q := Some 0.5.
Definition fitOk (_ : unit) (_ : list Q) (_ : Q) : option unit := Some tt.

(** 2024-06-01T12:00:00Z and 2024-06-01T02:00:00Z. *)
Definition noon : Z := 1717243200000.
Definition night : Z := 1717207200000.

Definition lagos : Location := {| latitude := 6.5244; longitude := 3.3792 |}.
Definition abuja : Location := {| latitude := 9.0765; longitude := 7.3986 |}.

Definition transfer (user dev : string) (amt : Q) (loc : option Location)
    : Transaction :=
  {| userId := user; deviceId := dev; amount := amt;
     transactionType := "TRANSFER"; location := loc; createdAt := None |}.

Definition request (user dev : string) (amt : Q)
    (loc : option Routes.RawLocation) : Routes.CheckRequest :=
  {| Routes.body_userId := Some user;
     Routes.body_amount := Some amt;
     Routes.body_transactionType := Some "TRANSFER";
     Routes.body_deviceId := Some dev;
     Routes.body_location := loc;
     Routes.body_createdAt := None;
     Routes.req_ip := Some "127.0.0.1";
     Routes.req_remoteAddress := None |}.

(** [n] samples of 100 each, one per second, the latest [first] seconds
    before [noon]. *)
Fixpoint samples (n : nat) (first : Z) : zset :=
  match n with
  | O => []
  | S k =>
      let t := (noon - first * 1000)%Z in
      ({| s_amount := 100; s_time := t |}, t)
      :: samples k (first + 1)
  end.

Definition withVelocity (user : string) (z : zset) : Store :=
  with_velocity (<[user := z]> ∅) Redis.empty.

(** A fresh system whose network is not loaded, and one with the stand-in
    network. *)
Definition unloaded (r : Store) : Routes.System unit :=
  {| Routes.redis := r; Routes.transactions := []; Routes.model := None |}.
Definition loaded (r : Store) : Routes.System unit :=
  {| Routes.redis := r; Routes.transactions := []; Routes.model := Some tt |}.

Definition mlOff : Config :=
  {| thresholds := thresholds defaultConfig;
     features :=
       {| enableMLModel := false; enableGeolocation := true;
          enableDeviceTracking := true;
          enableRealTimeNotifications := true |} |}.

End Scenario.

(** ** The first revision of the rule engine *)

Module RulesV1.
Import Redis Rules.

Definition reason_velocity := "High transaction velocity detected".

(** [checkVelocity] of the first revision: one window, no expiry. *)
Definition checkVelocity (cfg : Config) (now : Z) (userId : string)
    (amount : Q) (r : Store) : CheckResult * Store :=
  let minuteAgo := (now - 60000)%Z in
  let z := zadd (default [] (velocity r !! userId)) now
                {| s_amount := amount; s_time := now |} in
  let r := with_velocity (<[userId := z]> (velocity r)) r in
  let recentTxns := zrangebyscore z minuteAgo now in
  if (Z.of_nat (length recentTxns) >? maxVelocityPerMinute (thresholds cfg))%Z
  then ({| score := 0.8; reason := Some reason_velocity |}, r)
  else (clean, r).

Section WithDistance.
Variable calculateDistance : Q → Q → Q → Q → Q.

(** [detectFraud] of the first revision. *)
Definition detectFraud (cfg : Config) (now : Z) (tx : Transaction)
    (r : Store) : Verdict * Store :=
  let acc : Q * list string := (0, []) in
  let '(velocityCheck, r) := checkVelocity cfg now (userId tx) (amount tx) r in
  let acc := tally acc velocityCheck in
  let '(deviceCheck, r) := checkDeviceRisk (userId tx) (deviceId tx) r in
  let acc := tally acc deviceCheck in
  let '(acc, r) :=
    match location tx with
    | Some loc =>
        let '(geoCheck, r) :=
          checkGeoRisk calculateDistance (userId tx) (latitude loc)
            (longitude loc) r in
        (tally acc geoCheck, r)
    | None => (acc, r)
    end in
  let acc :=
    if Js.gtb (amount tx) (inject_Z (maxTransactionAmount (thresholds cfg)))
    then (fst acc + 0.5, snd acc ++ [reason_amount_cap]) else acc in
  let hour := Js.getHours now in
  let acc :=
    if (nightTimeStart (thresholds cfg) <=? hour)%Z
       || (hour <=? nightTimeEnd (thresholds cfg))%Z
    then (fst acc + 0.3, snd acc ++ [reason_night]) else acc in
  let normalizedScore := Qmin (fst acc) 1 in
  ({| isFreudulent := Js.geb normalizedScore 0.7;
      riskScore := normalizedScore;
      reasons := snd acc |}, r).

End WithDistance.
End RulesV1.

(** ** The token middleware ([authenticateToken]) *)

Module Auth.

(** [s.split(sep)] for a separator of one character. *)
Fixpoint split (sep : ascii) (s : string) : list string :=
  match s with
  | EmptyString => [""]
  | String c rest =>
      if Ascii.eqb c sep then "" :: split sep rest
      else match split sep rest with
           | h :: t => String c h :: t
           | [] => [String c ""]
           end
  end.

(** What the middleware does with a request: answer it, or call [next()]
    with [req.user] set. *)
Inductive Outcome (User : Type) :=
| Answered (code : Z) (error : string)
| Passed (user : User).
Arguments Answered {User} code error.
Arguments Passed {User} user.

Section WithVerifier.

(** [jwt.verify token secret]: the decoded payload, or [None] on error. *)
Variable User : Type.
Variable verify : string → string → option User.

(** [authenticateToken]. *)
Definition authenticateToken (jwtSecret : string)
    (authorization : option string) : Outcome User :=
  let authHeader := authorization in
  let token :=
    if Js.truthy_str authHeader
    then split " " (default "" authHeader) !! 1%nat
    else authHeader in
  if negb (Js.truthy_str token)
  then Answered 401 "Access token required"
  else
    match verify (default "" token) jwtSecret with
    | None => Answered 403 "Invalid or expired token"
    | Some user => Passed user
    end.

End WithVerifier.
End Auth.

(** ** The statistics endpoint (GET /stats) *)

Module Stats.
Import Routes.

Inductive Bucket := LOW | MEDIUM | HIGH.

(** The [$switch] of the risk distribution: LOW below 0.3, MEDIUM below
    0.7, HIGH otherwise. *)
Definition riskBucket (score : Q) : Bucket :=
  if Js.gtb 0.3 score then LOW
  else if Js.gtb 0.7 score then MEDIUM
  else HIGH.

Definition Status_eqb (a b : Status) : bool :=
  match a, b with
  | PENDING, PENDING | APPROVED, APPROVED
  | DENIED, DENIED | FLAGGED, FLAGGED => true
  | _, _ => false
  end.

Definition Bucket_eqb (a b : Bucket) : bool :=
  match a, b with
  | LOW, LOW | MEDIUM, MEDIUM | HIGH, HIGH => true
  | _, _ => false
  end.

(** One entry of [last24Hours]: [{ _id, count, totalAmount }]. *)
Record StatusGroup := {
  g_status : Status;
  g_count : nat;
  g_totalAmount : Q
}.

(** One entry of [riskDistribution]: [{ _id, count }]. *)
Record BucketGroup := { g_bucket : Bucket; g_docs : nat }.

(** [$match: { createdAt: { $gte: new Date(Date.now() - 24h) } }]. *)
Definition recent (now : Z) (doc : TransactionRecord) : bool :=
  match createdAt (rec_tx doc) with
  | Some t => (now - 24 * 60 * 60 * 1000 <=? t)%Z
  | None => false
  end.

(** [$group]: a group exists for a key only when some document carries it. *)
Definition statusGroup (docs : list TransactionRecord) (st : Status)
    : option StatusGroup :=
  let mine := List.filter (fun d => Status_eqb (status d) st) docs in
  if (0 <? length mine)%nat
  then Some {| g_status := st; g_count := length mine;
               g_totalAmount := Js.sum (List.map (fun d => amount (rec_tx d)) mine) |}
  else None.

Definition bucketGroup (docs : list TransactionRecord) (b : Bucket)
    : option BucketGroup :=
  let mine :=
    List.filter (fun d => Bucket_eqb (riskBucket (rec_riskScore d)) b) docs in
  if (0 <? length mine)%nat
  then Some {| g_bucket := b; g_docs := length mine |}
  else None.

(** The two facets.  MongoDB leaves the order of the groups open; they are
    listed here in the order of the enumerations. *)
Definition last24Hours (now : Z) (docs : list TransactionRecord)
    : list StatusGroup :=
  omap (statusGroup (List.filter (recent now) docs))
       [PENDING; APPROVED; DENIED; FLAGGED].

Definition riskDistribution (docs : list TransactionRecord)
    : list BucketGroup :=
  omap (bucketGroup docs) [LOW; MEDIUM; HIGH].

End Stats.

(** ** More vocabulary *)

(** What each reason adds to the total of [detectFraud]. *)
Definition contribution (reason : string) : Q :=
  if String.eqb reason Rules.reason_velocity_minute then 0.8
  else if String.eqb reason Rules.reason_velocity_hour then 0.6
  else if String.eqb reason Rules.reason_device then 0.7
  else if String.eqb reason Rules.reason_geo then 0.6
  else if String.eqb reason Rules.reason_amount_cap then 0.5
  else if String.eqb reason Rules.reason_night then 0.3
  else 0.

(** The reasons [detectFraud] can give, in the order it gives them. *)
Definition ruleReasons : list string :=
  [ Rules.reason_velocity_minute; Rules.reason_velocity_hour;
    Rules.reason_device; Rules.reason_geo; Rules.reason_amount_cap;
    Rules.reason_night ].

(** Membership of a document in a bucket and in a status group. *)
Definition inBucket (b : Stats.Bucket) (d : Routes.TransactionRecord) : bool :=
  Stats.Bucket_eqb (Stats.riskBucket (Routes.rec_riskScore d)) b.

Definition hasStatus (st : Routes.Status) (d : Routes.TransactionRecord) : bool :=
  Stats.Status_eqb (Routes.status d) st.

(** The first revision's wording of a reason of the second. *)
Definition oldWording (reason : string) : string :=
  if String.eqb reason Rules.reason_velocity_minute
  then RulesV1.reason_velocity else reason.

(** The sample a transaction scored at [now] adds to the sorted sets. *)
Definition sampleOf (now : Z) (tx : Transaction) : Redis.Sample :=
  {| Redis.s_amount := amount tx; Redis.s_time := now |}.

(** The 24-hour amount history of a user as [checkAmountPatterns] reads it. *)
Definition amountWindow (r : Redis.Store) (user : string) (now : Z)
    : list Redis.Sample :=
  Redis.zrangebyscore (default [] (Redis.amounts r !! user))
    (now - 86400000) now.

(** The store after a run of transactions scored one after the other, each
    with its own configuration and clock reading. *)
Fixpoint scoreAll (dist : Q → Q → Q → Q → Q)
    (steps : list (Config * Z * Transaction)) (r : Redis.Store) : Redis.Store :=
  match steps with
  | [] => r
  | (cfg, now, tx) :: rest =>
      scoreAll dist rest (snd (Rules.detectFraud dist cfg now tx r))
  end.

(** Two stores that hold the same under every key other than
    [model:version]. *)
Definition sameButVersion (r r' : Redis.Store) : Prop :=
  Redis.velocity r' = Redis.velocity r ∧
  Redis.amounts r' = Redis.amounts r ∧
  Redis.device r' = Redis.device r ∧
  Redis.geo r' = Redis.geo r ∧
  Redis.tx24h r' = Redis.tx24h r ∧
  Redis.tx7d r' = Redis.tx7d r ∧
  Redis.userDevices24h r' = Redis.userDevices24h r ∧
  Redis.txCache r' = Redis.txCache r ∧
  Redis.deadline r' = Redis.deadline r.

(** ** More scenarios *)

Module Fixtures.
Import Redis.

(** A request whose type is not one the schema lists. *)
Definition wire : Routes.CheckRequest :=
  {| Routes.body_userId := Some "u1";
     Routes.body_amount := Some 5000;
     Routes.body_transactionType := Some "WIRE";
     Routes.body_deviceId := Some "d1";
     Routes.body_location := None;
     Routes.body_createdAt := None;
     Routes.req_ip := Some "127.0.0.1";
     Routes.req_remoteAddress := None |}.

(** One stored document, PENDING, scored 0.08. *)
Definition pendingDoc : Routes.TransactionRecord :=
  {| Routes.rec_tx := Scenario.transfer "u1" "d1" 5000 None;
     Routes.ipAddress := "127.0.0.1";
     Routes.rec_riskScore := 0.08;
     Routes.status := Routes.PENDING |}.

Definition oneDocument (m : option unit) : Routes.System unit :=
  {| Routes.redis := Redis.empty;
     Routes.transactions := [pendingDoc];
     Routes.model := m |}.

Definition report (id : nat) (fraud : bool) : Routes.ReportRequest :=
  {| Routes.body_transactionId := Some id;
     Routes.body_wasActuallyFraud := Some fraud |}.

(** A verifier that knows one token for one secret. *)
Definition verifyAbc (token secret : string) : option string :=
  if String.eqb token "abc" && String.eqb secret "s3cret"
  then Some "u1" else None.

(** Device d1 already used by u2; user u1 last seen in Abuja. *)
Definition sharedDevice : Store :=
  with_device (<["d1" := {["u2"]}]> ∅) Redis.empty.

Definition seenInAbuja : Store :=
  with_geo (<["u1" := (9.0765, 7.3986)]> ∅) Redis.empty.

(** [FRAUD_THRESHOLD=0.5]: the flag cutoff lowered from its default. *)
Definition halfThreshold : Config :=
  {| thresholds :=
       {| maxTransactionAmount := 1000000;
          maxDailyTransactions := 20;
          maxVelocityPerMinute := 5;
          nightTimeStart := 23;
          nightTimeEnd := 5;
          fraudThreshold := 0.5;
          riskThreshold := 0.5 |};
     features := features defaultConfig |}.

(** A body whose amount is the string ["abc"] and whose type is unknown. *)
Definition sloppyBody : list (string * Wire.JsValue) :=
  [ ("userId", Wire.JStr "u1");
    ("amount", Wire.JStr "abc");
    ("transactionType", Wire.JStr "WIRE");
    ("deviceId", Wire.JNum 7) ].

(** A network that counts the updates it has received. *)
Definition fitCount (n : nat) (_ : list Q) (_ : Q) : option nat := Some (S n).

Definition oneDocumentCounted : Routes.System nat :=
  {| Routes.redis := Redis.empty;
     Routes.transactions := [pendingDoc];
     Routes.model := Some 0%nat |}.

(** ObjectIds written as decimal positions ["0"], ["1"], ["2"]; every other
    value fails the cast. *)
Definition castDecimal (v : Wire.JsValue) : option nat :=
  match v with
  | Wire.JStr "0" => Some 0%nat
  | Wire.JStr "1" => Some 1%nat
  | Wire.JStr "2" => Some 2%nat
  | _ => None
  end.

End Fixtures.

(** * Properties *)

(** ** Numbers *)

Lemma gtb_true x y : Js.gtb x y = true ↔ y < x.
Proof.
  unfold Js.gtb. rewrite negb_true_iff, <- not_true_iff_false, Qle_bool_iff.
  split; [apply Qnot_le_lt | apply Qlt_not_le].
Qed.

Lemma gtb_false x y : Js.gtb x y = false ↔ x <= y.
Proof. unfold Js.gtb. rewrite negb_false_iff. apply Qle_bool_iff. Qed.

Lemma geb_true x y : Js.geb x y = true ↔ y <= x.
Proof. unfold Js.geb. apply Qle_bool_iff. Qed.

Lemma geb_false x y : Js.geb x y = false ↔ ¬ y <= x.
Proof. rewrite <- geb_true. symmetry. apply not_true_iff_false. Qed.

Lemma clamp_inside x : 0 <= x <= 1 → Js.clamp x 0 1 == x.
Proof.
  intros [Hlo Hhi]. unfold Js.clamp.
  rewrite (Q.min_l x 1) by exact Hhi. apply Q.max_r. exact Hlo.
Qed.

Lemma truthy_num_zero q : q == 0 → Js.truthy_num (Some q) = false.
Proof.
  intros H. simpl. apply negb_false_iff. apply Qeq_bool_iff. exact H.
Qed.

(** ** The rule engine *)

Section RuleEngine.
Import Redis Rules.

Variable dist : Q → Q → Q → Q → Q.

Lemma tally_nonneg acc c : 0 <= fst acc → 0 <= fst (tally acc c).
Proof.
  intros H. unfold tally. destruct (Js.gtb (score c) 0) eqn:E; [|exact H].
  apply gtb_true in E. simpl. lra.
Qed.

Lemma tally_said acc c : snd (tally acc c) = snd acc ++ said c.
Proof.
  unfold tally, said. destruct (Js.gtb (score c) 0); simpl.
  - destruct (Js.truthy_str (reason c)); simpl; [reflexivity|].
    symmetry. apply app_nil_r.
  - symmetry. apply app_nil_r.
Qed.

Lemma tally_clean acc : tally acc clean = acc.
Proof. reflexivity. Qed.

(** The rule score lies between 0 and 1 whatever the stores hold. *)
Lemma detectFraud_riskScore_range cfg now tx r :
  0 <= riskScore (fst (detectFraud dist cfg now tx r)) <= 1.
Proof.
  unfold detectFraud.
  destruct (checkVelocity cfg now (userId tx) (amount tx) r) as [vc r1].
  destruct (checkDeviceRisk (userId tx) (deviceId tx) r1) as [dc r2].
  set (a2 := tally (tally (0, []) vc) dc).
  assert (H2 : 0 <= fst a2) by (do 2 apply tally_nonneg; simpl; lra).
  set (g := match location tx with Some loc => _ | None => _ end).
  assert (Hg : 0 <= fst (fst g)).
  { subst g. destruct (location tx) as [loc|]; [|exact H2].
    destruct (checkGeoRisk dist (userId tx) (latitude loc) (longitude loc) r2)
      as [gc r3].
    simpl. apply tally_nonneg, H2. }
  destruct g as [a3 r3]. simpl in Hg.
  set (a4 := if Js.gtb _ _ then _ else a3).
  assert (H4 : 0 <= fst a4) by (subst a4; destruct (Js.gtb _ _); simpl; lra).
  set (a5 := if (_ || _)%bool then _ else a4).
  assert (H5 : 0 <= fst a5) by (subst a5; destruct (_ || _)%bool; simpl; lra).
  simpl. destruct (Q.min_spec (fst a5) 1) as [[? ->]|[? ->]]; lra.
Qed.

(** The reasons of a verdict are those of the three checks, in the order
    the checks run, followed by the two inline rules; the store after the
    verdict is the one the last check left. *)
Lemma detectFraud_parts cfg now tx r :
  let vc := checkVelocity cfg now (userId tx) (amount tx) r in
  let dc := checkDeviceRisk (userId tx) (deviceId tx) (snd vc) in
  let gc :=
    match location tx with
    | Some loc =>
        checkGeoRisk dist (userId tx) (latitude loc) (longitude loc) (snd dc)
    | None => (clean, snd dc)
    end in
  reasons (fst (detectFraud dist cfg now tx r)) =
    said (fst vc) ++ said (fst dc) ++ said (fst gc)
    ++ (if Js.gtb (amount tx) (inject_Z (maxTransactionAmount (thresholds cfg)))
        then [reason_amount_cap] else [])
    ++ (if (nightTimeStart (thresholds cfg) <=? Js.getHours now)%Z
           || (Js.getHours now <=? nightTimeEnd (thresholds cfg))%Z
        then [reason_night] else [])
  ∧ snd (detectFraud dist cfg now tx r) = snd gc.
Proof.
  unfold detectFraud.
  destruct (checkVelocity cfg now (userId tx) (amount tx) r) as [vc r1].
  destruct (checkDeviceRisk (userId tx) (deviceId tx) r1) as [dc r2] eqn:Ed.
  cbn [fst snd]. rewrite Ed. cbn [fst snd].
  assert (Hg : ∃ gc r3,
    match location tx with
    | Some loc =>
        checkGeoRisk dist (userId tx) (latitude loc) (longitude loc) r2
    | None => (clean, r2)
    end = (gc, r3) ∧
    match location tx with
    | Some loc =>
        let '(geoCheck, r0) :=
          checkGeoRisk dist (userId tx) (latitude loc) (longitude loc) r2 in
        (tally (tally (tally (0, []) vc) dc) geoCheck, r0)
    | None => (tally (tally (0, []) vc) dc, r2)
    end = (tally (tally (tally (0, []) vc) dc) gc, r3)).
  { destruct (location tx) as [loc|].
    - destruct (checkGeoRisk dist (userId tx) (latitude loc) (longitude loc) r2)
        as [gc r3]. by exists gc, r3.
    - by exists clean, r2. }
  destruct Hg as (gc & r3 & -> & ->). cbn [fst snd].
  split; [|reflexivity].
  destruct (Js.gtb (amount tx) _); destruct (_ || _)%bool; cbn [fst snd reasons];
    rewrite !tally_said; cbn [snd]; rewrite <- ?app_assoc, ?app_nil_r;
    reflexivity.
Qed.

End RuleEngine.

(** ** Fusion and decision in /check *)

Section Check.
Import Redis Rules ML Routes.

Variable dist : Q → Q → Q → Q → Q.
Variable Model : Type.
Variable predict : Model → list Q → option Q.

Lemma fallbackRiskScore_range tx : 0 <= fallbackRiskScore tx <= 1.
Proof.
  unfold fallbackRiskScore.
  repeat (destruct (Js.gtb _ _)); lra.
Qed.

Lemma predictRisk_range m now tx r :
  (∀ net x sc, predict net x = Some sc → 0 <= sc <= 1) →
  0 <= predictRisk Model predict m now tx r <= 1.
Proof.
  intros Hp. unfold predictRisk. destruct m as [net|].
  - destruct (predict net _) as [sc|] eqn:E.
    + exact (Hp _ _ _ E).
    + apply fallbackRiskScore_range.
  - apply fallbackRiskScore_range.
Qed.

(** What a scored answer tells about the run of the handler. *)
Lemma check_scored cfg now req s body s' :
  check dist Model predict cfg now req s = (Scored body, s') →
  let tx := bodyTransaction req in
  let rules := detectFraud dist cfg now tx (redis s) in
  let final :=
    riskScore (fst rules) * 0.6
    + predictRisk Model predict (model s) now tx (snd rules) * 0.4 in
  validateTransaction req = None ∧
  body = {| transactionId := length (transactions s);
            body_riskScore := final;
            isHighRisk := Js.geb final 0.7;
            body_reasons := reasons (fst rules);
            recommendedAction := if Js.geb final 0.7 then DENY else ALLOW |} ∧
  ∃ doc, transactions s' = transactions s ++ [doc] ∧
         rec_riskScore doc = final ∧
         status doc = (if Js.geb final 0.7 then FLAGGED else PENDING).
Proof.
  unfold check. intros H.
  destruct (validateTransaction req) as [rej|] eqn:Ev.
  { inversion H; subst. destruct (body_location req) as [l|];
      unfold validateTransaction in Ev;
      repeat (destruct (_ || _)%bool in Ev); try destruct (body_location req);
      try destruct (_ || _)%bool in Ev; discriminate. }
  destruct (detectFraud dist cfg now (bodyTransaction req) (redis s))
    as [v r] eqn:Ed.
  cbn [fst snd].
  destruct (schemaAccepts _) in H; [|discriminate].
  inversion H; subst. split; [reflexivity|]. split; [reflexivity|].
  eexists. split; [reflexivity|]. split; reflexivity.
Qed.

(** C1.  Whenever /check answers with a score, that score is
    [clamp (0.6 * ruleScore + 0.4 * modelScore) 0 1], where [ruleScore] is
    the rule engine's score (always within [0, 1]) and [modelScore] the
    scorer's answer (within [0, 1] as soon as the network's outputs are);
    hence the returned score lies within [0, 1]. *)
Theorem check_fuses_scores cfg now req s body s' :
  (∀ net x sc, predict net x = Some sc → 0 <= sc <= 1) →
  check dist Model predict cfg now req s = (Scored body, s') →
  let tx := bodyTransaction req in
  let rules := detectFraud dist cfg now tx (redis s) in
  let ruleScore := riskScore (fst rules) in
  let modelScore := predictRisk Model predict (model s) now tx (snd rules) in
  0 <= ruleScore <= 1 ∧ 0 <= modelScore <= 1 ∧
  body_riskScore body == Js.clamp (0.6 * ruleScore + 0.4 * modelScore) 0 1 ∧
  0 <= body_riskScore body <= 1.
Proof.
  intros Hp H tx rules ruleScore modelScore.
  destruct (check_scored _ _ _ _ _ _ H) as (_ & -> & _).
  fold tx rules ruleScore modelScore. cbn [body_riskScore].
  assert (Hr : 0 <= ruleScore <= 1)
    by apply detectFraud_riskScore_range.
  assert (Hm : 0 <= modelScore <= 1)
    by (apply predictRisk_range; exact Hp).
  split; [exact Hr|]. split; [exact Hm|].
  split; [|lra].
  rewrite clamp_inside by lra. lra.
Qed.

(** The decision of /check is taken against the literal 0.7, whatever the
    configuration: in a scored answer [isHighRisk] holds exactly when the
    score is at least 0.7, the recommended action is DENY exactly when
    [isHighRisk] and ALLOW otherwise, and the document stored for the
    transaction is FLAGGED exactly when its score is at least 0.7 and PENDING
    otherwise. *)
Theorem check_decision cfg now req s body s' :
  check dist Model predict cfg now req s = (Scored body, s') →
  (isHighRisk body = true ↔ 0.7 <= body_riskScore body) ∧
  (recommendedAction body = DENY ↔ isHighRisk body = true) ∧
  (recommendedAction body = ALLOW ↔ isHighRisk body = false) ∧
  ∃ doc, transactions s' !! transactionId body = Some doc ∧
         transactions s' = transactions s ++ [doc] ∧
         rec_riskScore doc = body_riskScore body ∧
         (status doc = FLAGGED ↔ 0.7 <= rec_riskScore doc) ∧
         (status doc = PENDING ↔ ¬ 0.7 <= rec_riskScore doc).
Proof.
  intros H.
  destruct (check_scored _ _ _ _ _ _ H) as (_ & -> & doc & Ht & Hs & Hst).
  cbn [isHighRisk body_riskScore recommendedAction transactionId].
  set (final := _ * 0.6 + _ * 0.4) in *.
  split; [apply geb_true|].
  split; [destruct (Js.geb final 0.7); split; congruence|].
  split; [destruct (Js.geb final 0.7); split; congruence|].
  exists doc. rewrite Ht, Hs, Hst.
  split; [apply list_lookup_middle; reflexivity|].
  split; [reflexivity|]. split; [reflexivity|].
  destruct (Js.geb final 0.7) eqn:E.
  - apply geb_true in E. split; split; intros; try congruence; try done.
  - apply geb_false in E. split; split; intros; try congruence; try done.
Qed.

(** C2.  The configured cutoff [fraudThreshold] is not the one /check
    decides against: a scored answer whose score has reached
    [fraudThreshold] but lies below 0.7 is not high risk, recommends ALLOW,
    and its document is stored PENDING. *)
Theorem fraud_threshold_not_consulted cfg now req s body s' :
  check dist Model predict cfg now req s = (Scored body, s') →
  fraudThreshold (thresholds cfg) <= body_riskScore body →
  body_riskScore body < 0.7 →
  isHighRisk body = false ∧
  recommendedAction body = ALLOW ∧
  ∃ doc, transactions s' !! transactionId body = Some doc ∧
         rec_riskScore doc = body_riskScore body ∧
         status doc = PENDING.
Proof.
  intros H _ Hlow.
  destruct (check_scored _ _ _ _ _ _ H) as (_ & -> & doc & Ht & Hs & Hst).
  cbn [isHighRisk body_riskScore recommendedAction transactionId] in *.
  set (final := _ * 0.6 + _ * 0.4) in *.
  assert (E : Js.geb final 0.7 = false) by (apply geb_false; lra).
  rewrite E in *. split; [reflexivity|]. split; [reflexivity|].
  exists doc. rewrite Ht. split; [apply list_lookup_middle; reflexivity|].
  split; assumption.
Qed.

End Check.

(** ** Sorted sets and the velocity window *)

Section Velocity.
Import Redis Rules.

(** The member just added is read back by any range holding its score. *)
Lemma zrangebyscore_zadd z sc m lo hi :
  (lo <= sc <= hi)%Z →
  zrangebyscore (zadd z sc m) lo hi
  = m :: zrangebyscore
           (List.filter (fun e => negb (Sample_eqb (fst e) m)) z) lo hi.
Proof.
  intros [Hlo Hhi]. unfold zrangebyscore, zadd. cbn [List.filter snd].
  apply Z.leb_le in Hlo, Hhi. rewrite Hlo, Hhi. reflexivity.
Qed.

(** Removing a member that is not there removes nothing. *)
Lemma filter_fresh (z : zset) m :
  Forall (fun e => Sample_eqb (fst e) m = false) z →
  List.filter (fun e => negb (Sample_eqb (fst e) m)) z = z.
Proof.
  induction 1 as [|e z He _ IH]; [reflexivity|].
  cbn [List.filter]. rewrite He. cbn [negb]. by rewrite IH.
Qed.

Lemma zrangebyscore_zadd_fresh z sc m lo hi :
  (lo <= sc <= hi)%Z →
  Forall (fun e => Sample_eqb (fst e) m = false) z →
  zrangebyscore (zadd z sc m) lo hi = m :: zrangebyscore z lo hi.
Proof.
  intros Hsc Hfresh. rewrite zrangebyscore_zadd by exact Hsc.
  by rewrite filter_fresh.
Qed.

(** The store [checkVelocity] leaves does not depend on its verdict. *)
Lemma checkVelocity_store cfg now user amt r :
  snd (checkVelocity cfg now user amt r)
  = expire (VELOCITY_KEY_PREFIX +:+ user) 3600 now
      (with_velocity
         (<[user := zadd (default [] (velocity r !! user)) now
                         {| s_amount := amt; s_time := now |}]> (velocity r))
         r).
Proof.
  unfold checkVelocity.
  destruct (_ >? maxVelocityPerMinute _)%Z; [reflexivity|].
  destruct (_ >? 20)%Z; reflexivity.
Qed.

(** After the call the user's window is the one over the enlarged set. *)
Lemma window_after_checkVelocity cfg now user amt r span :
  window (snd (checkVelocity cfg now user amt r)) user now span
  = zrangebyscore
      (zadd (default [] (velocity r !! user)) now
            {| s_amount := amt; s_time := now |})
      (now - span) now.
Proof.
  rewrite checkVelocity_store. unfold window, expire.
  cbn [velocity with_deadline with_velocity].
  by rewrite lookup_insert_eq.
Qed.

(** The verdict of [checkVelocity], in terms of the windows it has just
    written to. *)
Lemma checkVelocity_verdict cfg now user amt r :
  let r' := snd (checkVelocity cfg now user amt r) in
  fst (checkVelocity cfg now user amt r)
  = if (Z.of_nat (length (window r' user now 60000))
        >? maxVelocityPerMinute (thresholds cfg))%Z
    then {| score := 0.8; reason := Some reason_velocity_minute |}
    else if (Z.of_nat (length (window r' user now 3600000)) >? 20)%Z
    then {| score := 0.6; reason := Some reason_velocity_hour |}
    else clean.
Proof.
  cbn zeta. rewrite !window_after_checkVelocity. unfold checkVelocity.
  destruct (_ >? maxVelocityPerMinute _)%Z; [reflexivity|].
  destruct (_ >? 20)%Z; reflexivity.
Qed.

(** Neither the device check nor the geography check touches the
    velocity sets, and neither the velocity check nor the device check
    touches the stored locations. *)
Lemma checkDeviceRisk_velocity user dev r :
  velocity (snd (checkDeviceRisk user dev r)) = velocity r.
Proof. unfold checkDeviceRisk. destruct (_ && _); reflexivity. Qed.

Lemma checkDeviceRisk_geo user dev r :
  geo (snd (checkDeviceRisk user dev r)) = geo r.
Proof. unfold checkDeviceRisk. destruct (_ && _); reflexivity. Qed.

Lemma checkVelocity_geo cfg now user amt r :
  geo (snd (checkVelocity cfg now user amt r)) = geo r.
Proof. rewrite checkVelocity_store. reflexivity. Qed.

Lemma checkGeoRisk_velocity dist user lat lon r :
  velocity (snd (checkGeoRisk dist user lat lon r)) = velocity r.
Proof.
  unfold checkGeoRisk. destruct (geo r !! user) as [[a b]|]; [|reflexivity].
  destruct (Js.gtb _ _); reflexivity.
Qed.

Lemma detectFraud_velocity dist cfg now tx r :
  velocity (snd (detectFraud dist cfg now tx r))
  = velocity (snd (checkVelocity cfg now (userId tx) (amount tx) r)).
Proof.
  rewrite (proj2 (detectFraud_parts dist cfg now tx r)).
  destruct (location tx) as [loc|]; cbn [snd].
  - by rewrite checkGeoRisk_velocity, checkDeviceRisk_velocity.
  - by rewrite checkDeviceRisk_velocity.
Qed.

Lemma detectFraud_window dist cfg now tx r span :
  window (snd (detectFraud dist cfg now tx r)) (userId tx) now span
  = window (snd (checkVelocity cfg now (userId tx) (amount tx) r))
      (userId tx) now span.
Proof. unfold window. by rewrite detectFraud_velocity. Qed.

(** What the device and geography checks can say. *)
Lemma said_checkDeviceRisk user dev r x :
  x ∈ said (fst (checkDeviceRisk user dev r)) → x = reason_device.
Proof.
  unfold checkDeviceRisk. destruct (_ && _); cbn; intros H.
  - by apply list_elem_of_singleton in H.
  - by apply elem_of_nil in H.
Qed.

Lemma said_checkGeoRisk dist user lat lon r x :
  x ∈ said (fst (checkGeoRisk dist user lat lon r)) → x = reason_geo.
Proof.
  unfold checkGeoRisk.
  destruct (geo r !! user) as [[a b]|];
    [destruct (Js.gtb _ _)|]; cbn; intros H;
    solve [by apply list_elem_of_singleton in H | by apply elem_of_nil in H].
Qed.

(** Every reason of a verdict comes from the velocity check or is one of
    the four reasons of the other rules. *)
Lemma detectFraud_reason_origin dist cfg now tx r x :
  x ∈ reasons (fst (detectFraud dist cfg now tx r)) →
  x ∈ said (fst (checkVelocity cfg now (userId tx) (amount tx) r))
  ∨ x ∈ [reason_device; reason_geo; reason_amount_cap; reason_night].
Proof.
  rewrite (proj1 (detectFraud_parts dist cfg now tx r)).
  rewrite !elem_of_app. intros [H|[H|[H|[H|H]]]].
  - by left.
  - right. apply said_checkDeviceRisk in H. subst. set_solver.
  - right. destruct (location tx) as [loc|].
    + apply said_checkGeoRisk in H. subst. set_solver.
    + by apply elem_of_nil in H.
  - right. destruct (Js.gtb _ _); [|by apply elem_of_nil in H].
    apply list_elem_of_singleton in H. subst. set_solver.
  - right. destruct (_ || _)%bool; [|by apply elem_of_nil in H].
    apply list_elem_of_singleton in H. subst. set_solver.
Qed.

End Velocity.

(** ** Velocity rules (R1 and R2) *)

Section VelocityRules.
Import Redis Rules.

Variable dist : Q → Q → Q → Q → Q.

Lemma said_minute :
  said {| score := 0.8; reason := Some reason_velocity_minute |}
  = [reason_velocity_minute].
Proof. reflexivity. Qed.

Lemma minute_reason_reported cfg now tx r :
  fst (checkVelocity cfg now (userId tx) (amount tx) r)
  = {| score := 0.8; reason := Some reason_velocity_minute |} →
  reason_velocity_minute ∈ reasons (fst (detectFraud dist cfg now tx r)).
Proof.
  intros Hv. rewrite (proj1 (detectFraud_parts dist cfg now tx r)).
  rewrite Hv, said_minute. apply elem_of_app. left. set_solver.
Qed.

Lemma hour_reason_absent cfg now tx r :
  fst (checkVelocity cfg now (userId tx) (amount tx) r)
  = {| score := 0.8; reason := Some reason_velocity_minute |} →
  reason_velocity_hour ∉ reasons (fst (detectFraud dist cfg now tx r)).
Proof.
  intros Hv Hin. apply detectFraud_reason_origin in Hin.
  rewrite Hv, said_minute in Hin.
  destruct Hin as [Hin|Hin].
  - apply list_elem_of_singleton in Hin. discriminate Hin.
  - repeat (apply elem_of_cons in Hin; destruct Hin as [Hin|Hin];
            [discriminate Hin|]).
    by apply elem_of_nil in Hin.
Qed.

(** [reduce] with a start value. *)
Lemma sum_shift (l : list Q) (a : Q) : fold_left Qplus l a == a + Js.sum l.
Proof.
  unfold Js.sum. revert a. induction l as [|x l IH]; intros a; cbn [fold_left].
  - lra.
  - rewrite (IH (a + x)), (IH (0 + x)). lra.
Qed.

Lemma sum_cons (x : Q) (l : list Q) : Js.sum (x :: l) == x + Js.sum l.
Proof. unfold Js.sum at 1. cbn [fold_left]. rewrite sum_shift. lra. Qed.

(** The rule score is the capped sum of what the listed reasons add. *)
Lemma detectFraud_score_sum cfg now tx r :
  riskScore (fst (detectFraud dist cfg now tx r))
  == Qmin (Js.sum (List.map contribution
                     (reasons (fst (detectFraud dist cfg now tx r))))) 1.
Proof.
  unfold detectFraud, checkVelocity, checkDeviceRisk, checkGeoRisk.
  split_cases; vm_compute; reflexivity.
Qed.

(** The reasons of a verdict: those of the velocity check, then reasons of
    the other rules. *)
Lemma detectFraud_reasons_split cfg now tx r :
  ∃ others,
    reasons (fst (detectFraud dist cfg now tx r))
    = said (fst (checkVelocity cfg now (userId tx) (amount tx) r)) ++ others ∧
    ∀ x, x ∈ others →
         x ∈ [reason_device; reason_geo; reason_amount_cap; reason_night].
Proof.
  eexists. split; [exact (proj1 (detectFraud_parts dist cfg now tx r))|].
  intros x. rewrite !elem_of_app. intros [H|[H|[H|H]]].
  - apply said_checkDeviceRisk in H. subst. set_solver.
  - destruct (location tx) as [loc|].
    + apply said_checkGeoRisk in H. subst. set_solver.
    + by apply elem_of_nil in H.
  - destruct (Js.gtb _ _); [|by apply elem_of_nil in H].
    apply list_elem_of_singleton in H. subst. set_solver.
  - destruct (_ || _)%bool; [|by apply elem_of_nil in H].
    apply list_elem_of_singleton in H. subst. set_solver.
Qed.

(** C4, as amended.  When the per-minute and the per-hour condition both
    hold, the velocity check answers with the per-minute result alone.  The
    per-minute reason heads the reasons and the per-hour reason is not among
    them; the rule score is 0.8 plus the contributions of the reasons of the
    other rules, capped at 1, with nothing added for the per-hour condition;
    when no other rule fires it is 0.8. *)
Theorem velocity_minute_rule_takes_precedence cfg now tx r :
  let out := detectFraud dist cfg now tx r in
  (Z.of_nat (length (window (snd out) (userId tx) now 60000))
   > maxVelocityPerMinute (thresholds cfg))%Z →
  (Z.of_nat (length (window (snd out) (userId tx) now 3600000)) > 20)%Z →
  fst (checkVelocity cfg now (userId tx) (amount tx) r)
  = {| score := 0.8; reason := Some reason_velocity_minute |} ∧
  reason_velocity_minute ∈ reasons (fst out) ∧
  (reason_velocity_hour ∉ reasons (fst out)) ∧
  (∃ others,
     reasons (fst out) = reason_velocity_minute :: others ∧
     (reason_velocity_minute ∉ others) ∧
     (reason_velocity_hour ∉ others) ∧
     riskScore (fst out)
     == Qmin (0.8 + Js.sum (List.map contribution others)) 1) ∧
  (reasons (fst out) = [reason_velocity_minute] → riskScore (fst out) == 0.8).
Proof.
  intros out Hmin _. subst out. rewrite detectFraud_window in Hmin.
  assert (Hv : fst (checkVelocity cfg now (userId tx) (amount tx) r)
               = {| score := 0.8; reason := Some reason_velocity_minute |}).
  { rewrite checkVelocity_verdict. cbn zeta.
    apply Z.gt_lt, Z.gtb_lt in Hmin. by rewrite Hmin. }
  split; [exact Hv|]. split; [by apply minute_reason_reported|].
  split; [by apply hour_reason_absent|].
  pose proof (detectFraud_score_sum cfg now tx r) as Hsum.
  split.
  - destruct (detectFraud_reasons_split cfg now tx r) as (others & Hr & Ho).
    rewrite Hv, said_minute in Hr. exists others.
    split; [exact Hr|].
    assert (Hnot : ∀ x, x = reason_velocity_minute ∨ x = reason_velocity_hour →
                        x ∉ others).
    { intros x Hx Hin. apply Ho in Hin.
      repeat (apply elem_of_cons in Hin; destruct Hin as [Hin|Hin];
              [subst x; destruct Hx; discriminate|]).
      by apply elem_of_nil in Hin. }
    split; [apply Hnot; by left|]. split; [apply Hnot; by right|].
    rewrite Hsum, Hr. cbn [app List.map]. rewrite sum_cons.
    reflexivity.
  - intros E. rewrite Hsum, E. vm_compute. reflexivity.
Qed.

(** When only the per-hour condition holds, the per-hour result is the
    one reported. *)
Lemma velocity_hour_rule_alone cfg now tx r :
  let out := detectFraud dist cfg now tx r in
  (Z.of_nat (length (window (snd out) (userId tx) now 60000))
   <= maxVelocityPerMinute (thresholds cfg))%Z →
  (Z.of_nat (length (window (snd out) (userId tx) now 3600000)) > 20)%Z →
  fst (checkVelocity cfg now (userId tx) (amount tx) r)
  = {| score := 0.6; reason := Some reason_velocity_hour |} ∧
  reason_velocity_hour ∈ reasons (fst out).
Proof.
  intros out Hmin Hhour. subst out. rewrite detectFraud_window in Hmin, Hhour.
  assert (Hv : fst (checkVelocity cfg now (userId tx) (amount tx) r)
               = {| score := 0.6; reason := Some reason_velocity_hour |}).
  { rewrite checkVelocity_verdict. cbn zeta.
    apply Z.gt_lt, Z.gtb_lt in Hhour. rewrite Hhour.
    destruct (_ >? maxVelocityPerMinute _)%Z eqn:E; [|reflexivity].
    apply Z.gtb_lt in E. lia. }
  split; [exact Hv|].
  rewrite (proj1 (detectFraud_parts dist cfg now tx r)), Hv.
  apply elem_of_app. left. cbn. set_solver.
Qed.

(** C6, as amended.  The sample of the transaction being scored is in the
    per-minute window, and rule R1 is decided on the window as it stands
    after that insertion; and when the window held exactly
    [maxVelocityPerMinute] samples before the request and none of the
    user's stored samples is the same member (same amount, same
    millisecond), the window grows by one and rule R1 fires. *)
Theorem own_sample_counts_towards_velocity cfg now tx r :
  let mine := {| s_amount := amount tx; s_time := now |} in
  let out := detectFraud dist cfg now tx r in
  mine ∈ window (snd out) (userId tx) now 60000 ∧
  (reason (fst (checkVelocity cfg now (userId tx) (amount tx) r))
   = Some reason_velocity_minute
   ↔ (Z.of_nat (length (window (snd out) (userId tx) now 60000))
      > maxVelocityPerMinute (thresholds cfg))%Z) ∧
  (Z.of_nat (length (window r (userId tx) now 60000))
   = maxVelocityPerMinute (thresholds cfg) →
   Forall (fun e => Sample_eqb (fst e) mine = false)
          (default [] (velocity r !! userId tx)) →
   length (window (snd out) (userId tx) now 60000)
   = S (length (window r (userId tx) now 60000)) ∧
   fst (checkVelocity cfg now (userId tx) (amount tx) r)
   = {| score := 0.8; reason := Some reason_velocity_minute |} ∧
   reason_velocity_minute ∈ reasons (fst out)).
Proof.
  intros mine out. subst out.
  rewrite detectFraud_window. split; [|split].
  - rewrite window_after_checkVelocity. fold mine.
    rewrite zrangebyscore_zadd by lia. apply list_elem_of_here.
  - rewrite checkVelocity_verdict. cbn zeta.
    destruct (_ >? maxVelocityPerMinute _)%Z eqn:E.
    + apply Z.gtb_lt in E. split; [lia|reflexivity].
    + rewrite Z.gtb_ltb in E. apply Z.ltb_ge in E.
      split; [|lia]. destruct (_ >? 20)%Z; discriminate.
  - rewrite window_after_checkVelocity. fold mine.
    intros Hcount Hfresh.
    rewrite zrangebyscore_zadd_fresh by (lia || exact Hfresh).
    assert (Hv : fst (checkVelocity cfg now (userId tx) (amount tx) r)
                 = {| score := 0.8; reason := Some reason_velocity_minute |}).
    { rewrite checkVelocity_verdict. cbn zeta.
      rewrite window_after_checkVelocity. fold mine.
      rewrite zrangebyscore_zadd_fresh by (lia || exact Hfresh).
      cbn [length]. fold (window r (userId tx) now 60000).
      destruct (_ >? _)%Z eqn:E; [reflexivity|].
      rewrite Z.gtb_ltb in E. apply Z.ltb_ge in E. lia. }
    split; [reflexivity|]. split; [exact Hv|].
    by apply minute_reason_reported.
Qed.

End VelocityRules.

(** ** Geography rule (R6) and the stored location *)

Section Geography.
Import Redis Rules.

Variable dist : Q → Q → Q → Q → Q.

Lemma detectFraud_geo cfg now tx r loc :
  location tx = Some loc →
  geo (snd (detectFraud dist cfg now tx r))
  = geo (snd (checkGeoRisk dist (userId tx) (latitude loc) (longitude loc) r))
  ∧ said (fst (checkGeoRisk dist (userId tx) (latitude loc) (longitude loc) r))
    ⊆ reasons (fst (detectFraud dist cfg now tx r)).
Proof.
  intros Hloc.
  destruct (detectFraud_parts dist cfg now tx r) as [Hr Hs].
  rewrite Hr, Hs, Hloc. clear Hr Hs.
  set (r2 := snd (checkDeviceRisk _ _ _)).
  assert (Hg : geo r2 = geo r)
    by (subst r2; by rewrite checkDeviceRisk_geo, checkVelocity_geo).
  unfold checkGeoRisk. rewrite Hg.
  destruct (geo r !! userId tx) as [[a b]|];
    [destruct (Js.gtb _ _)|]; cbn [fst snd geo with_geo]; rewrite ?Hg;
    (split; [reflexivity|]); intros x Hx; rewrite !elem_of_app;
    right; right; left; exact Hx.
Qed.

(** X7.  When the rule does not fire (no stored location, or one within
    100 km), the location of the transaction is the one stored afterwards. *)
Lemma location_stored_when_near cfg now tx r loc :
  location tx = Some loc →
  (∀ last, geo r !! userId tx = Some last →
           dist (latitude loc) (longitude loc) (fst last) (snd last) <= 100) →
  geo (snd (detectFraud dist cfg now tx r)) !! userId tx
  = Some (latitude loc, longitude loc).
Proof.
  intros Hloc Hnear.
  rewrite (proj1 (detectFraud_geo cfg now tx r loc Hloc)).
  unfold checkGeoRisk.
  destruct (geo r !! userId tx) as [[a b]|] eqn:E.
  - specialize (Hnear _ eq_refl). apply gtb_false in Hnear.
    cbn [fst snd] in Hnear. rewrite Hnear. cbn [snd geo with_geo].
    by rewrite lookup_insert_eq.
  - cbn [snd geo with_geo]. by rewrite lookup_insert_eq.
Qed.

(** C7, what the code does.  When the stored location of the user is more
    than 100 km from the location of the transaction, rule R6 fires and
    the stored location is left as it was: it is not replaced by the
    location of the transaction. *)
Theorem geo_jump_keeps_previous_location cfg now tx r loc last :
  location tx = Some loc →
  geo r !! userId tx = Some last →
  100 < dist (latitude loc) (longitude loc) (fst last) (snd last) →
  let out := detectFraud dist cfg now tx r in
  reason_geo ∈ reasons (fst out) ∧
  geo (snd out) !! userId tx = Some last.
Proof.
  intros Hloc Hlast Hfar out. subst out.
  destruct (detectFraud_geo cfg now tx r loc Hloc) as [Hg Hsaid].
  rewrite Hg. revert Hsaid. unfold checkGeoRisk. rewrite Hlast.
  destruct last as [a b]. cbn [fst snd] in Hfar.
  apply gtb_true in Hfar. rewrite Hfar. cbn [fst snd].
  intros Hsaid. split; [|exact Hlast].
  apply Hsaid. cbn. set_solver.
Qed.

End Geography.

(** ** Amount patterns (R3) *)

Section AmountPatterns.
Import Redis Rules.

(** The check itself answers a spike with 0.7 and its reason. *)
Lemma checkAmountPatterns_spike now user amt r :
  let history :=
    List.map s_amount
      (zrangebyscore (default [] (amounts r !! user)) (now - 86400000) now) in
  history ≠ [] →
  Js.sum history / inject_Z (Z.of_nat (length history)) * 10 < amt →
  100000 < amt →
  fst (checkAmountPatterns now user amt r)
  = {| score := 0.7; reason := Some reason_amount_spike |}.
Proof.
  intros history Hne Havg Hbig. unfold checkAmountPatterns.
  fold history. destruct (0 <? length history)%nat eqn:E.
  - apply gtb_true in Havg, Hbig. by rewrite Havg, Hbig.
  - destruct history; [done|discriminate E].
Qed.

(** No verdict of [detectFraud] carries the spike reason: the method that
    produces it is never called. *)
Lemma detectFraud_never_says_spike dist cfg now tx r :
  reason_amount_spike ∉ reasons (fst (detectFraud dist cfg now tx r)).
Proof.
  intros Hin. apply detectFraud_reason_origin in Hin.
  destruct Hin as [Hin|Hin].
  - rewrite checkVelocity_verdict in Hin. cbn zeta in Hin.
    destruct (_ >? maxVelocityPerMinute _)%Z;
      [|destruct (_ >? 20)%Z]; cbn in Hin;
      solve [ apply list_elem_of_singleton in Hin; discriminate Hin
            | by apply elem_of_nil in Hin ].
  - repeat (apply elem_of_cons in Hin; destruct Hin as [Hin|Hin];
            [discriminate Hin|]).
    by apply elem_of_nil in Hin.
Qed.

(** Nor does [detectFraud] read or write the amount history. *)
Lemma detectFraud_amounts dist cfg now tx r :
  amounts (snd (detectFraud dist cfg now tx r)) = amounts r.
Proof.
  rewrite (proj2 (detectFraud_parts dist cfg now tx r)).
  assert (Hd : ∀ u d r0, amounts (snd (checkDeviceRisk u d r0)) = amounts r0)
    by (intros; unfold checkDeviceRisk; destruct (_ && _); reflexivity).
  destruct (location tx) as [loc|]; cbn [snd].
  - unfold checkGeoRisk.
    destruct (geo _ !! userId tx) as [[a b]|];
      [destruct (Js.gtb _ _)|]; cbn [snd amounts with_geo];
      by rewrite Hd, checkVelocity_store.
  - by rewrite Hd, checkVelocity_store.
Qed.

(** C3, at a failing input.  User u1 has one amount of 1000 on record, one
    hour old; a transfer of 200000 arrives at noon.  The amount-pattern
    check, asked directly, answers 0.7 with the spike reason; the verdict
    of [detectFraud] has score 0 and no reason at all. *)
Theorem amount_spike_not_scored dist :
  let t0 := (Scenario.noon - 3600000)%Z in
  let r := with_amounts
             (<["u1" := [({| s_amount := 1000; s_time := t0 |}, t0)]]> ∅)
             Redis.empty in
  let tx := Scenario.transfer "u1" "d1" 200000 None in
  fst (checkAmountPatterns Scenario.noon "u1" 200000 r)
  = {| score := 0.7; reason := Some reason_amount_spike |} ∧
  reasons (fst (detectFraud dist defaultConfig Scenario.noon tx r)) = [] ∧
  riskScore (fst (detectFraud dist defaultConfig Scenario.noon tx r)) == 0.
Proof.
  cbn zeta. split; [vm_compute; reflexivity|].
  split; vm_compute; reflexivity.
Qed.

End AmountPatterns.

(** ** Feature extraction *)

Section Features.
Import Redis ML.

Lemma preprocessFeatures_length now tx r :
  length (preprocessFeatures now tx r) = 10%nat.
Proof. unfold preprocessFeatures. rewrite length_imap. reflexivity. Qed.

(** C8, as amended.  For a user and device without history the seven
    history-derived raw features are 1 (isNewDevice) and 0 (the six
    others), not the means of [FEATURE_STATS]; their normalized values are
    [(x - mean) / std], namely 3, -2.4, -0.78125, -0.25, -0.8, -24/95 and
    -2.75, none of which is 0.  The vector has length 10. *)
Theorem features_without_history now tx r :
  noHistory r tx →
  drop 3 (rawFeatures now tx r) = [1; 0; 0; 0; 0; 0; 0] ∧
  Forall2 Qeq (drop 3 (preprocessFeatures now tx r))
    [3; -2.4; -0.78125; -0.25; -0.8; -24 # 95; -2.75] ∧
  Forall (fun x => ¬ x == 0) (drop 3 (preprocessFeatures now tx r)) ∧
  length (preprocessFeatures now tx r) = 10%nat.
Proof.
  intros (H24 & H7 & Hdev & Hud).
  assert (Hraw : drop 3 (rawFeatures now tx r) = [1; 0; 0; 0; 0; 0; 0]).
  { unfold rawFeatures. rewrite H24, H7, Hdev, Hud. reflexivity. }
  assert (Hnorm : drop 3 (preprocessFeatures now tx r)
                  = imap (fun i => normalize (3 + i))
                      (drop 3 (rawFeatures now tx r))).
  { unfold preprocessFeatures, rawFeatures. reflexivity. }
  split; [exact Hraw|]. rewrite Hnorm, Hraw.
  split; [|split; [|apply preprocessFeatures_length]].
  - repeat constructor; vm_compute; reflexivity.
  - repeat constructor; vm_compute; discriminate.
Qed.

End Features.

(** ** Validation in /check *)

Section Validation.
Import Redis Rules ML Routes.

Variable dist : Q → Q → Q → Q → Q.
Variable Model : Type.
Variable predict : Model → list Q → option Q.

Lemma validateTransaction_zero_amount req a :
  body_amount req = Some a → a == 0 →
  validateTransaction req = Some (Failure 400 "Missing required fields").
Proof.
  intros Ha Hz. unfold validateTransaction.
  rewrite Ha, (truthy_num_zero a Hz). cbn [negb].
  by rewrite orb_true_r, !orb_true_l.
Qed.

Lemma validateTransaction_zero_coordinate req loc :
  body_location req = Some loc →
  (∃ x, raw_latitude loc = Some x ∧ x == 0)
  ∨ (∃ y, raw_longitude loc = Some y ∧ y == 0) →
  ∃ msg, validateTransaction req = Some (Failure 400 msg).
Proof.
  intros Hloc Hzero. unfold validateTransaction. rewrite Hloc.
  destruct (_ || _ || _ || _)%bool; [by eexists|].
  destruct Hzero as [(x & -> & Hx)|(y & -> & Hy)].
  - rewrite (truthy_num_zero x Hx). cbn [negb orb]. by eexists.
  - rewrite (truthy_num_zero y Hy). cbn [negb]. rewrite orb_true_r.
    by eexists.
Qed.

(** C9.  A /check request whose amount is 0, or whose location has
    latitude 0 or longitude 0, is answered 400 by the validator, and the
    state is the one before the request: nothing was scored or written. *)
Theorem falsy_fields_rejected cfg now req s :
  (∃ a, body_amount req = Some a ∧ a == 0)
  ∨ (∃ loc, body_location req = Some loc ∧
            ((∃ x, raw_latitude loc = Some x ∧ x == 0)
             ∨ (∃ y, raw_longitude loc = Some y ∧ y == 0))) →
  ∃ msg, check dist Model predict cfg now req s = (Failure 400 msg, s).
Proof.
  intros H. unfold check.
  assert (Hv : ∃ msg, validateTransaction req = Some (Failure 400 msg)).
  { destruct H as [(a & Ha & Hz)|(loc & Hloc & Hzero)].
    - eexists. by apply (validateTransaction_zero_amount req a).
    - by apply (validateTransaction_zero_coordinate req loc). }
  destruct Hv as [msg ->]. by exists msg.
Qed.

(** The flag [enableMLModel] is not consulted: two configurations that
    differ in their feature flags only give the same answer and the same
    state, and a scored answer always fuses the rule score, weighted 0.6,
    with the answer of the scorer, weighted 0.4. *)
Theorem ml_flag_not_consulted th f1 f2 now req s :
  let cfg1 := {| thresholds := th; features := f1 |} in
  let cfg2 := {| thresholds := th; features := f2 |} in
  check dist Model predict cfg1 now req s
  = check dist Model predict cfg2 now req s
  ∧ ∀ body s',
      check dist Model predict cfg2 now req s = (Scored body, s') →
      let tx := bodyTransaction req in
      let rules := detectFraud dist cfg2 now tx (redis s) in
      body_riskScore body
      = riskScore (fst rules) * 0.6
        + predictRisk Model predict (model s) now tx (snd rules) * 0.4.
Proof.
  intros cfg1 cfg2. split; [reflexivity|].
  intros body s' H.
  by destruct (check_scored _ _ _ _ _ _ _ _ _ H) as (_ & -> & _).
Qed.

(** With no network loaded the scorer answers with the amount buckets,
    never with 0. *)
Lemma predictRisk_unloaded now tx r :
  predictRisk Model predict None now tx r = fallbackRiskScore tx
  ∧ 0.2 <= fallbackRiskScore tx.
Proof.
  split; [reflexivity|]. unfold fallbackRiskScore.
  repeat destruct (Js.gtb _ _); lra.
Qed.

End Validation.

(** ** Feedback intake *)

Section Feedback.
Import Redis ML Routes.

Variable Model : Type.
Variable fit : Model → list Q → Q → option Model.

Lemma update_throws_without_model now tx fraud r :
  updateModelWithTransaction Model fit None now tx fraud r = None.
Proof. reflexivity. Qed.

(** C10.  On /report-fraud for a stored transaction, when the model
    update throws, the answer is 500 and the document already carries the
    reported status, DENIED for a fraud and APPROVED otherwise, its other
    fields being as they were; the other documents, the key-value store and
    the network are as before. *)
Theorem status_saved_before_failed_update now req s id fraud found :
  body_transactionId req = Some id →
  body_wasActuallyFraud req = Some fraud →
  transactions s !! id = Some found →
  updateModelWithTransaction Model fit (model s) now (rec_tx found) fraud
    (redis s) = None →
  ∃ s' saved,
    reportFraud Model fit now req s
    = (Failure 500 "Internal server error", s') ∧
    transactions s' !! id = Some saved ∧
    status saved = (if fraud then DENIED else APPROVED) ∧
    rec_tx saved = rec_tx found ∧
    ipAddress saved = ipAddress found ∧
    rec_riskScore saved = rec_riskScore found ∧
    length (transactions s') = length (transactions s) ∧
    (∀ j, j ≠ id → transactions s' !! j = transactions s !! j) ∧
    redis s' = redis s ∧ model s' = model s.
Proof.
  intros Hid Hfraud Hfound Hthrow. unfold reportFraud.
  rewrite Hid, Hfraud, Hfound. cbn [rec_tx with_status]. rewrite Hthrow.
  eexists _, _. split; [reflexivity|]. cbn [transactions redis model].
  split; [apply list_lookup_insert_eq; by eapply lookup_lt_Some|].
  cbn [status rec_tx ipAddress rec_riskScore].
  repeat (split; [reflexivity|]).
  split; [apply length_insert|].
  split; [|split; reflexivity].
  intros j Hj. by apply list_lookup_insert_ne.
Qed.

End Feedback.

(** * Worked scenarios *)

Section Scenarios.
Import Redis Rules ML Routes Scenario.

(** A clean transfer of 5000 at noon, the stand-in network loaded: the
    rule score is 0, the network says 0.5, the answer carries 0.2. *)
Lemma check_fuses_scores_witness :
  let req := request "u1" "d1" 5000 None in
  let s := loaded Redis.empty in
  (∀ net x sc, predictHalf net x = Some sc → 0 <= sc <= 1) ∧
  ∃ body s',
    check planar unit predictHalf defaultConfig noon req s = (Scored body, s') ∧
    let tx := bodyTransaction req in
    let rules := detectFraud planar defaultConfig noon tx (redis s) in
    let ruleScore := riskScore (fst rules) in
    let modelScore := predictRisk unit predictHalf (model s) noon tx (snd rules) in
    0 <= ruleScore <= 1 ∧ 0 <= modelScore <= 1 ∧
    body_riskScore body == Js.clamp (0.6 * ruleScore + 0.4 * modelScore) 0 1 ∧
    0 <= body_riskScore body <= 1.
Proof.
  cbn zeta.
  assert (Hp : ∀ (net : unit) x sc, predictHalf net x = Some sc → 0 <= sc <= 1)
    by (intros net x sc [= <-]; split; discriminate).
  split; [exact Hp|].
  eexists _, _. split; [run|].
  eapply (check_fuses_scores planar unit predictHalf defaultConfig noon
            (request "u1" "d1" 5000 None) (loaded Redis.empty));
    [exact Hp | run].
Defined.

(** Two million at two in the morning, no network loaded: rules 0.8,
    fallback 0.9, score 0.84, hence high risk, DENY and FLAGGED. *)
Lemma check_decision_witness :
  let req := request "u1" "d1" 2000000 None in
  let s := unloaded Redis.empty in
  ∃ body s',
    check planar unit predictHalf defaultConfig night req s = (Scored body, s') ∧
    body_riskScore body == 0.84 ∧
    (isHighRisk body = true ↔ 0.7 <= body_riskScore body) ∧
    (recommendedAction body = DENY ↔ isHighRisk body = true) ∧
    (recommendedAction body = ALLOW ↔ isHighRisk body = false) ∧
    ∃ doc, transactions s' !! transactionId body = Some doc ∧
           transactions s' = transactions s ++ [doc] ∧
           rec_riskScore doc = body_riskScore body ∧
           (status doc = FLAGGED ↔ 0.7 <= rec_riskScore doc) ∧
           (status doc = PENDING ↔ ¬ 0.7 <= rec_riskScore doc).
Proof.
  cbn zeta. eexists _, _. split; [run|]. split; [run|].
  apply (check_decision planar unit predictHalf defaultConfig night
           (request "u1" "d1" 2000000 None) (unloaded Redis.empty)).
  run.
Defined.

(** [FRAUD_THRESHOLD=0.5]; twenty-one samples in the last twenty-one
    seconds, then a transfer of 100 at noon, no network loaded: rules 0.8,
    fallback 0.2, score 0.56.  The score has passed the configured cutoff,
    yet the answer is not high risk, recommends ALLOW, and the document is
    PENDING. *)
Lemma fraud_threshold_not_consulted_witness :
  let req := request "u1" "d1" 100 None in
  let s := unloaded (withVelocity "u1" (samples 21 1)) in
  fraudThreshold (thresholds Fixtures.halfThreshold) == 0.5 ∧
  ∃ body s',
    check planar unit predictHalf Fixtures.halfThreshold noon req s
    = (Scored body, s') ∧
    body_riskScore body == 0.56 ∧
    fraudThreshold (thresholds Fixtures.halfThreshold) <= body_riskScore body ∧
    body_riskScore body < 0.7 ∧
    isHighRisk body = false ∧
    recommendedAction body = ALLOW ∧
    ∃ doc, transactions s' !! transactionId body = Some doc ∧
           rec_riskScore doc = body_riskScore body ∧
           status doc = PENDING.
Proof.
  cbn zeta. split; [run|]. eexists _, _. split; [run|]. split; [run|].
  split; [apply Qle_bool_imp_le; run|]. split; [run|].
  apply (fraud_threshold_not_consulted planar unit predictHalf
           Fixtures.halfThreshold noon (request "u1" "d1" 100 None)
           (unloaded (withVelocity "u1" (samples 21 1))));
    [run | apply Qle_bool_imp_le; run | run].
Defined.

(** Twenty-one samples in the last twenty-one seconds, then one more
    transaction at noon: 22 samples in the minute and in the hour, so
    both velocity conditions hold; the verdict carries the per-minute
    reason alone and the score 0.8, not the 1 that 0.8 + 0.6 would give. *)
Lemma both_velocity_conditions_one_reason :
  let r := withVelocity "u1" (samples 21 1) in
  let tx := transfer "u1" "d1" 100 None in
  let out := detectFraud planar defaultConfig noon tx r in
  (Z.of_nat (length (window (snd out) "u1" noon 60000))
   > maxVelocityPerMinute (thresholds defaultConfig))%Z ∧
  (Z.of_nat (length (window (snd out) "u1" noon 3600000)) > 20)%Z ∧
  ¬ (reason_velocity_minute ∈ reasons (fst out)
     ∧ reason_velocity_hour ∈ reasons (fst out)) ∧
  riskScore (fst out) == 0.8 ∧ ¬ riskScore (fst out) == 1.
Proof.
  cbn zeta. split; [run|]. split; [run|]. split.
  - assert (E : reasons (fst (detectFraud planar defaultConfig noon
                                (transfer "u1" "d1" 100 None)
                                (withVelocity "u1" (samples 21 1))))
                = [reason_velocity_minute]) by run.
    rewrite E. intros [_ H]. apply list_elem_of_singleton in H. discriminate H.
  - split; [run|]. vm_compute. discriminate.
Qed.

(** The same state and transaction, read through the amended statement:
    the per-minute reason is the only one and the rule score is 0.8. *)
Lemma velocity_minute_rule_takes_precedence_witness :
  let r := withVelocity "u1" (samples 21 1) in
  let tx := transfer "u1" "d1" 100 None in
  let out := detectFraud planar defaultConfig noon tx r in
  (Z.of_nat (length (window (snd out) (userId tx) noon 60000))
   > maxVelocityPerMinute (thresholds defaultConfig))%Z ∧
  (Z.of_nat (length (window (snd out) (userId tx) noon 3600000)) > 20)%Z ∧
  fst (checkVelocity defaultConfig noon (userId tx) (amount tx) r)
  = {| score := 0.8; reason := Some reason_velocity_minute |} ∧
  reason_velocity_minute ∈ reasons (fst out) ∧
  (reason_velocity_hour ∉ reasons (fst out)) ∧
  reasons (fst out) = [reason_velocity_minute] ∧
  riskScore (fst out) == 0.8.
Proof.
  cbn zeta. split; [run|]. split; [run|].
  destruct (velocity_minute_rule_takes_precedence planar defaultConfig noon
              (transfer "u1" "d1" 100 None) (withVelocity "u1" (samples 21 1)))
    as (Hv & Hin & Hout & _ & Hone); [run | run |].
  split; [exact Hv|]. split; [exact Hin|]. split; [exact Hout|].
  split; [run|]. apply Hone. run.
Defined.

(** Five samples of 100 in the last five seconds, the latest stamped
    [noon] itself; a sixth transaction of 100 arrives within the same
    millisecond.  Its member is the one already stored, the window still
    holds five members and rule R1 does not fire. *)
Lemma coinciding_sample_not_counted :
  let r := withVelocity "u1" (samples 5 0) in
  let tx := transfer "u1" "d1" 100 None in
  let out := detectFraud planar defaultConfig noon tx r in
  Z.of_nat (length (window r "u1" noon 60000))
  = maxVelocityPerMinute (thresholds defaultConfig) ∧
  length (window (snd out) "u1" noon 60000) = 5%nat ∧
  score (fst (checkVelocity defaultConfig noon "u1" 100 r)) == 0 ∧
  reason_velocity_minute ∉ reasons (fst out).
Proof.
  cbn zeta. split; [run|]. split; [run|]. split; [run|].
  assert (E : reasons (fst (detectFraud planar defaultConfig noon
                              (transfer "u1" "d1" 100 None)
                              (withVelocity "u1" (samples 5 0)))) = [])
    by run.
  rewrite E. apply not_elem_of_nil.
Qed.

(** Five samples between one and five seconds old, then a sixth
    transaction at noon: six members in the window, R1 fires. *)
Lemma own_sample_counts_towards_velocity_witness :
  let r := withVelocity "u1" (samples 5 1) in
  let tx := transfer "u1" "d1" 100 None in
  let mine := {| s_amount := 100; s_time := noon |} in
  let out := detectFraud planar defaultConfig noon tx r in
  Z.of_nat (length (window r "u1" noon 60000))
  = maxVelocityPerMinute (thresholds defaultConfig) ∧
  Forall (fun e => Sample_eqb (fst e) mine = false)
         (default [] (velocity r !! "u1")) ∧
  mine ∈ window (snd out) "u1" noon 60000 ∧
  length (window (snd out) "u1" noon 60000) = 6%nat ∧
  reason_velocity_minute ∈ reasons (fst out).
Proof.
  cbn zeta.
  destruct (own_sample_counts_towards_velocity planar defaultConfig noon
              (transfer "u1" "d1" 100 None) (withVelocity "u1" (samples 5 1)))
    as (Hmine & _ & Hfire).
  assert (Hcount : Z.of_nat (length (window (withVelocity "u1" (samples 5 1))
                                       "u1" noon 60000))
                   = maxVelocityPerMinute (thresholds defaultConfig)) by run.
  assert (Hfresh : Forall
            (fun e => Sample_eqb (fst e) {| s_amount := 100; s_time := noon |}
                      = false)
            (default [] (velocity (withVelocity "u1" (samples 5 1)) !! "u1")))
    by (vm_compute; repeat constructor).
  destruct (Hfire Hcount Hfresh) as (Hlen & _ & Hreason).
  split; [exact Hcount|]. split; [exact Hfresh|]. split; [exact Hmine|].
  split; [|exact Hreason]. run.
Defined.

(** Last seen in Abuja, now paying from Lagos: R6 fires and the stored
    location is still Abuja. *)
Lemma geo_jump_keeps_previous_location_witness :
  let r := with_geo (<["u1" := (9.0765, 7.3986)]> ∅) Redis.empty in
  let tx := transfer "u1" "d1" 5000 (Some lagos) in
  let out := detectFraud planar defaultConfig noon tx r in
  100 < planar 6.5244 3.3792 9.0765 7.3986 ∧
  reason_geo ∈ reasons (fst out) ∧
  geo (snd out) !! "u1" = Some (9.0765, 7.3986) ∧
  geo (snd out) !! "u1" ≠ Some (6.5244, 3.3792).
Proof.
  cbn zeta. split; [run|].
  destruct (geo_jump_keeps_previous_location planar defaultConfig noon
              (transfer "u1" "d1" 5000 (Some lagos))
              (with_geo (<["u1" := (9.0765, 7.3986)]> ∅) Redis.empty)
              lagos (9.0765, 7.3986)) as [Hreason Hgeo]; [run..|].
  split; [exact Hreason|]. split; [exact Hgeo|].
  change (userId (transfer "u1" "d1" 5000 (Some lagos))) with "u1" in Hgeo.
  rewrite Hgeo. discriminate.
Defined.

(** C5.  With [ENABLE_ML_MODEL=false], a clean transfer of 5000 at noon
    and the stand-in network loaded, the rule score is 0, yet the answer
    carries 0.2 = 0.4 * 0.5 and not 0.6 times the rule score: the network was
    asked and its answer fused, the flag notwithstanding. *)
Lemma ml_flag_off_still_uses_scorer :
  let req := request "u1" "d1" 5000 None in
  let tx := bodyTransaction req in
  let ruleScore :=
    riskScore (fst (detectFraud planar mlOff noon tx Redis.empty)) in
  enableMLModel (features mlOff) = false ∧
  ruleScore == 0 ∧
  ∃ body s',
    check planar unit predictHalf mlOff noon req (loaded Redis.empty)
    = (Scored body, s') ∧
    body_riskScore body == 0.2 ∧
    ¬ body_riskScore body == 0.6 * ruleScore.
Proof.
  cbn zeta. split; [reflexivity|]. split; [run|].
  eexists _, _. split; [run|]. split; [run|].
  vm_compute. discriminate.
Qed.

(** 600000 at noon with no network loaded, under the default configuration
    and under [mlOff]: the same answer, 0.6 * 0 + 0.4 * 0.7 = 0.28, the 0.7
    being the amount bucket of the fallback. *)
Lemma ml_flag_not_consulted_witness :
  let req := request "u1" "d1" 600000 None in
  let s := unloaded Redis.empty in
  check planar unit predictHalf defaultConfig noon req s
  = check planar unit predictHalf mlOff noon req s ∧
  ∃ body s',
    check planar unit predictHalf mlOff noon req s = (Scored body, s') ∧
    body_riskScore body
    = riskScore (fst (detectFraud planar mlOff noon (bodyTransaction req)
                        (redis s))) * 0.6
      + fallbackRiskScore (bodyTransaction req) * 0.4 ∧
    body_riskScore body == 0.28.
Proof.
  cbn zeta.
  destruct (ml_flag_not_consulted planar unit predictHalf
              (thresholds defaultConfig) (features defaultConfig)
              (features mlOff) noon (request "u1" "d1" 600000 None)
              (unloaded Redis.empty)) as [Hsame Hscore].
  split; [exact Hsame|].
  eexists _, _. split; [run|]. split; [|run].
  eapply Hscore. run.
Defined.

(** A first transaction of a new user on a new device: the raw count of
    transactions in the last 24 hours is 0, not the mean 2.5, and its
    normalized value is -0.78125, not 0. *)
Lemma missing_history_not_normalized_to_zero :
  let tx := transfer "u1" "d1" 5000 (Some lagos) in
  noHistory Redis.empty tx ∧
  FEATURE_NAMES !! 5%nat = Some "txCountLast24h" ∧
  stats_of FEATURE_STATS "txCountLast24h" = Some (2.5, 3.2) ∧
  rawFeatures noon tx Redis.empty !! 5%nat = Some 0 ∧
  ∃ x, preprocessFeatures noon tx Redis.empty !! 5%nat = Some x ∧
       x == -0.78125 ∧ ¬ x == 0.
Proof.
  cbn zeta. split; [repeat split|]. split; [reflexivity|].
  split; [reflexivity|]. split; [reflexivity|].
  eexists. split; [run|]. split; [run|]. vm_compute. discriminate.
Qed.

(** The same first transaction, all seven history-derived features. *)
Lemma features_without_history_witness :
  let tx := transfer "u1" "d1" 5000 (Some lagos) in
  noHistory Redis.empty tx ∧
  drop 3 (rawFeatures noon tx Redis.empty) = [1; 0; 0; 0; 0; 0; 0] ∧
  Forall2 Qeq (drop 3 (preprocessFeatures noon tx Redis.empty))
    [3; -2.4; -0.78125; -0.25; -0.8; -24 # 95; -2.75] ∧
  Forall (fun x => ¬ x == 0) (drop 3 (preprocessFeatures noon tx Redis.empty)) ∧
  length (preprocessFeatures noon tx Redis.empty) = 10%nat.
Proof.
  cbn zeta.
  assert (H : noHistory Redis.empty (transfer "u1" "d1" 5000 (Some lagos)))
    by (repeat split).
  split; [exact H|].
  exact (features_without_history noon
           (transfer "u1" "d1" 5000 (Some lagos)) Redis.empty H).
Defined.

(** A payment made on the equator is turned away by the validator. *)
Lemma falsy_fields_rejected_witness :
  let equator := {| raw_latitude := Some 0; raw_longitude := Some 36.8 |} in
  let req := request "u1" "d1" 5000 (Some equator) in
  let s := loaded Redis.empty in
  raw_latitude equator = Some 0 ∧
  ∃ msg, check planar unit predictHalf defaultConfig noon req s
         = (Failure 400 msg, s).
Proof.
  cbn zeta. split; [reflexivity|].
  apply (falsy_fields_rejected planar unit predictHalf).
  right. eexists. split; [reflexivity|].
  left. exists 0. split; reflexivity.
Defined.

(** A report of fraud on the only stored transaction, PENDING until then,
    while no network is loaded: 500, and the document is DENIED all the
    same. *)
Lemma status_saved_before_failed_update_witness :
  let doc := {| rec_tx := transfer "u1" "d1" 5000 None;
                ipAddress := "127.0.0.1";
                rec_riskScore := 0.08;
                status := PENDING |} in
  let s : System unit :=
    {| redis := Redis.empty; transactions := [doc]; model := None |} in
  let req := {| body_transactionId := Some 0%nat;
                body_wasActuallyFraud := Some true |} in
  updateModelWithTransaction unit fitOk (model s) noon (rec_tx doc) true
    (redis s) = None ∧
  ∃ s' saved,
    reportFraud unit fitOk noon req s
    = (Failure 500 "Internal server error", s') ∧
    transactions s' !! 0%nat = Some saved ∧
    status saved = DENIED ∧
    rec_tx saved = rec_tx doc ∧
    ipAddress saved = ipAddress doc ∧
    rec_riskScore saved = rec_riskScore doc ∧
    length (transactions s') = length (transactions s) ∧
    (∀ j, j ≠ 0%nat → transactions s' !! j = transactions s !! j) ∧
    redis s' = redis s ∧ model s' = model s.
Proof.
  cbn zeta. split; [reflexivity|].
  apply (status_saved_before_failed_update unit fitOk noon
           {| body_transactionId := Some 0%nat;
              body_wasActuallyFraud := Some true |}
           {| redis := Redis.empty;
              transactions :=
                [ {| rec_tx := transfer "u1" "d1" 5000 None;
                     ipAddress := "127.0.0.1";
                     rec_riskScore := 0.08;
                     status := PENDING |} ];
              model := None |}
           0%nat true); reflexivity.
Defined.

End Scenarios.

(** * Further properties *)

(** ** Which rule says what *)

Section RuleReasons.
Import Redis Rules.

Variable dist : Q → Q → Q → Q → Q.

(** Membership in the reasons of a verdict, rule by rule. *)
Lemma reason_elem cfg now tx r x :
  let vc := checkVelocity cfg now (userId tx) (amount tx) r in
  let dc := checkDeviceRisk (userId tx) (deviceId tx) (snd vc) in
  let gc :=
    match location tx with
    | Some loc =>
        checkGeoRisk dist (userId tx) (latitude loc) (longitude loc) (snd dc)
    | None => (clean, snd dc)
    end in
  x ∈ reasons (fst (detectFraud dist cfg now tx r)) ↔
  x ∈ said (fst vc) ∨ x ∈ said (fst dc) ∨ x ∈ said (fst gc)
  ∨ (Js.gtb (amount tx) (inject_Z (maxTransactionAmount (thresholds cfg))) = true
     ∧ x = reason_amount_cap)
  ∨ (((nightTimeStart (thresholds cfg) <=? Js.getHours now)%Z
      || (Js.getHours now <=? nightTimeEnd (thresholds cfg))%Z) = true
     ∧ x = reason_night).
Proof.
  cbn zeta. rewrite (proj1 (detectFraud_parts dist cfg now tx r)).
  rewrite !elem_of_app.
  destruct (Js.gtb (amount tx) _); destruct (_ || _)%bool;
    rewrite ?list_elem_of_singleton, ?elem_of_nil; intuition congruence.
Qed.

Lemma said_hour :
  said {| score := 0.6; reason := Some reason_velocity_hour |}
  = [reason_velocity_hour].
Proof. reflexivity. Qed.

Lemma said_clean : said clean = [].
Proof. reflexivity. Qed.

Lemma said_device_fired :
  said {| score := 0.7; reason := Some reason_device |} = [reason_device].
Proof. reflexivity. Qed.

Lemma said_geo_fired :
  said {| score := 0.6; reason := Some reason_geo |} = [reason_geo].
Proof. reflexivity. Qed.

Lemma said_velocity cfg now user amt r x :
  let r' := snd (checkVelocity cfg now user amt r) in
  x ∈ said (fst (checkVelocity cfg now user amt r)) ↔
  ((Z.of_nat (length (window r' user now 60000))
    > maxVelocityPerMinute (thresholds cfg))%Z ∧ x = reason_velocity_minute)
  ∨ ((Z.of_nat (length (window r' user now 60000))
      <= maxVelocityPerMinute (thresholds cfg))%Z
     ∧ (Z.of_nat (length (window r' user now 3600000)) > 20)%Z
     ∧ x = reason_velocity_hour).
Proof.
  cbn zeta. rewrite checkVelocity_verdict. cbn zeta.
  destruct (_ >? maxVelocityPerMinute _)%Z eqn:E1.
  - apply Z.gtb_lt in E1. rewrite said_minute, list_elem_of_singleton. split.
    + intros ->. left. split; [lia|reflexivity].
    + intros [[_ ->]|[? _]]; [reflexivity|lia].
  - rewrite Z.gtb_ltb in E1. apply Z.ltb_ge in E1.
    destruct (_ >? 20)%Z eqn:E2.
    + apply Z.gtb_lt in E2. rewrite said_hour, list_elem_of_singleton. split.
      * intros ->. right. repeat split; [lia|lia].
      * intros [[? _]|(_ & _ & ->)]; [lia|reflexivity].
    + rewrite Z.gtb_ltb in E2. apply Z.ltb_ge in E2.
      rewrite said_clean, elem_of_nil. split; [done|].
      intros [[? _]|(_ & ? & _)]; lia.
Qed.

Lemma said_device user dev r x :
  let known := default ∅ (device r !! dev) in
  x ∈ said (fst (checkDeviceRisk user dev r)) ↔
  (known ≠ ∅) ∧ (user ∉ known) ∧ x = reason_device.
Proof.
  cbn zeta. unfold checkDeviceRisk.
  set (known := default ∅ (device r !! dev)).
  destruct (0 <? size known)%nat eqn:Es; cbn [andb].
  - apply Nat.ltb_lt in Es.
    assert (known ≠ ∅) as Hne.
    { intros ->. rewrite size_empty in Es. lia. }
    destruct (bool_decide (user ∈ known)) eqn:Em; cbn [negb fst].
    + apply bool_decide_eq_true in Em. rewrite said_clean, elem_of_nil.
      split; [done|]. intros (_ & ? & _). done.
    + apply bool_decide_eq_false in Em.
      rewrite said_device_fired, list_elem_of_singleton.
      split; [intros ->; done|]. by intros (_ & _ & ->).
  - apply Nat.ltb_ge in Es. cbn [fst]. rewrite said_clean, elem_of_nil.
    split; [done|]. intros (Hne & _). apply Hne.
    apply leibniz_equiv, size_empty_inv. lia.
Qed.

Lemma said_geo user lat lon r x :
  x ∈ said (fst (checkGeoRisk dist user lat lon r)) ↔
  ∃ last, geo r !! user = Some last
          ∧ 100 < dist lat lon (fst last) (snd last) ∧ x = reason_geo.
Proof.
  unfold checkGeoRisk. destruct (geo r !! user) as [[a b]|].
  - destruct (Js.gtb _ _) eqn:E; cbn [fst].
    + apply gtb_true in E. rewrite said_geo_fired, list_elem_of_singleton.
      split; [intros ->; by exists (a, b)|]. by intros (_ & _ & _ & ->).
    + apply gtb_false in E. rewrite said_clean, elem_of_nil.
      split; [done|]. intros (last & [= <-] & Hfar & _).
      cbn [fst snd] in Hfar. lra.
  - cbn [fst]. rewrite said_clean, elem_of_nil. split; [done|].
    by intros (last & ? & _).
Qed.

Lemma checkVelocity_device cfg now user amt r :
  device (snd (checkVelocity cfg now user amt r)) = device r.
Proof. rewrite checkVelocity_store. reflexivity. Qed.

Lemma checkGeoRisk_device user lat lon r :
  device (snd (checkGeoRisk dist user lat lon r)) = device r.
Proof.
  unfold checkGeoRisk. destruct (geo r !! user) as [[a b]|]; [|reflexivity].
  destruct (Js.gtb _ _); reflexivity.
Qed.

Lemma checkDeviceRisk_device user dev r :
  device (snd (checkDeviceRisk user dev r))
  = <[dev := {[user]} ∪ default ∅ (device r !! dev)]> (device r).
Proof. unfold checkDeviceRisk. destruct (_ && _); reflexivity. Qed.

Lemma detectFraud_device cfg now tx r :
  device (snd (detectFraud dist cfg now tx r))
  = <[deviceId tx := {[userId tx]} ∪ default ∅ (device r !! deviceId tx)]>
      (device r).
Proof.
  rewrite (proj2 (detectFraud_parts dist cfg now tx r)).
  destruct (location tx) as [loc|]; cbn [snd];
    rewrite ?checkGeoRisk_device, checkDeviceRisk_device, checkVelocity_device;
    reflexivity.
Qed.

(** The three checks speak of their own rules only. *)
Lemma reason_velocity_elem cfg now tx r x :
  x = reason_velocity_minute ∨ x = reason_velocity_hour →
  x ∈ reasons (fst (detectFraud dist cfg now tx r)) ↔
  x ∈ said (fst (checkVelocity cfg now (userId tx) (amount tx) r)).
Proof.
  intros Hx. rewrite reason_elem. cbn zeta. split; [|by left].
  intros [H|[H|[H|[[_ ->]|[_ ->]]]]].
  - exact H.
  - apply said_checkDeviceRisk in H. subst x. destruct Hx; discriminate.
  - destruct (location tx) as [loc|].
    + apply said_checkGeoRisk in H. subst x. destruct Hx; discriminate.
    + by apply elem_of_nil in H.
  - destruct Hx; discriminate.
  - destruct Hx; discriminate.
Qed.

Lemma reason_device_elem cfg now tx r :
  reason_device ∈ reasons (fst (detectFraud dist cfg now tx r)) ↔
  (default ∅ (device r !! deviceId tx) ≠ (∅ : gset string))
  ∧ (userId tx ∉ default ∅ (device r !! deviceId tx)).
Proof.
  rewrite reason_elem. cbn zeta. rewrite said_device, checkVelocity_device.
  split.
  - intros [H|[H|[H|[[_ ?]|[_ ?]]]]]; try discriminate.
    + apply said_velocity in H. destruct H as [[_ ?]|(_ & _ & ?)]; discriminate.
    + destruct H as (? & ? & _). done.
    + destruct (location tx) as [loc|].
      * apply said_checkGeoRisk in H. discriminate.
      * by apply elem_of_nil in H.
  - intros [? ?]. right. left. done.
Qed.

Lemma reason_geo_elem cfg now tx r :
  reason_geo ∈ reasons (fst (detectFraud dist cfg now tx r)) ↔
  ∃ loc last, location tx = Some loc ∧ geo r !! userId tx = Some last
              ∧ 100 < dist (latitude loc) (longitude loc) (fst last) (snd last).
Proof.
  rewrite reason_elem. cbn zeta. split.
  - intros [H|[H|[H|[[_ ?]|[_ ?]]]]]; try discriminate.
    + apply said_velocity in H. destruct H as [[_ ?]|(_ & _ & ?)]; discriminate.
    + apply said_checkDeviceRisk in H. discriminate.
    + destruct (location tx) as [loc|]; [|by apply elem_of_nil in H].
      apply said_geo in H. destruct H as (last & Hlast & Hfar & _).
      rewrite checkDeviceRisk_geo, checkVelocity_geo in Hlast.
      by exists loc, last.
  - intros (loc & last & -> & Hlast & Hfar). right. right. left.
    apply said_geo. exists last.
    by rewrite checkDeviceRisk_geo, checkVelocity_geo.
Qed.

End RuleReasons.

Section RuleEngineExtras.
Import Redis Rules.

Variable dist : Q → Q → Q → Q → Q.

Lemma zrangebyscore_length_filter (z : zset) (keep : Sample * Z → bool) lo hi :
  (length (zrangebyscore (List.filter keep z) lo hi)
   <= length (zrangebyscore z lo hi))%nat.
Proof.
  unfold zrangebyscore. rewrite !length_map.
  induction z as [|e z IH]; [reflexivity|]. cbn [List.filter].
  destruct (keep e); cbn [List.filter];
    destruct ((lo <=? snd e)%Z && (snd e <=? hi)%Z); cbn [length]; lia.
Qed.

Lemma zrangebyscore_widen (z : zset) lo lo' hi :
  (lo' <= lo)%Z →
  (length (zrangebyscore z lo hi) <= length (zrangebyscore z lo' hi))%nat.
Proof.
  intros Hlo. unfold zrangebyscore. rewrite !length_map.
  induction z as [|e z IH]; [reflexivity|]. cbn [List.filter].
  destruct (lo <=? snd e)%Z eqn:E1; cbn [andb].
  - apply Z.leb_le in E1.
    assert (E2 : (lo' <=? snd e)%Z = true) by (apply Z.leb_le; lia).
    rewrite E2. cbn [andb]. destruct (snd e <=? hi)%Z; cbn [length]; lia.
  - destruct ((lo' <=? snd e)%Z && (snd e <=? hi)%Z); cbn [length]; lia.
Qed.

(** X1.  The rule score of a verdict is the sum of the contributions of the
    reasons it lists (0.8, 0.6, 0.7, 0.6, 0.5, 0.3), capped at 1; it lies
    within [0, 1], and [isFreudulent] holds exactly when it is at least 0.7. *)
Theorem score_is_sum_of_contributions cfg now tx r :
  let v := fst (detectFraud dist cfg now tx r) in
  riskScore v == Qmin (Js.sum (List.map contribution (reasons v))) 1
  ∧ 0 <= riskScore v <= 1
  ∧ (isFreudulent v = true ↔ 0.7 <= riskScore v).
Proof.
  cbn zeta. split; [|split].
  - unfold detectFraud, checkVelocity, checkDeviceRisk, checkGeoRisk.
    split_cases; vm_compute; reflexivity.
  - apply detectFraud_riskScore_range.
  - unfold detectFraud.
    destruct (checkVelocity _ _ _ _ _) as [vc r1].
    destruct (checkDeviceRisk _ _ _) as [dc r2].
    destruct (match location tx with Some _ => _ | None => _ end) as [a3 r3].
    cbn [fst isFreudulent riskScore]. apply geb_true.
Qed.

(** X2.  The reasons of a verdict are taken from the six reasons of the rule
    engine, in the engine's fixed order, none of them twice. *)
Theorem reasons_ordered_without_duplicates cfg now tx r :
  reasons (fst (detectFraud dist cfg now tx r)) `sublist_of` ruleReasons
  ∧ NoDup (reasons (fst (detectFraud dist cfg now tx r))).
Proof.
  assert (H : reasons (fst (detectFraud dist cfg now tx r))
              `sublist_of` ruleReasons).
  { unfold detectFraud, checkVelocity, checkDeviceRisk, checkGeoRisk.
    split_cases; vm_compute;
      repeat first [apply sublist_nil | apply sublist_skip | apply sublist_cons]. }
  split; [exact H|].
  apply (sublist_NoDup _ ruleReasons); [|exact H].
  apply (bool_decide_unpack _). vm_compute. exact I.
Qed.

(** X3.  The per-minute reason is reported exactly when the per-minute window,
    read after the insertion of the transaction's own sample, holds more
    than [maxVelocityPerMinute] members; the per-hour reason exactly when it
    does not and the per-hour window holds more than 20.  The per-minute
    count is at least 1, at most the per-hour count, and at most one more
    than before the request. *)
Theorem velocity_rules_iff cfg now tx r :
  let out := detectFraud dist cfg now tx r in
  let perMinute := Z.of_nat (length (window (snd out) (userId tx) now 60000)) in
  let perHour := Z.of_nat (length (window (snd out) (userId tx) now 3600000)) in
  (reason_velocity_minute ∈ reasons (fst out)
   ↔ (perMinute > maxVelocityPerMinute (thresholds cfg))%Z) ∧
  (reason_velocity_hour ∈ reasons (fst out)
   ↔ (perMinute <= maxVelocityPerMinute (thresholds cfg))%Z ∧ (perHour > 20)%Z) ∧
  (1 <= perMinute <= perHour)%Z ∧
  (perMinute <= Z.of_nat (length (window r (userId tx) now 60000)) + 1)%Z.
Proof.
  cbn zeta. rewrite !detectFraud_window.
  split; [|split; [|split; [split|]]].
  - rewrite reason_velocity_elem by (by left). rewrite said_velocity. cbn zeta.
    split; [|by left].
    intros [[? _]|(_ & _ & ?)]; [done|discriminate].
  - rewrite reason_velocity_elem by (by right). rewrite said_velocity. cbn zeta.
    split; [|intros [? ?]; right; done].
    intros [[_ ?]|(? & ? & _)]; [discriminate|done].
  - rewrite window_after_checkVelocity, zrangebyscore_zadd by lia.
    cbn [length]. lia.
  - rewrite !window_after_checkVelocity. apply inj_le.
    apply zrangebyscore_widen. lia.
  - rewrite window_after_checkVelocity, zrangebyscore_zadd by lia.
    cbn [length]. unfold window.
    pose proof (zrangebyscore_length_filter
                  (default [] (velocity r !! userId tx))
                  (fun e => negb (Sample_eqb (fst e)
                                    {| s_amount := amount tx; s_time := now |}))
                  (now - 60000) now). lia.
Qed.

(** X4.  The device reason is reported exactly when the device already had
    users and the user of the transaction was not among them; afterwards the
    device's set is the old one with that user added, and the sets of the
    other devices are as before. *)
Theorem device_rule_iff cfg now tx r :
  let out := detectFraud dist cfg now tx r in
  let known := default ∅ (device r !! deviceId tx) in
  (reason_device ∈ reasons (fst out)
   ↔ (known ≠ (∅ : gset string)) ∧ (userId tx ∉ known)) ∧
  device (snd out) !! deviceId tx = Some ({[userId tx]} ∪ known) ∧
  (∀ d, d ≠ deviceId tx → device (snd out) !! d = device r !! d).
Proof.
  cbn zeta. split; [apply reason_device_elem|].
  rewrite detectFraud_device. split.
  - by rewrite lookup_insert_eq.
  - intros d Hd. by rewrite lookup_insert_ne.
Qed.

(** A user once in the set of a device stays in it, whatever is scored. *)
Lemma scoreAll_device_member steps r user dev :
  user ∈ default ∅ (device r !! dev) →
  user ∈ default ∅ (device (scoreAll dist steps r) !! dev).
Proof.
  revert r. induction steps as [|[[cfg now] tx] steps IH]; intros r Hin;
    [exact Hin|].
  cbn [scoreAll]. apply IH. rewrite detectFraud_device.
  destruct (decide (deviceId tx = dev)) as [<-|Hne].
  - rewrite lookup_insert_eq. cbn [default from_option id].
    apply elem_of_union. by right.
  - by rewrite lookup_insert_ne.
Qed.

(** X5.  Once a transaction of a user on a device has been scored, no
    transaction of the same user on the same device scored afterwards is
    given the device reason, whatever transactions are scored in between. *)
Theorem device_rule_fires_once cfg now tx r steps cfg' now' tx' :
  userId tx' = userId tx → deviceId tx' = deviceId tx →
  reason_device
  ∉ reasons (fst (detectFraud dist cfg' now' tx'
                    (scoreAll dist steps
                       (snd (detectFraud dist cfg now tx r))))).
Proof.
  intros Hu Hd. rewrite reason_device_elem, Hu, Hd. intros [_ Hnot].
  apply Hnot, scoreAll_device_member.
  rewrite detectFraud_device, lookup_insert_eq. cbn [default from_option id].
  apply elem_of_union. left. by apply elem_of_singleton.
Qed.

(** X6.  The geography reason is reported exactly when the transaction has a
    location, the user has a stored location, and the two are more than
    100 km apart.  Without a location the stored locations are untouched;
    the stored locations of other users always are. *)
Theorem geo_rule_iff cfg now tx r :
  let out := detectFraud dist cfg now tx r in
  (reason_geo ∈ reasons (fst out)
   ↔ ∃ loc last, location tx = Some loc ∧ geo r !! userId tx = Some last
                 ∧ 100 < dist (latitude loc) (longitude loc)
                           (fst last) (snd last)) ∧
  (location tx = None → geo (snd out) = geo r) ∧
  (∀ u, u ≠ userId tx → geo (snd out) !! u = geo r !! u).
Proof.
  cbn zeta. split; [apply reason_geo_elem|].
  rewrite (proj2 (detectFraud_parts dist cfg now tx r)). split.
  - intros ->. cbn [snd]. by rewrite checkDeviceRisk_geo, checkVelocity_geo.
  - intros u Hu. destruct (location tx) as [loc|]; cbn [snd].
    + unfold checkGeoRisk. rewrite checkDeviceRisk_geo, checkVelocity_geo.
      destruct (geo r !! userId tx) as [[a b]|];
        [destruct (Js.gtb _ _)|]; cbn [snd geo with_geo];
        rewrite ?checkDeviceRisk_geo, ?checkVelocity_geo, ?lookup_insert_ne;
        done.
    + by rewrite checkDeviceRisk_geo, checkVelocity_geo.
Qed.

(** The stored location of a user survives every transaction that is not
    one of that user from within 100 km of it. *)
Lemma detectFraud_geo_kept cfg now tx r user last :
  geo r !! user = Some last →
  (userId tx = user →
   ∀ l, location tx = Some l →
        100 < dist (latitude l) (longitude l) (fst last) (snd last)) →
  geo (snd (detectFraud dist cfg now tx r)) !! user = Some last.
Proof.
  intros Hlast Hfar.
  rewrite (proj2 (detectFraud_parts dist cfg now tx r)).
  destruct (location tx) as [loc|]; cbn [snd];
    [|by rewrite checkDeviceRisk_geo, checkVelocity_geo].
  unfold checkGeoRisk. rewrite checkDeviceRisk_geo, checkVelocity_geo.
  destruct (decide (userId tx = user)) as [Hu|Hu].
  - specialize (Hfar Hu loc eq_refl). rewrite Hu, Hlast.
    destruct last as [a b]. cbn [fst snd] in Hfar.
    apply gtb_true in Hfar. rewrite Hfar. cbn [snd].
    by rewrite checkDeviceRisk_geo, checkVelocity_geo.
  - destruct (geo r !! userId tx) as [[a b]|];
      [destruct (Js.gtb _ _)|]; cbn [snd geo with_geo];
      rewrite ?checkDeviceRisk_geo, ?checkVelocity_geo, ?lookup_insert_ne;
      done.
Qed.

Lemma scoreAll_geo_kept steps r user last :
  geo r !! user = Some last →
  Forall (fun step : Config * Z * Transaction =>
            userId (snd step) = user →
            ∀ l, location (snd step) = Some l →
                 100 < dist (latitude l) (longitude l) (fst last) (snd last))
         steps →
  geo (scoreAll dist steps r) !! user = Some last.
Proof.
  revert r. induction steps as [|[[cfg now] tx] steps IH]; intros r Hlast Hall;
    [exact Hlast|].
  apply Forall_cons in Hall. destruct Hall as [Hstep Hall].
  cbn [scoreAll]. apply IH; [|exact Hall].
  by apply detectFraud_geo_kept.
Qed.

(** X8.  Once a transaction has been given the geography reason, the stored
    location stays where it was, and a transaction of the same user from the
    same location is given the reason again, as long as every transaction of
    that user scored in between that carries a location is itself more than
    100 km from the stored one.  (One from within 100 km replaces the stored
    location and ends this.) *)
Theorem geo_rule_keeps_firing cfg now tx r steps cfg' now' tx' loc last :
  location tx = Some loc →
  geo r !! userId tx = Some last →
  reason_geo ∈ reasons (fst (detectFraud dist cfg now tx r)) →
  Forall (fun step : Config * Z * Transaction =>
            userId (snd step) = userId tx →
            ∀ l, location (snd step) = Some l →
                 100 < dist (latitude l) (longitude l) (fst last) (snd last))
         steps →
  userId tx' = userId tx → location tx' = Some loc →
  let before := scoreAll dist steps (snd (detectFraud dist cfg now tx r)) in
  geo before !! userId tx = Some last ∧
  reason_geo ∈ reasons (fst (detectFraud dist cfg' now' tx' before)) ∧
  geo (snd (detectFraud dist cfg' now' tx' before)) !! userId tx = Some last.
Proof.
  intros Hloc Hlast Hfired Hsteps Hu Hloc' before.
  apply reason_geo_elem in Hfired.
  destruct Hfired as (loc0 & last0 & Hl0 & Hlast0 & Hfar).
  rewrite Hloc in Hl0. injection Hl0 as <-.
  rewrite Hlast in Hlast0. injection Hlast0 as <-.
  assert (Hkept : geo before !! userId tx = Some last).
  { subst before. apply scoreAll_geo_kept; [|exact Hsteps].
    apply detectFraud_geo_kept; [exact Hlast|].
    intros _ l Hl. rewrite Hloc in Hl. by injection Hl as <-. }
  split; [exact Hkept|]. split.
  - apply reason_geo_elem. exists loc, last. rewrite Hu. done.
  - apply detectFraud_geo_kept; [exact Hkept|].
    intros _ l Hl. rewrite Hloc' in Hl. by injection Hl as <-.
Qed.

(** X9.  The amount-cap reason is reported exactly when the amount exceeds
    [maxTransactionAmount]; the night reason exactly when the hour of the
    clock is at least [nightTimeStart] or at most [nightTimeEnd]. *)
Theorem cap_and_night_rules_iff cfg now tx r :
  let out := detectFraud dist cfg now tx r in
  (reason_amount_cap ∈ reasons (fst out)
   ↔ inject_Z (maxTransactionAmount (thresholds cfg)) < amount tx) ∧
  (reason_night ∈ reasons (fst out)
   ↔ (nightTimeStart (thresholds cfg) <= Js.getHours now)%Z
     ∨ (Js.getHours now <= nightTimeEnd (thresholds cfg))%Z) ∧
  (0 <= Js.getHours now < 24)%Z.
Proof.
  cbn zeta. split; [|split].
  - rewrite reason_elem. cbn zeta. rewrite gtb_true. split.
    + intros [H|[H|[H|[[? _]|[_ ?]]]]]; try done; try discriminate.
      * apply said_velocity in H.
        destruct H as [[_ ?]|(_ & _ & ?)]; discriminate.
      * apply said_checkDeviceRisk in H. discriminate.
      * destruct (location tx) as [loc|]; [|by apply elem_of_nil in H].
        apply said_checkGeoRisk in H. discriminate.
    + intros H. right. right. right. left. done.
  - rewrite reason_elem. cbn zeta.
    rewrite orb_true_iff, !Z.leb_le. split.
    + intros [H|[H|[H|[[_ ?]|[? _]]]]]; try done; try discriminate.
      * apply said_velocity in H.
        destruct H as [[_ ?]|(_ & _ & ?)]; discriminate.
      * apply said_checkDeviceRisk in H. discriminate.
      * destruct (location tx) as [loc|]; [|by apply elem_of_nil in H].
        apply said_checkGeoRisk in H. discriminate.
    + intros H. right. right. right. right. done.
  - unfold Js.getHours. apply Z.mod_pos_bound. lia.
Qed.

End RuleEngineExtras.

(** ** What scoring leaves alone *)

Section Frames.
Import Redis Rules.

Variable dist : Q → Q → Q → Q → Q.

Lemma detectFraud_modelVersion cfg now tx r :
  modelVersion (snd (detectFraud dist cfg now tx r)) = modelVersion r.
Proof.
  rewrite (proj2 (detectFraud_parts dist cfg now tx r)).
  destruct (location tx) as [loc|]; cbn [snd];
    unfold checkGeoRisk, checkDeviceRisk; split_cases; cbn [snd];
    cbn [modelVersion with_geo with_device]; by rewrite checkVelocity_store.
Qed.

(** X10.  Scoring a transaction leaves the velocity sets of other users, the
    amount histories, the transaction lists, the per-user device sets, the
    result cache and the model version as they were; the only expiry it
    sets is one hour on the user's velocity key. *)
Theorem scoring_touches_own_keys_only cfg now tx r :
  let out := detectFraud dist cfg now tx r in
  (∀ u, u ≠ userId tx → velocity (snd out) !! u = velocity r !! u) ∧
  amounts (snd out) = amounts r ∧
  tx24h (snd out) = tx24h r ∧
  tx7d (snd out) = tx7d r ∧
  userDevices24h (snd out) = userDevices24h r ∧
  txCache (snd out) = txCache r ∧
  modelVersion (snd out) = modelVersion r ∧
  deadline (snd out)
  = <[VELOCITY_KEY_PREFIX +:+ userId tx := (now + 3600 * 1000)%Z]> (deadline r).
Proof.
  cbn zeta. rewrite (proj2 (detectFraud_parts dist cfg now tx r)).
  assert (Hframe : ∀ r0 : Store,
    (∀ u, u ≠ userId tx → velocity r0 !! u = velocity r !! u) ∧
    amounts r0 = amounts r ∧ tx24h r0 = tx24h r ∧ tx7d r0 = tx7d r ∧
    userDevices24h r0 = userDevices24h r ∧ txCache r0 = txCache r ∧
    modelVersion r0 = modelVersion r ∧
    deadline r0
    = <[VELOCITY_KEY_PREFIX +:+ userId tx := (now + 3600 * 1000)%Z]> (deadline r) →
    ∀ g d, (∀ u, u ≠ userId tx →
              velocity (with_geo g (with_device d r0)) !! u = velocity r !! u) ∧
    amounts (with_geo g (with_device d r0)) = amounts r ∧
    tx24h (with_geo g (with_device d r0)) = tx24h r ∧
    tx7d (with_geo g (with_device d r0)) = tx7d r ∧
    userDevices24h (with_geo g (with_device d r0)) = userDevices24h r ∧
    txCache (with_geo g (with_device d r0)) = txCache r ∧
    modelVersion (with_geo g (with_device d r0)) = modelVersion r ∧
    deadline (with_geo g (with_device d r0))
    = <[VELOCITY_KEY_PREFIX +:+ userId tx := (now + 3600 * 1000)%Z]> (deadline r))
    by (intros r0 H g d; exact H).
  assert (Hv : ∀ d, let r0 := with_device d
                       (snd (checkVelocity cfg now (userId tx) (amount tx) r)) in
    (∀ u, u ≠ userId tx → velocity r0 !! u = velocity r !! u) ∧
    amounts r0 = amounts r ∧ tx24h r0 = tx24h r ∧ tx7d r0 = tx7d r ∧
    userDevices24h r0 = userDevices24h r ∧ txCache r0 = txCache r ∧
    modelVersion r0 = modelVersion r ∧
    deadline r0
    = <[VELOCITY_KEY_PREFIX +:+ userId tx := (now + 3600 * 1000)%Z]> (deadline r)).
  { intros d. cbn zeta. rewrite checkVelocity_store.
    cbn [velocity amounts tx24h tx7d userDevices24h txCache modelVersion deadline
         with_device with_velocity with_deadline expire].
    split; [|by repeat split].
    intros u Hu. by rewrite lookup_insert_ne. }
  destruct (location tx) as [loc|]; cbn [snd].
  - unfold checkGeoRisk, checkDeviceRisk.
    split_cases; cbn [snd]; first [apply Hv | apply (Hframe _ (Hv _))].
  - unfold checkDeviceRisk. split_cases; cbn [snd]; apply Hv.
Qed.

End Frames.

(** ** The amount-pattern check *)

Section AmountPatternExtras.
Import Redis Rules.

(** [amount % 10000 === 0] holds exactly for the whole multiples. *)
Lemma multiple_of_10000_spec a :
  multiple_of_10000 a = true ↔ ∃ k : Z, a == inject_Z (10000 * k).
Proof.
  unfold multiple_of_10000. rewrite Qeq_bool_iff. split.
  - intros H. by eexists.
  - intros [k Hk].
    assert (Hq : (Qnum a / (Z.pos (Qden a) * 10000) = k)%Z).
    { unfold Qeq in Hk. cbn [inject_Z Qnum Qden] in Hk.
      assert (E : (Qnum a = k * (Z.pos (Qden a) * 10000))%Z) by lia.
      rewrite E. apply Z.div_mul. lia. }
    by rewrite Hq.
Qed.

(** X12.  The amount-pattern check answers 0 on an empty history; when it
    reports a pattern it writes nothing; when it reports none it adds the
    amount to the user's history with an expiry of 24 hours and leaves the
    histories of other users alone. *)
Theorem amount_recorded_unless_reported now user amt r :
  let out := checkAmountPatterns now user amt r in
  (amountWindow r user now = [] → fst out = clean) ∧
  (0 < score (fst out) → snd out = r) ∧
  (score (fst out) == 0 →
   {| s_amount := amt; s_time := now |} ∈ amountWindow (snd out) user now
   ∧ deadline (snd out) !! (AMOUNT_KEY_PREFIX +:+ user)
     = Some (now + 86400 * 1000)%Z
   ∧ ∀ u, u ≠ user → amounts (snd out) !! u = amounts r !! u).
Proof.
  cbn zeta. unfold checkAmountPatterns. fold (amountWindow r user now).
  assert (Hstored :
    let r' := expire (AMOUNT_KEY_PREFIX +:+ user) 86400 now
                (with_amounts
                   (<[user := zadd (default [] (amounts r !! user)) now
                                {| s_amount := amt; s_time := now |}]> (amounts r))
                   r) in
    {| s_amount := amt; s_time := now |} ∈ amountWindow r' user now
    ∧ deadline r' !! (AMOUNT_KEY_PREFIX +:+ user) = Some (now + 86400 * 1000)%Z
    ∧ ∀ u, u ≠ user → amounts r' !! u = amounts r !! u).
  { cbn zeta. unfold amountWindow, expire.
    cbn [amounts deadline with_deadline with_amounts].
    rewrite !lookup_insert_eq. cbn [from_option id].
    rewrite zrangebyscore_zadd by lia.
    split; [apply list_elem_of_here|]. split; [reflexivity|].
    intros u Hu. by rewrite lookup_insert_ne. }
  destruct (amountWindow r user now) as [|h t] eqn:Ew.
  - cbn [List.map length Nat.ltb Nat.leb fst snd score clean].
    split; [done|]. split; [intros H; by apply Qlt_irrefl in H|].
    intros _. exact Hstored.
  - cbn [List.map length Nat.ltb Nat.leb].
    split; [done|].
    destruct (_ && _); [|destruct (_ && _)]; cbn [fst snd score clean].
    + split; [done|]. intros H. vm_compute in H. discriminate.
    + split; [done|]. intros H. vm_compute in H. discriminate.
    + split; [intros H; by apply Qlt_irrefl in H|]. intros _. exact Hstored.
Qed.

(** X13.  The amount-pattern check reports the round-number pattern exactly
    when the history is not empty, the spike pattern does not apply, the
    amount is a whole multiple of 10000 and it is at least 50000. *)
Theorem round_number_rule_iff now user amt r :
  let history := List.map s_amount (amountWindow r user now) in
  fst (checkAmountPatterns now user amt r)
  = {| score := 0.3; reason := Some reason_round_number |}
  ↔ history ≠ []
    ∧ ¬ (Js.sum history / inject_Z (Z.of_nat (length history)) * 10 < amt
         ∧ 100000 < amt)
    ∧ (∃ k : Z, amt == inject_Z (10000 * k))
    ∧ 50000 <= amt.
Proof.
  cbn zeta. unfold checkAmountPatterns. fold (amountWindow r user now).
  set (history := List.map s_amount (amountWindow r user now)).
  rewrite <- multiple_of_10000_spec, <- geb_true.
  destruct (0 <? length history)%nat eqn:El.
  - assert (Hne : history ≠ []) by (destruct history; [discriminate El|done]).
    destruct (Js.gtb amt _ && Js.gtb amt 100000) eqn:Es.
    + apply andb_true_iff in Es. destruct Es as [E1 E2].
      apply gtb_true in E1, E2. cbn [fst]. split; [discriminate|].
      intros (_ & Hn & _). destruct Hn. done.
    + assert (Hn : ¬ (Js.sum history / inject_Z (Z.of_nat (length history)) * 10
                      < amt ∧ 100000 < amt)).
      { intros [H1 H2]. apply gtb_true in H1, H2.
        rewrite H1, H2 in Es. discriminate. }
      destruct (multiple_of_10000 amt && Js.geb amt 50000) eqn:Er; cbn [fst].
      * apply andb_true_iff in Er. destruct Er as [E1 E2].
        split; [done|reflexivity].
      * split; [discriminate|]. intros (_ & _ & H1 & H2).
        rewrite H1, H2 in Er. discriminate.
  - cbn [fst]. split; [discriminate|]. intros (Hne & _).
    destruct history; [done|discriminate El].
Qed.

End AmountPatternExtras.

(** ** The scorer and its features *)

Section ScorerExtras.
Import Redis Rules ML.

Variable dist : Q → Q → Q → Q → Q.
Variable Model : Type.
Variable predict : Model → list Q → option Q.

(** X14.  With no network loaded the scorer's answer depends on the amount
    alone, never decreases when the amount grows, and lies between 0.2 and
    0.9. *)
Theorem unloaded_scorer_monotone now now' tx tx' r r' :
  amount tx <= amount tx' →
  predictRisk Model predict None now tx r
  <= predictRisk Model predict None now' tx' r'
  ∧ 0.2 <= predictRisk Model predict None now tx r <= 0.9.
Proof.
  intros Hle. cbn [predictRisk]. unfold fallbackRiskScore.
  destruct (Js.gtb (amount tx) 1000000) eqn:A1;
  destruct (Js.gtb (amount tx) 500000) eqn:A2;
  destruct (Js.gtb (amount tx) 100000) eqn:A3;
  destruct (Js.gtb (amount tx') 1000000) eqn:B1;
  destruct (Js.gtb (amount tx') 500000) eqn:B2;
  destruct (Js.gtb (amount tx') 100000) eqn:B3;
  rewrite ?gtb_true, ?gtb_false in *; lra.
Qed.

(** X15.  Every entry of the feature vector is [(raw - mean) / std] for the
    statistics listed under the feature's own name, with [std > 0]: the
    division by 1000 is never used, and the raw value can be recovered. *)
Theorem features_normalized_by_table now tx r i raw :
  rawFeatures now tx r !! i = Some raw →
  ∃ name mean std,
    FEATURE_NAMES !! i = Some name ∧
    stats_of FEATURE_STATS name = Some (mean, std) ∧
    0 < std ∧
    preprocessFeatures now tx r !! i = Some ((raw - mean) / std) ∧
    (raw - mean) / std * std + mean == raw.
Proof.
  intros Hraw. unfold preprocessFeatures. rewrite list_lookup_imap, Hraw.
  cbn [fmap option_fmap option_map].
  assert (Hi : (i < 10)%nat).
  { apply lookup_lt_Some in Hraw. exact Hraw. }
  do 10 (destruct i as [|i]; [
    eexists _, _, _; split; [reflexivity|]; split; [reflexivity|];
    split; [reflexivity|]; split; [reflexivity|]; field; discriminate |]).
  lia.
Qed.

(** X16.  On the store the rule engine leaves, which is the one /check hands
    to the scorer, the raw feature isNewDevice is 0 and deviceUserCount is
    at least 1: the rule engine has added the user to the device first. *)
Theorem scorer_never_sees_new_device cfg now now' tx r :
  let r' := snd (detectFraud dist cfg now tx r) in
  rawFeatures now' tx r' !! 3%nat = Some 0
  ∧ ∃ n, rawFeatures now' tx r' !! 4%nat = Some (of_nat (S n)).
Proof.
  cbn zeta. unfold rawFeatures. rewrite detectFraud_device, lookup_insert_eq.
  cbn [from_option id].
  set (known := {[userId tx]} ∪ default ∅ (device r !! deviceId tx)).
  assert (Hs : size known ≠ 0%nat).
  { apply size_non_empty_iff. subst known. set_solver. }
  destruct (size known) as [|n] eqn:E; [done|].
  split; [reflexivity|]. by exists n.
Qed.

End ScorerExtras.

(** ** The /check handler, further *)

Section CheckExtras.
Import Redis Rules ML Routes Wire.

Variable dist : Q → Q → Q → Q → Q.
Variable Model : Type.
Variable predict : Model → list Q → option Q.

Lemma validateTransaction_rejection req resp :
  validateTransaction req = Some resp →
  resp = Failure 400 "Missing required fields"
  ∨ resp = Failure 400 "Invalid location format".
Proof.
  unfold validateTransaction.
  destruct (_ || _ || _ || _)%bool; [intros [= <-]; by left|].
  destruct (body_location req) as [loc|]; [|discriminate].
  destruct (_ || _)%bool; [intros [= <-]; by right|discriminate].
Qed.

(** The state a scored answer leaves. *)
Lemma check_scored_state cfg now req s body s' :
  check dist Model predict cfg now req s = (Scored body, s') →
  let tx := bodyTransaction req in
  let rules := detectFraud dist cfg now tx (redis s) in
  let id := length (transactions s) in
  ∃ doc,
    s' = {| redis :=
              expire ("tx:" +:+ pretty id) 3600 now
                (with_txCache
                   (<[id := (body_riskScore body, body_reasons body)]>
                      (txCache (snd rules))) (snd rules));
            transactions := transactions s ++ [doc];
            model := model s |}
    ∧ transactionId body = id
    ∧ body_reasons body = reasons (fst rules)
    ∧ rec_riskScore doc = body_riskScore body
    ∧ status doc = (if Js.geb (body_riskScore body) 0.7 then FLAGGED else PENDING)
    ∧ transactionType (rec_tx doc) ∈ ["TRANSFER"; "CARD"; "QR"; "POS"].
Proof.
  unfold check. intros H.
  destruct (validateTransaction req) as [rej|] eqn:Ev.
  { apply validateTransaction_rejection in Ev.
    destruct Ev as [-> | ->]; discriminate H. }
  destruct (detectFraud dist cfg now (bodyTransaction req) (redis s))
    as [v r] eqn:Ed.
  cbn [fst snd].
  destruct (schemaAccepts _) eqn:Es in H; [|discriminate].
  inversion H; subst. eexists. split; [reflexivity|].
  cbn [transactionId body_reasons body_riskScore rec_riskScore status].
  repeat split; try reflexivity.
  unfold schemaAccepts in Es. by apply bool_decide_eq_true in Es.
Qed.

(** X17.  The validator of /check looks at truthiness only.  A value is truthy
    unless it is missing, null, false, the empty string or the number 0.  A
    body passes exactly when userId, amount, transactionType and deviceId
    are truthy and, if location is truthy, so are its latitude and longitude,
    whatever the types of the values.  On the body of a request whose fields
    have their intended types the validator is the one of the /check
    model, and there it passes exactly when the three strings are non-empty,
    the amount is a number other than 0 and the coordinates of a given
    location are numbers other than 0. *)
Theorem validator_accepts_iff body req :
  (∀ v, truthy v = true ↔
        v ≠ JUndefined ∧ v ≠ JNull ∧ v ≠ JBool false ∧ v ≠ JStr ""
        ∧ ∀ q, v = JNum q → ¬ q == 0) ∧
  (let location := getField "location" body in
   validateTransactionRaw body = None ↔
   truthy (getField "userId" body) = true ∧
   truthy (getField "amount" body) = true ∧
   truthy (getField "transactionType" body) = true ∧
   truthy (getField "deviceId" body) = true ∧
   (truthy location = true →
    truthy (member location "latitude") = true ∧
    truthy (member location "longitude") = true)) ∧
  validateTransactionRaw (ofRequest req) = validateTransaction req ∧
  (validateTransaction req = None ↔
   (∃ u, body_userId req = Some u ∧ u ≠ "") ∧
   (∃ a, body_amount req = Some a ∧ ¬ a == 0) ∧
   (∃ t, body_transactionType req = Some t ∧ t ≠ "") ∧
   (∃ d, body_deviceId req = Some d ∧ d ≠ "") ∧
   (∀ loc, body_location req = Some loc →
           (∃ x, raw_latitude loc = Some x ∧ ¬ x == 0)
           ∧ (∃ y, raw_longitude loc = Some y ∧ ¬ y == 0))).
Proof.
  split; [|split; [|split]].
  - intros v. destruct v as [| |b|q|s|items|fields]; cbn [truthy].
    + split; [discriminate|]. by intros [? _].
    + split; [discriminate|]. by intros (_ & ? & _).
    + destruct b.
      * split; [intros _|done].
        repeat (split; [discriminate|]). intros ? [=].
      * split; [discriminate|]. by intros (_ & _ & ? & _).
    + rewrite negb_true_iff, <- not_true_iff_false, Qeq_bool_iff. split.
      * intros Hq. repeat (split; [discriminate|]). by intros ? [= <-].
      * intros (_ & _ & _ & _ & H). by apply H.
    + rewrite negb_true_iff, String.eqb_neq. split.
      * intros Hs. do 3 (split; [discriminate|]).
        split; [congruence|]. intros ? [=].
      * intros (_ & _ & _ & H & _). congruence.
    + split; [intros _|done].
      repeat (split; [discriminate|]). intros ? [=].
    + split; [intros _|done].
      repeat (split; [discriminate|]). intros ? [=].
  - cbn zeta. unfold validateTransactionRaw.
    destruct (truthy (getField "userId" body));
      destruct (truthy (getField "amount" body));
      destruct (truthy (getField "transactionType" body));
      destruct (truthy (getField "deviceId" body)); cbn [negb orb];
      try (split; [discriminate|]; intros (? & ? & ? & ? & _); discriminate).
    destruct (truthy (getField "location" body)); cbn [andb].
    + destruct (truthy (member _ "latitude"));
        destruct (truthy (member _ "longitude")); cbn [negb orb];
        try (split; [discriminate|]; intros (_ & _ & _ & _ & H);
             destruct (H eq_refl); discriminate).
      split; [|done]. intros _. repeat split.
    + split; [|done]. intros _. repeat split; discriminate.
  - destruct req as [u a t d loc c ip ra].
    destruct u, a, t, d; try reflexivity;
      destruct loc as [[[x|] [y|]]|]; reflexivity.
  - assert (Hs : ∀ v, Js.truthy_str v = true ↔ ∃ s, v = Some s ∧ s ≠ "").
    { intros [s|]; cbn.
      - rewrite negb_true_iff, String.eqb_neq. split; [by exists s|].
        by intros (? & [= <-] & ?).
      - split; [discriminate|]. by intros (? & ? & _). }
    assert (Hn : ∀ v, Js.truthy_num v = true ↔ ∃ q, v = Some q ∧ ¬ q == 0).
    { intros [q|]; cbn.
      - rewrite negb_true_iff, <- not_true_iff_false, Qeq_bool_iff.
        split; [by exists q|]. by intros (? & [= <-] & ?).
      - split; [discriminate|]. by intros (? & ? & _). }
    rewrite <- !Hs, <- Hn. unfold validateTransaction.
    destruct (Js.truthy_str (body_userId req));
      destruct (Js.truthy_num (body_amount req));
      destruct (Js.truthy_str (body_transactionType req));
      destruct (Js.truthy_str (body_deviceId req)); cbn [negb orb];
      try (split; [discriminate|]; intros (? & ? & ? & ? & _); discriminate).
    destruct (body_location req) as [loc|].
    + destruct (Js.truthy_num (raw_latitude loc)) eqn:E1;
        destruct (Js.truthy_num (raw_longitude loc)) eqn:E2; cbn [negb orb].
      * split; [|done]. intros _. do 4 (split; [done|]).
        intros ? [= <-]. split; apply Hn; done.
      * split; [discriminate|]. intros (_ & _ & _ & _ & H).
        destruct (H loc eq_refl) as [_ H2]. apply Hn in H2. congruence.
      * split; [discriminate|]. intros (_ & _ & _ & _ & H).
        destruct (H loc eq_refl) as [H1 _]. apply Hn in H1. congruence.
      * split; [discriminate|]. intros (_ & _ & _ & _ & H).
        destruct (H loc eq_refl) as [H1 _]. apply Hn in H1. congruence.
    + split; [|done]. intros _. do 4 (split; [done|]). intros ? [=].
Qed.

(** X18.  A scored answer carries the position of the new document as its
    id; one document is appended and the earlier ones are kept; the cache
    holds the score and the reasons under that id for one hour; the reasons
    are those of the rule engine; the network is as before. *)
Theorem check_stores_assessment cfg now req s body s' :
  check dist Model predict cfg now req s = (Scored body, s') →
  transactionId body = length (transactions s) ∧
  length (transactions s') = S (length (transactions s)) ∧
  (∀ i doc, transactions s !! i = Some doc → transactions s' !! i = Some doc) ∧
  txCache (redis s') !! transactionId body
  = Some (body_riskScore body, body_reasons body) ∧
  deadline (redis s') !! ("tx:" +:+ pretty (transactionId body))
  = Some (now + 3600 * 1000)%Z ∧
  body_reasons body
  = reasons (fst (detectFraud dist cfg now (bodyTransaction req) (redis s))) ∧
  model s' = model s.
Proof.
  intros H. destruct (check_scored_state _ _ _ _ _ _ H)
    as (doc & -> & Hid & Hreasons & _).
  rewrite Hid. cbn [transactions redis model].
  split; [reflexivity|]. split; [rewrite length_app; cbn; lia|].
  split; [intros i d Hi; by apply lookup_app_l_Some|].
  unfold expire. cbn [txCache deadline with_deadline with_txCache].
  rewrite !lookup_insert_eq. done.
Qed.

(** X19.  A validated request whose type is not one of TRANSFER, CARD, QR, POS
    is answered 500 and stores no document, but the writes of the rule
    engine stay: the velocity sample and the user in the device's set. *)
Theorem check_schema_failure_keeps_writes cfg now req s :
  validateTransaction req = None →
  default "" (body_transactionType req) ∉ ["TRANSFER"; "CARD"; "QR"; "POS"] →
  let tx := bodyTransaction req in
  ∃ s', check dist Model predict cfg now req s
        = (Failure 500 "Internal server error", s') ∧
        transactions s' = transactions s ∧
        model s' = model s ∧
        redis s' = snd (detectFraud dist cfg now tx (redis s)) ∧
        sampleOf now tx ∈ window (redis s') (userId tx) now 60000 ∧
        userId tx ∈ default ∅ (device (redis s') !! deviceId tx).
Proof.
  intros Hv Htype. cbn zeta. unfold check. rewrite Hv.
  destruct (detectFraud dist cfg now (bodyTransaction req) (redis s))
    as [v r] eqn:Ed.
  assert (Es : ∀ doc, transactionType (rec_tx doc)
                      = default "" (body_transactionType req) →
                      schemaAccepts doc = false).
  { intros doc Hd. unfold schemaAccepts. rewrite Hd.
    by apply bool_decide_eq_false. }
  rewrite Es by reflexivity.
  eexists. split; [reflexivity|]. cbn [transactions model redis snd].
  split; [reflexivity|]. split; [reflexivity|]. split; [reflexivity|].
  assert (Hr : r = snd (detectFraud dist cfg now (bodyTransaction req) (redis s)))
    by (by rewrite Ed).
  rewrite Hr. split.
  - rewrite detectFraud_window, window_after_checkVelocity.
    rewrite zrangebyscore_zadd by lia. apply list_elem_of_here.
  - rewrite detectFraud_device, lookup_insert_eq. cbn [from_option id].
    set_solver.
Qed.

(** X20.  With no network loaded, a transaction of at most 100000 is scored at
    most 0.68, so it is never high risk: ALLOW and PENDING, whatever rules
    fire. *)
Theorem unloaded_small_amount_never_flagged cfg now req s body s' a :
  model s = None →
  body_amount req = Some a → a <= 100000 →
  check dist Model predict cfg now req s = (Scored body, s') →
  body_riskScore body <= 0.68 ∧
  isHighRisk body = false ∧
  recommendedAction body = ALLOW ∧
  ∃ doc, transactions s' !! transactionId body = Some doc ∧ status doc = PENDING.
Proof.
  intros Hm Ha Hle H.
  destruct (check_scored_state _ _ _ _ _ _ H)
    as (doc & -> & Hid & _ & _ & Hst & _).
  destruct (check_scored _ _ _ _ _ _ _ _ _ H) as (_ & Hbody & _).
  pose proof (detectFraud_riskScore_range dist cfg now (bodyTransaction req)
                (redis s)) as Hr.
  assert (Hscore : body_riskScore body <= 0.68).
  { rewrite Hbody. cbn [body_riskScore]. rewrite Hm. cbn [predictRisk].
    unfold fallbackRiskScore. cbn [bodyTransaction amount]. rewrite Ha.
    cbn [from_option id].
    assert (E1 : Js.gtb a 1000000 = false) by (apply gtb_false; lra).
    assert (E2 : Js.gtb a 500000 = false) by (apply gtb_false; lra).
    assert (E3 : Js.gtb a 100000 = false) by (apply gtb_false; lra).
    rewrite E1, E2, E3. lra. }
  assert (Hg : Js.geb (body_riskScore body) 0.7 = false)
    by (apply geb_false; lra).
  split; [exact Hscore|].
  rewrite Hg in Hst.
  assert (Hhigh : isHighRisk body = false ∧ recommendedAction body = ALLOW).
  { rewrite Hbody in Hg |- *. cbn [isHighRisk recommendedAction body_riskScore] in *.
    by rewrite Hg. }
  destruct Hhigh as [-> ->]. split; [reflexivity|]. split; [reflexivity|].
  exists doc. split; [|exact Hst].
  rewrite Hid. cbn [transactions]. by apply list_lookup_middle.
Qed.

(** X21.  Whatever /check answers, the documents stored before are kept in
    place, and the network and the model version are unchanged. *)
Theorem check_never_rewrites_documents cfg now req s :
  let out := check dist Model predict cfg now req s in
  transactions s `prefix_of` transactions (snd out) ∧
  model (snd out) = model s ∧
  modelVersion (redis (snd out)) = modelVersion (redis s).
Proof.
  cbn zeta. unfold check.
  destruct (validateTransaction req); [by repeat split|].
  pose proof (detectFraud_modelVersion dist cfg now (bodyTransaction req)
                (redis s)) as Hmv.
  destruct (detectFraud dist cfg now (bodyTransaction req) (redis s))
    as [v r] eqn:Ed. cbn [snd] in Hmv.
  destruct (schemaAccepts _); cbn [snd transactions model redis].
  - split; [by apply prefix_app_r|]. split; [reflexivity|]. exact Hmv.
  - split; [done|]. split; [reflexivity|]. exact Hmv.
Qed.

End CheckExtras.

(** ** Feedback intake, further *)

Section FeedbackExtras.
Import Redis ML Routes Wire.

Variable Model : Type.
Variable fit : Model → list Q → Q → option Model.
Variable castObjectId : JsValue → option nat.

(** The outcome of a report whose update succeeds. *)
Lemma reportFraud_applied now req s id fraud found net net' :
  body_transactionId req = Some id →
  body_wasActuallyFraud req = Some fraud →
  transactions s !! id = Some found →
  model s = Some net →
  fit net (preprocessFeatures now (rec_tx found) (redis s))
      (if fraud then 1 else 0) = Some net' →
  reportFraud Model fit now req s
  = (Message "Fraud report processed successfully",
     {| redis := with_modelVersion (modelVersion (redis s) + 1)%Z (redis s);
        transactions :=
          <[id := with_status (if fraud then DENIED else APPROVED) found]>
            (transactions s);
        model := Some net' |}).
Proof.
  intros Hid Hfraud Hfound Hm Hfit. unfold reportFraud.
  rewrite Hid, Hfraud, Hfound, Hm. cbn [rec_tx with_status].
  unfold updateModelWithTransaction. by rewrite Hfit.
Qed.

(** X22.  A report whose id is falsy or whose flag is not a boolean is
    answered 400; one whose id cannot be cast to an ObjectId is answered
    500; one whose id is an ObjectId that names no stored document is
    answered 404.  None of them changes anything. *)
Theorem report_refused_without_effect now body s :
  let transactionId := getField "transactionId" body in
  let flag := getField "wasActuallyFraud" body in
  (truthy transactionId = false ∨ (∀ b, flag ≠ JBool b) →
   reportFraudRaw Model fit castObjectId now body s
   = (Failure 400 "Missing required fields", s)) ∧
  (∀ b, flag = JBool b → truthy transactionId = true →
        castObjectId transactionId = None →
        reportFraudRaw Model fit castObjectId now body s
        = (Failure 500 "Internal server error", s)) ∧
  (∀ b id, flag = JBool b → truthy transactionId = true →
           castObjectId transactionId = Some id →
           (length (transactions s) <= id)%nat →
           reportFraudRaw Model fit castObjectId now body s
           = (Failure 404 "Transaction not found", s)).
Proof.
  cbn zeta. unfold reportFraudRaw. split; [|split].
  - intros [H|H].
    + rewrite H. destruct (getField "wasActuallyFraud" body); reflexivity.
    + destruct (getField "wasActuallyFraud" body) as [| |b| | | |];
        try reflexivity. by destruct (H b).
  - intros b -> -> ->. reflexivity.
  - intros b id -> -> -> Hid. cbn [negb]. unfold reportFraud.
    cbn [body_transactionId body_wasActuallyFraud].
    by rewrite (lookup_ge_None_2 _ _ Hid).
Qed.

(** X23.  A report on a stored document whose model update succeeds is
    answered 200.  The document takes the status DENIED for a fraud and
    APPROVED otherwise, its other fields and the other documents being as
    they were; the network is the one the update returned; the model version
    is the old one plus 1 and every other key of the store is as before. *)
Theorem report_applied now req s id fraud found net net' :
  body_transactionId req = Some id →
  body_wasActuallyFraud req = Some fraud →
  transactions s !! id = Some found →
  model s = Some net →
  fit net (preprocessFeatures now (rec_tx found) (redis s))
      (if fraud then 1 else 0) = Some net' →
  ∃ s' saved,
    reportFraud Model fit now req s
    = (Message "Fraud report processed successfully", s') ∧
    transactions s' !! id = Some saved ∧
    status saved = (if fraud then DENIED else APPROVED) ∧
    rec_tx saved = rec_tx found ∧
    ipAddress saved = ipAddress found ∧
    rec_riskScore saved = rec_riskScore found ∧
    length (transactions s') = length (transactions s) ∧
    (∀ j, j ≠ id → transactions s' !! j = transactions s !! j) ∧
    model s' = Some net' ∧
    modelVersion (redis s') = (modelVersion (redis s) + 1)%Z ∧
    sameButVersion (redis s) (redis s').
Proof.
  intros Hid Hfraud Hfound Hm Hfit.
  rewrite (reportFraud_applied now req s id fraud found net net')
    by assumption.
  eexists _, _. split; [reflexivity|]. cbn [transactions model redis].
  split; [apply list_lookup_insert_eq; by eapply lookup_lt_Some|].
  cbn [status rec_tx ipAddress rec_riskScore with_status].
  do 4 (split; [reflexivity|]).
  split; [apply length_insert|].
  split; [intros j Hj; by apply list_lookup_insert_ne|].
  split; [reflexivity|]. split; [reflexivity|].
  repeat split.
Qed.

(** X24.  Reporting the same transaction twice, both updates succeeding,
    trains the network twice: the second update starts from the network the
    first one returned, and the network afterwards is the one the second
    returns; the model version is the old one plus
    2, every other key of the store being as before; the document carries
    the status of the second report, DENIED for a fraud and APPROVED
    otherwise, and nothing else of it or of the other documents changes. *)
Theorem report_twice_trains_twice now now' s id (first second : bool) found net net1 net2 :
  transactions s !! id = Some found →
  model s = Some net →
  fit net (preprocessFeatures now (rec_tx found) (redis s))
      (if first then 1 else 0) = Some net1 →
  fit net1 (preprocessFeatures now' (rec_tx found) (redis s))
      (if second then 1 else 0) = Some net2 →
  let report b := {| body_transactionId := Some id;
                     body_wasActuallyFraud := Some b |} in
  let once := reportFraud Model fit now (report first) s in
  let twice := reportFraud Model fit now' (report second) (snd once) in
  fst once = Message "Fraud report processed successfully" ∧
  fst twice = Message "Fraud report processed successfully" ∧
  model (snd once) = Some net1 ∧
  model (snd twice) = Some net2 ∧
  modelVersion (redis (snd twice)) = (modelVersion (redis s) + 2)%Z ∧
  sameButVersion (redis s) (redis (snd twice)) ∧
  ∃ saved,
    transactions (snd twice) !! id = Some saved ∧
    status saved = (if second then DENIED else APPROVED) ∧
    rec_tx saved = rec_tx found ∧
    ipAddress saved = ipAddress found ∧
    rec_riskScore saved = rec_riskScore found ∧
    (∀ j, j ≠ id → transactions (snd twice) !! j = transactions s !! j).
Proof.
  intros Hfound Hm Hfit1 Hfit2. cbn zeta.
  assert (Hlt : (id < length (transactions s))%nat)
    by (by eapply lookup_lt_Some).
  rewrite (reportFraud_applied now _ s id first found net net1)
    by (reflexivity || assumption).
  cbn [fst snd]. split; [reflexivity|].
  set (s1 := {| redis := _; transactions := _; model := Some net1 |}).
  set (found1 := with_status (if first then DENIED else APPROVED) found).
  assert (Hfound1 : transactions s1 !! id = Some found1)
    by (by apply list_lookup_insert_eq).
  rewrite (reportFraud_applied now' _ s1 id second found1 net1 net2)
    by (reflexivity || assumption).
  subst s1 found1.
  cbn [fst snd transactions redis model modelVersion with_modelVersion
       with_status rec_tx ipAddress rec_riskScore].
  split; [reflexivity|]. split; [reflexivity|]. split; [reflexivity|].
  split; [lia|]. split; [repeat split|].
  eexists. rewrite list_insert_insert_eq.
  split; [by rewrite list_lookup_insert_eq by exact Hlt|].
  cbn [status rec_tx ipAddress rec_riskScore].
  do 4 (split; [reflexivity|]).
  intros j Hj. by apply list_lookup_insert_ne.
Qed.

End FeedbackExtras.

(** ** Statistics *)

Section StatsExtras.
Import Redis Rules ML Routes Stats.

Lemma riskBucket_spec score :
  (riskBucket score = LOW ↔ score < 0.3) ∧
  (riskBucket score = MEDIUM ↔ 0.3 <= score ∧ score < 0.7) ∧
  (riskBucket score = HIGH ↔ 0.7 <= score).
Proof.
  unfold riskBucket.
  destruct (Js.gtb 0.3 score) eqn:E1; [|destruct (Js.gtb 0.7 score) eqn:E2];
    rewrite ?gtb_true, ?gtb_false in *;
    (split; [|split]); split; try discriminate; try lra; try done.
Qed.

Lemma inBucket_own d : inBucket (riskBucket (rec_riskScore d)) d = true.
Proof. unfold inBucket. by destruct (riskBucket (rec_riskScore d)). Qed.

Lemma filter_holds_one {A} (keep : A → bool) (x : A) (l : list A) :
  x ∈ l → keep x = true → (0 < length (List.filter keep l))%nat.
Proof.
  intros Hx Hk.
  assert (Hf : In x (List.filter keep l)).
  { apply filter_In. split; [by apply list_elem_of_In|exact Hk]. }
  destruct (List.filter keep l); [destruct Hf|cbn; lia].
Qed.

Lemma buckets_partition docs :
  (length (List.filter (inBucket LOW) docs)
   + length (List.filter (inBucket MEDIUM) docs)
   + length (List.filter (inBucket HIGH) docs) = length docs)%nat.
Proof.
  induction docs as [|d docs IH]; [reflexivity|].
  cbn [List.filter]. unfold inBucket in *.
  destruct (riskBucket (rec_riskScore d)); cbn [Bucket_eqb length]; lia.
Qed.

Lemma statuses_partition docs :
  (length (List.filter (hasStatus PENDING) docs)
   + length (List.filter (hasStatus APPROVED) docs)
   + length (List.filter (hasStatus DENIED) docs)
   + length (List.filter (hasStatus FLAGGED) docs) = length docs)%nat.
Proof.
  induction docs as [|d docs IH]; [reflexivity|].
  cbn [List.filter]. unfold hasStatus in *.
  destruct (status d); cbn [Status_eqb length]; lia.
Qed.

Lemma bucketGroup_count docs b g :
  bucketGroup docs b = Some g →
  g_bucket g = b ∧ (0 < g_docs g)%nat
  ∧ g_docs g = length (List.filter (inBucket b) docs).
Proof.
  unfold bucketGroup. fold (inBucket b).
  destruct (0 <? _)%nat eqn:E; [|discriminate].
  intros [= <-]. cbn. apply Nat.ltb_lt in E. done.
Qed.

Lemma bucketGroup_none docs b :
  bucketGroup docs b = None → length (List.filter (inBucket b) docs) = 0%nat.
Proof.
  unfold bucketGroup. fold (inBucket b).
  destruct (0 <? _)%nat eqn:E; [discriminate|].
  intros _. apply Nat.ltb_ge in E. lia.
Qed.

(** X26.  The counts of the risk distribution add up to the number of
    documents; each bucket appears at most once, only with a positive
    count, which is the number of documents falling in it; every document
    falls in a bucket that appears. *)
Theorem risk_distribution_partitions docs :
  sum_list (g_docs <$> riskDistribution docs) = length docs ∧
  NoDup (g_bucket <$> riskDistribution docs) ∧
  (∀ g, g ∈ riskDistribution docs →
        (0 < g_docs g)%nat ∧
        g_docs g
        = length (List.filter
                    (fun d => Bucket_eqb (riskBucket (rec_riskScore d))
                                (g_bucket g)) docs)) ∧
  (∀ d, d ∈ docs →
        ∃ g, g ∈ riskDistribution docs
             ∧ g_bucket g = riskBucket (rec_riskScore d)).
Proof.
  pose proof (buckets_partition docs) as Hp.
  unfold riskDistribution. cbn [omap list_omap].
  destruct (bucketGroup docs LOW) as [gl|] eqn:El;
    [apply bucketGroup_count in El; destruct El as (El1 & El2 & El3)
    |apply bucketGroup_none in El];
  (destruct (bucketGroup docs MEDIUM) as [gm|] eqn:Em;
    [apply bucketGroup_count in Em; destruct Em as (Em1 & Em2 & Em3)
    |apply bucketGroup_none in Em]);
  (destruct (bucketGroup docs HIGH) as [gh|] eqn:Eh;
    [apply bucketGroup_count in Eh; destruct Eh as (Eh1 & Eh2 & Eh3)
    |apply bucketGroup_none in Eh]);
  (split; [cbn; lia|]);
  (split; [cbn [fmap list_fmap]; rewrite ?El1, ?Em1, ?Eh1;
           repeat (apply NoDup_cons; split;
                   [rewrite ?elem_of_cons, elem_of_nil; intuition discriminate|]);
           apply NoDup_nil_2|]);
  (split;
    [intros g Hg;
     repeat (apply elem_of_cons in Hg; destruct Hg as [-> | Hg]);
     try (by apply elem_of_nil in Hg);
     rewrite ?El1, ?Em1, ?Eh1; done|]);
  intros d Hd;
  pose proof (filter_holds_one (inBucket (riskBucket (rec_riskScore d))) d docs
                Hd (inBucket_own d)) as Hin;
  destruct (riskBucket (rec_riskScore d)); try lia;
  eexists; (split; [|eassumption]); set_solver.
Qed.

Lemma statusGroup_count docs st g :
  statusGroup docs st = Some g →
  g_status g = st ∧ (0 < g_count g)%nat
  ∧ g_count g = length (List.filter (hasStatus st) docs).
Proof.
  unfold statusGroup. fold (hasStatus st).
  destruct (0 <? _)%nat eqn:E; [|discriminate].
  intros [= <-]. cbn. apply Nat.ltb_lt in E. done.
Qed.

Lemma statusGroup_none docs st :
  statusGroup docs st = None → length (List.filter (hasStatus st) docs) = 0%nat.
Proof.
  unfold statusGroup. fold (hasStatus st).
  destruct (0 <? _)%nat eqn:E; [discriminate|].
  intros _. apply Nat.ltb_ge in E. lia.
Qed.

Lemma hasStatus_own d : hasStatus (status d) d = true.
Proof. unfold hasStatus. by destruct (status d). Qed.

(** X27.  The counts of [last24Hours] add up to the number of documents whose
    creation time is no earlier than 86400000 ms before the clock reading;
    each group appears with a positive count of such documents of its
    status; a document created within that window, also one created exactly
    86400000 ms ago, has its status among the groups; and when every
    document is older the facet is empty. *)
Theorem last24Hours_counts_recent_documents now docs :
  let since (d : TransactionRecord) :=
    match createdAt (rec_tx d) with
    | Some t => (now - 86400000 <=? t)%Z
    | None => false
    end in
  sum_list (g_count <$> last24Hours now docs)
  = length (List.filter since docs) ∧
  (∀ g, g ∈ last24Hours now docs →
        (0 < g_count g)%nat ∧
        g_count g
        = length (List.filter (fun d => Status_eqb (status d) (g_status g))
                    (List.filter since docs))) ∧
  (∀ d t, d ∈ docs → createdAt (rec_tx d) = Some t →
          (now - 86400000 <= t)%Z →
          ∃ g, g ∈ last24Hours now docs ∧ g_status g = status d) ∧
  ((∀ d t, d ∈ docs → createdAt (rec_tx d) = Some t →
           (t < now - 86400000)%Z) →
   last24Hours now docs = []).
Proof.
  intros since. change since with (recent now). clear since.
  unfold last24Hours. set (fresh := List.filter (recent now) docs).
  pose proof (statuses_partition fresh) as Hp.
  split; [|split; [|split]].
  - cbn [omap list_omap].
    destruct (statusGroup fresh PENDING) as [g1|] eqn:E1;
      [apply statusGroup_count in E1; destruct E1 as (_ & _ & E1)
      |apply statusGroup_none in E1];
    (destruct (statusGroup fresh APPROVED) as [g2|] eqn:E2;
      [apply statusGroup_count in E2; destruct E2 as (_ & _ & E2)
      |apply statusGroup_none in E2]);
    (destruct (statusGroup fresh DENIED) as [g3|] eqn:E3;
      [apply statusGroup_count in E3; destruct E3 as (_ & _ & E3)
      |apply statusGroup_none in E3]);
    (destruct (statusGroup fresh FLAGGED) as [g4|] eqn:E4;
      [apply statusGroup_count in E4; destruct E4 as (_ & _ & E4)
      |apply statusGroup_none in E4]);
    cbn; lia.
  - intros g Hg. apply list_elem_of_omap in Hg.
    destruct Hg as (st & _ & Hg). apply statusGroup_count in Hg.
    destruct Hg as (<- & ? & ?). done.
  - intros d t Hd Ht Hsince.
    assert (Hfresh : d ∈ fresh).
    { subst fresh. apply list_elem_of_In, filter_In.
      split; [by apply list_elem_of_In|].
      unfold recent. rewrite Ht. apply Z.leb_le. lia. }
    pose proof (filter_holds_one (hasStatus (status d)) d fresh Hfresh
                  (hasStatus_own d)) as Hpos.
    destruct (statusGroup fresh (status d)) as [g|] eqn:Eg.
    + exists g. split; [|by apply statusGroup_count in Eg as [? _]].
      apply list_elem_of_omap. exists (status d). split; [|exact Eg].
      destruct (status d); set_solver.
    + apply statusGroup_none in Eg. lia.
  - intros Hold.
    assert (Hnil : fresh = []).
    { clear Hp. subst fresh. revert Hold.
      induction docs as [|d docs IH]; intros Hold; [reflexivity|].
      cbn [List.filter].
      assert (Hd : recent now d = false).
      { unfold recent. destruct (createdAt (rec_tx d)) as [t|] eqn:Et;
          [|reflexivity].
        apply Z.leb_gt. pose proof (Hold d t (list_elem_of_here _ _) Et). lia. }
      rewrite Hd. apply IH. intros d' t' Hd'. apply Hold.
      by apply list_elem_of_further. }
    rewrite Hnil. reflexivity.
Qed.

Lemma bucketGroup_scores docs docs' b :
  rec_riskScore <$> docs = rec_riskScore <$> docs' →
  bucketGroup docs b = bucketGroup docs' b.
Proof.
  intros H. unfold bucketGroup.
  assert (Hl : length (List.filter
                         (fun d => Bucket_eqb (riskBucket (rec_riskScore d)) b) docs)
               = length (List.filter
                           (fun d => Bucket_eqb (riskBucket (rec_riskScore d)) b)
                           docs')).
  { revert docs' H. induction docs as [|d docs IH]; intros [|d' docs'] H;
      try discriminate H; [reflexivity|].
    cbn [fmap list_fmap] in H. injection H as Hd Ht.
    cbn [List.filter]. rewrite Hd. specialize (IH docs' Ht).
    destruct (Bucket_eqb _ b); cbn [length]; lia. }
  by rewrite Hl.
Qed.

Section OverModel.
Variable dist : Q → Q → Q → Q → Q.
Variable Model : Type.
Variable predict : Model → list Q → option Q.
Variable fit : Model → list Q → Q → option Model.

(** X25.  A report, whatever its answer, changes neither the number of
    documents nor their risk scores, hence not the risk distribution. *)
Theorem report_keeps_risk_distribution now req s :
  let s' := snd (reportFraud Model fit now req s) in
  riskDistribution (transactions s') = riskDistribution (transactions s)
  ∧ length (transactions s') = length (transactions s)
  ∧ rec_riskScore <$> transactions s' = rec_riskScore <$> transactions s.
Proof.
  cbn zeta.
  assert (Hscores : rec_riskScore <$> transactions (snd (reportFraud Model fit now req s))
                    = rec_riskScore <$> transactions s).
  { unfold reportFraud.
    destruct (body_transactionId req) as [id|]; [|reflexivity].
    destruct (body_wasActuallyFraud req) as [fraud|]; [|reflexivity].
    destruct (transactions s !! id) as [found|] eqn:Ef; [|reflexivity].
    assert (Hins : rec_riskScore
                   <$> <[id := with_status (if fraud then DENIED else APPROVED) found]>
                         (transactions s)
                   = rec_riskScore <$> transactions s).
    { rewrite list_fmap_insert. apply list_insert_id.
      by rewrite list_lookup_fmap, Ef. }
    destruct (updateModelWithTransaction _ _ _ _ _ _ _) as [[m r]|];
      cbn [snd transactions]; exact Hins. }
  split; [|split; [|exact Hscores]].
  - unfold riskDistribution. cbn [omap list_omap].
    by rewrite !(bucketGroup_scores _ _ _ Hscores).
  - apply (f_equal length) in Hscores. by rewrite !length_fmap in Hscores.
Qed.

(** X28.  The document stored by a scored answer is FLAGGED exactly when the
    statistics count it in the HIGH bucket, and PENDING otherwise; the
    answer says high risk in exactly that case. *)
Theorem flagged_iff_high_bucket cfg now req s body s' :
  check dist Model predict cfg now req s = (Scored body, s') →
  ∃ doc, transactions s' !! transactionId body = Some doc ∧
         (status doc = FLAGGED ↔ riskBucket (rec_riskScore doc) = HIGH) ∧
         (status doc = PENDING ↔ riskBucket (rec_riskScore doc) ≠ HIGH) ∧
         (isHighRisk body = true ↔ riskBucket (rec_riskScore doc) = HIGH).
Proof.
  intros H.
  destruct (check_scored _ _ _ _ _ _ _ _ _ H) as (_ & Hb & doc & Ht & Hs & Hst).
  exists doc. rewrite Hb. cbn [transactionId isHighRisk].
  split; [rewrite Ht; by apply list_lookup_middle|].
  rewrite Hst, Hs. set (final := _ * 0.6 + _ * 0.4).
  destruct (riskBucket_spec final) as (_ & _ & Hhigh). rewrite Hhigh.
  destruct (Js.geb final 0.7) eqn:E.
  - apply geb_true in E. repeat split; intros; try done.
  - apply geb_false in E. repeat split; intros; try done.
Qed.

End OverModel.

End StatsExtras.

(** ** The two revisions of the rule engine *)

Section Revisions.
Import Redis Rules.
Variable dist : Q → Q → Q → Q → Q.

(** X11.  On the same state the second revision of the rule engine never scores
    lower than the first; when the per-hour reason is not reported the two
    score the same and list the same reasons up to the wording of the
    velocity reason.  Both leave the same velocity sets, device sets and
    locations. *)
Theorem hourly_window_only_adds cfg now tx r :
  let old := RulesV1.detectFraud dist cfg now tx r in
  let new := detectFraud dist cfg now tx r in
  riskScore (fst old) <= riskScore (fst new) ∧
  (reason_velocity_hour ∉ reasons (fst new) →
   riskScore (fst old) == riskScore (fst new)
   ∧ reasons (fst old) = oldWording <$> reasons (fst new)) ∧
  velocity (snd old) = velocity (snd new) ∧
  device (snd old) = device (snd new) ∧
  geo (snd old) = geo (snd new).
Proof.
  cbn zeta.
  unfold RulesV1.detectFraud, detectFraud, RulesV1.checkVelocity, checkVelocity,
    checkDeviceRisk, checkGeoRisk.
  destruct (_ >? maxVelocityPerMinute _)%Z; [|destruct (_ >? 20)%Z];
  split_store_cases;
    (split; [apply Qle_bool_imp_le; vm_compute; reflexivity|]);
    (split; [|by repeat split]);
    first [ intros _; split; [vm_compute; reflexivity|reflexivity]
          | intros Hn; exfalso; apply Hn; vm_compute;
            repeat first [apply list_elem_of_here | apply list_elem_of_further] ].
Qed.
End Revisions.

(** ** The token middleware *)

Section AuthExtras.
Import Auth.
Variable User : Type.
Variable verify : string → string → option User.

Lemma split_without_separator sep s :
  ¬ In sep (list_ascii_of_string s) → split sep s = [s].
Proof.
  induction s as [|c s IH]; [reflexivity|].
  cbn [list_ascii_of_string In split]. intros Hn.
  destruct (Ascii.eqb c sep) eqn:E.
  - apply Ascii.eqb_eq in E. destruct Hn. by left.
  - rewrite IH by (intros H; apply Hn; by right). reflexivity.
Qed.

(** X29.  The token middleware calls [next()] exactly when the second
    space-separated word of the authorization header is non-empty and
    verifies under the secret; the user passed on is the decoded payload. *)
Theorem authenticated_iff_second_word_verifies secret header user :
  authenticateToken User verify secret header = Passed user ↔
  ∃ h token, header = Some h ∧ split " " h !! 1%nat = Some token
             ∧ token ≠ "" ∧ verify token secret = Some user.
Proof.
  unfold authenticateToken. split.
  - destruct header as [h|]; [|discriminate].
    destruct (Js.truthy_str (Some h)) eqn:Eh; [|by rewrite Eh].
    cbn [from_option id].
    destruct (split " " h !! 1%nat) as [token|] eqn:Et; [|discriminate].
    destruct (Js.truthy_str (Some token)) eqn:Ek; [|discriminate].
    cbn [negb from_option id].
    destruct (verify token secret) as [u|] eqn:Ev; [|discriminate].
    intros [= ->]. exists h, token. repeat split; try done.
    cbn in Ek. apply negb_true_iff, String.eqb_neq in Ek. exact Ek.
  - intros (h & token & -> & Ht & Hne & Hv).
    assert (Eh : Js.truthy_str (Some h) = true).
    { cbn. apply negb_true_iff, String.eqb_neq. intros ->. discriminate Ht. }
    rewrite Eh. cbn [from_option id]. rewrite Ht.
    assert (Ek : Js.truthy_str (Some token) = true)
      by (cbn; by apply negb_true_iff, String.eqb_neq).
    rewrite Ek. cbn [negb from_option id]. by rewrite Hv.
Qed.

(** X30.  For a header made of a scheme word, one space and a non-empty token
    without spaces, the middleware passes the payload when the token
    verifies and answers 403 otherwise; the scheme word is not looked at. *)
Theorem bearer_token_is_verified secret scheme token :
  ¬ In " "%char (list_ascii_of_string scheme) →
  ¬ In " "%char (list_ascii_of_string token) →
  token ≠ "" →
  authenticateToken User verify secret (Some (scheme +:+ " " +:+ token))
  = match verify token secret with
    | Some user => Passed user
    | None => Answered 403 "Invalid or expired token"
    end.
Proof.
  intros Hs Ht Hne.
  assert (Hsplit : split " " (scheme +:+ " " +:+ token) = [scheme; token]).
  { induction scheme as [|c scheme IH].
    - change ("" +:+ " " +:+ token) with (String " " token).
      cbn [split]. rewrite Ascii.eqb_refl.
      by rewrite split_without_separator.
    - cbn [list_ascii_of_string In] in Hs.
      change (String c scheme +:+ " " +:+ token)
        with (String c (scheme +:+ " " +:+ token)).
      cbn [split]. destruct (Ascii.eqb c " ") eqn:E.
      + apply Ascii.eqb_eq in E. destruct Hs. by left.
      + rewrite IH by (intros H; apply Hs; by right). reflexivity. }
  apply (f_equal (fun l => l !! 1%nat)) in Hsplit. cbn in Hsplit.
  unfold authenticateToken.
  assert (Eh : Js.truthy_str (Some (scheme +:+ " " +:+ token)) = true).
  { cbn. apply negb_true_iff, String.eqb_neq. intros E.
    rewrite E in Hsplit. discriminate Hsplit. }
  rewrite Eh. cbn [from_option id]. rewrite Hsplit.
  assert (Ek : Js.truthy_str (Some token) = true)
    by (cbn; by apply negb_true_iff, String.eqb_neq).
  rewrite Ek. cbn [negb from_option id]. reflexivity.
Qed.

End AuthExtras.

(** * Further scenarios *)

Section MoreScenarios.
Import Redis Rules ML Routes Stats Scenario Fixtures.

(** User u1 comes to device d1, which u2 has used: the device reason.  Then
    u3 pays on d1 and u1 on d2; u1 is back on d1 at night: no device
    reason. *)
Lemma device_rule_fires_once_witness :
  let first := transfer "u1" "d1" 5000 None in
  let between :=
    [ (defaultConfig, (noon + 1000)%Z, transfer "u3" "d1" 40 None);
      (defaultConfig, (noon + 2000)%Z, transfer "u1" "d2" 60 None) ] in
  let again := transfer "u1" "d1" 700 None in
  let after :=
    scoreAll planar between
      (snd (detectFraud planar defaultConfig noon first sharedDevice)) in
  reason_device
  ∈ reasons (fst (detectFraud planar defaultConfig noon first sharedDevice)) ∧
  reason_device
  ∉ reasons (fst (detectFraud planar defaultConfig night again after)).
Proof.
  cbn zeta. split.
  - assert (E : reasons (fst (detectFraud planar defaultConfig noon
                                (transfer "u1" "d1" 5000 None) sharedDevice))
                = [reason_device]) by run.
    rewrite E. apply list_elem_of_here.
  - apply (device_rule_fires_once planar defaultConfig noon
             (transfer "u1" "d1" 5000 None) sharedDevice
             [ (defaultConfig, (noon + 1000)%Z, transfer "u3" "d1" 40 None);
               (defaultConfig, (noon + 2000)%Z, transfer "u1" "d2" 60 None) ]
             defaultConfig night (transfer "u1" "d1" 700 None)); reflexivity.
Defined.

Lemma location_stored_when_near_witness :
  let tx := transfer "u1" "d1" 5000 (Some lagos) in
  geo Redis.empty !! "u1" = None ∧
  geo (snd (detectFraud planar defaultConfig noon tx Redis.empty)) !! "u1"
  = Some (6.5244, 3.3792).
Proof.
  cbn zeta. split; [reflexivity|].
  apply (location_stored_when_near planar defaultConfig noon
           (transfer "u1" "d1" 5000 (Some lagos)) Redis.empty lagos);
    [reflexivity|].
  intros last H. vm_compute in H. discriminate H.
Defined.

(** Last seen in Abuja, u1 pays from Lagos: the geography reason.  Then u2
    pays from Abuja and u1 pays without a location; u1 pays from Lagos
    again: the reason again, the stored location still Abuja. *)
Lemma geo_rule_keeps_firing_witness :
  let tx := transfer "u1" "d1" 5000 (Some lagos) in
  let between :=
    [ (defaultConfig, (noon + 1000)%Z, transfer "u2" "d2" 40 (Some abuja));
      (defaultConfig, (noon + 2000)%Z, transfer "u1" "d1" 60 None) ] in
  let later := transfer "u1" "d1" 900 (Some lagos) in
  let before :=
    scoreAll planar between
      (snd (detectFraud planar defaultConfig noon tx seenInAbuja)) in
  reason_geo
  ∈ reasons (fst (detectFraud planar defaultConfig noon tx seenInAbuja)) ∧
  geo before !! "u1" = Some (9.0765, 7.3986) ∧
  reason_geo ∈ reasons (fst (detectFraud planar defaultConfig night later before)) ∧
  geo (snd (detectFraud planar defaultConfig night later before)) !! "u1"
  = Some (9.0765, 7.3986).
Proof.
  cbn zeta.
  assert (H : reason_geo
              ∈ reasons (fst (detectFraud planar defaultConfig noon
                                (transfer "u1" "d1" 5000 (Some lagos))
                                seenInAbuja))).
  { assert (E : reasons (fst (detectFraud planar defaultConfig noon
                                (transfer "u1" "d1" 5000 (Some lagos))
                                seenInAbuja)) = [reason_geo]) by run.
    rewrite E. apply list_elem_of_here. }
  split; [exact H|].
  apply (geo_rule_keeps_firing planar defaultConfig noon
           (transfer "u1" "d1" 5000 (Some lagos)) seenInAbuja
           [ (defaultConfig, (noon + 1000)%Z, transfer "u2" "d2" 40 (Some abuja));
             (defaultConfig, (noon + 2000)%Z, transfer "u1" "d1" 60 None) ]
           defaultConfig night (transfer "u1" "d1" 900 (Some lagos)) lagos
           (9.0765, 7.3986));
    [reflexivity | reflexivity | exact H | | reflexivity | reflexivity].
  repeat (apply Forall_cons; split; [intros Hu; discriminate Hu ||
                                     (intros l Hl; discriminate Hl)|]).
  apply Forall_nil_2.
Defined.

Lemma unloaded_scorer_monotone_witness :
  let small := transfer "u1" "d1" 5000 None in
  let large := transfer "u2" "d2" 600000 None in
  amount small <= amount large ∧
  predictRisk unit predictHalf None noon small Redis.empty
  <= predictRisk unit predictHalf None night large sharedDevice ∧
  0.2 <= predictRisk unit predictHalf None noon small Redis.empty <= 0.9.
Proof.
  cbn zeta.
  assert (H : amount (transfer "u1" "d1" 5000 None)
              <= amount (transfer "u2" "d2" 600000 None))
    by (apply Qle_bool_imp_le; run).
  split; [exact H|].
  exact (unloaded_scorer_monotone unit predictHalf noon night
           (transfer "u1" "d1" 5000 None) (transfer "u2" "d2" 600000 None)
           Redis.empty sharedDevice H).
Defined.

Lemma features_normalized_by_table_witness :
  let tx := transfer "u1" "d1" 5000 (Some lagos) in
  rawFeatures noon tx Redis.empty !! 0%nat = Some 5000 ∧
  ∃ name mean std,
    FEATURE_NAMES !! 0%nat = Some name ∧
    stats_of FEATURE_STATS name = Some (mean, std) ∧
    0 < std ∧
    preprocessFeatures noon tx Redis.empty !! 0%nat
    = Some ((5000 - mean) / std) ∧
    (5000 - mean) / std * std + mean == 5000.
Proof.
  cbn zeta. split; [reflexivity|].
  apply (features_normalized_by_table noon
           (transfer "u1" "d1" 5000 (Some lagos)) Redis.empty 0%nat 5000).
  reflexivity.
Defined.

Lemma check_stores_assessment_witness :
  let req := request "u1" "d1" 5000 None in
  let s := loaded Redis.empty in
  ∃ body s',
    check planar unit predictHalf defaultConfig noon req s = (Scored body, s') ∧
    transactionId body = 0%nat ∧
    length (transactions s') = 1%nat ∧
    txCache (redis s') !! 0%nat = Some (body_riskScore body, body_reasons body) ∧
    deadline (redis s') !! "tx:0" = Some (noon + 3600 * 1000)%Z ∧
    model s' = model s.
Proof.
  cbn zeta. eexists _, _. split; [run|].
  destruct (check_stores_assessment planar unit predictHalf defaultConfig noon
              (request "u1" "d1" 5000 None) (loaded Redis.empty) _ _
              ltac:(run)) as (Hid & Hlen & _ & Hcache & Hdl & _ & Hm).
  split; [exact Hid|]. split; [exact Hlen|].
  split; [exact Hcache|]. split; [exact Hdl|]. exact Hm.
Defined.

Lemma check_schema_failure_keeps_writes_witness :
  let tx := bodyTransaction wire in
  let s := loaded Redis.empty in
  validateTransaction wire = None ∧
  ∃ s', check planar unit predictHalf defaultConfig noon wire s
        = (Failure 500 "Internal server error", s') ∧
        transactions s' = [] ∧
        sampleOf noon tx ∈ window (redis s') "u1" noon 60000 ∧
        "u1" ∈ default ∅ (device (redis s') !! "d1").
Proof.
  cbn zeta. split; [reflexivity|].
  destruct (check_schema_failure_keeps_writes planar unit predictHalf
              defaultConfig noon wire (loaded Redis.empty))
    as (s' & Hc & Ht & _ & _ & Hw & Hd).
  - reflexivity.
  - vm_compute. intros H.
    repeat (apply elem_of_cons in H; destruct H as [H|H]; [discriminate H|]).
    by apply elem_of_nil in H.
  - exists s'. split; [exact Hc|]. split; [exact Ht|]. split; [exact Hw|exact Hd].
Defined.

Lemma unloaded_small_amount_never_flagged_witness :
  let req := request "u1" "d1" 100000 None in
  let s := unloaded (withVelocity "u1" (samples 21 1)) in
  ∃ body s',
    check planar unit predictHalf defaultConfig noon req s = (Scored body, s') ∧
    reason_velocity_minute ∈ body_reasons body ∧
    body_riskScore body <= 0.68 ∧
    isHighRisk body = false ∧
    recommendedAction body = ALLOW.
Proof.
  cbn zeta. eexists _, _. split; [run|].
  split; [vm_compute; apply list_elem_of_here|].
  destruct (unloaded_small_amount_never_flagged planar unit predictHalf
              defaultConfig noon (request "u1" "d1" 100000 None)
              (unloaded (withVelocity "u1" (samples 21 1))) _ _ 100000
              eq_refl eq_refl ltac:(apply Qle_bool_imp_le; run) ltac:(run))
    as (Hs & Hh & Ha & _).
  split; [exact Hs|]. split; [exact Hh|exact Ha].
Defined.

(** A body whose amount is the string "abc", whose type is unknown and whose
    device id is a number passes the validator; the same body with the
    amount 0 does not. *)
Lemma validator_accepts_iff_witness :
  Wire.validateTransactionRaw sloppyBody = None ∧
  Wire.validateTransactionRaw (("amount", Wire.JNum 0) :: sloppyBody)
  = Some (Failure 400 "Missing required fields").
Proof.
  split; [|reflexivity].
  destruct (validator_accepts_iff sloppyBody wire) as (_ & Hraw & _).
  apply Hraw. repeat split; discriminate.
Defined.

(** One stored document.  A report without an id, and one whose flag is the
    string "true": 400.  One on the id "abc": 500.  One on "2", a
    well-formed id naming no document: 404.  The system is untouched each
    time. *)
Lemma report_refused_without_effect_witness :
  let s := oneDocument (Some tt) in
  let flag := ("wasActuallyFraud", Wire.JBool true) in
  Wire.reportFraudRaw unit fitOk castDecimal noon [flag] s
  = (Failure 400 "Missing required fields", s) ∧
  Wire.reportFraudRaw unit fitOk castDecimal noon
    [("transactionId", Wire.JStr "0"); ("wasActuallyFraud", Wire.JStr "true")] s
  = (Failure 400 "Missing required fields", s) ∧
  Wire.reportFraudRaw unit fitOk castDecimal noon
    [("transactionId", Wire.JStr "abc"); flag] s
  = (Failure 500 "Internal server error", s) ∧
  Wire.reportFraudRaw unit fitOk castDecimal noon
    [("transactionId", Wire.JStr "2"); flag] s
  = (Failure 404 "Transaction not found", s).
Proof.
  cbn zeta. split; [|split; [|split]].
  - apply (report_refused_without_effect unit fitOk castDecimal noon
             [("wasActuallyFraud", Wire.JBool true)] (oneDocument (Some tt))).
    left. reflexivity.
  - apply (report_refused_without_effect unit fitOk castDecimal noon
             [("transactionId", Wire.JStr "0");
              ("wasActuallyFraud", Wire.JStr "true")] (oneDocument (Some tt))).
    right. intros b Hb. discriminate Hb.
  - apply (proj1 (proj2 (report_refused_without_effect unit fitOk castDecimal
                           noon
                           [("transactionId", Wire.JStr "abc");
                            ("wasActuallyFraud", Wire.JBool true)]
                           (oneDocument (Some tt)))) true);
      reflexivity.
  - apply (proj2 (proj2 (report_refused_without_effect unit fitOk castDecimal
                           noon
                           [("transactionId", Wire.JStr "2");
                            ("wasActuallyFraud", Wire.JBool true)]
                           (oneDocument (Some tt)))) true 2%nat);
      try reflexivity. cbn. lia.
Defined.

(** A report of fraud on the only stored document, PENDING until then, the
    counting network at 0: the document is DENIED, the network at 1, the
    model version 1. *)
Lemma report_applied_witness :
  let s := oneDocumentCounted in
  status pendingDoc = PENDING ∧
  ∃ s' saved,
    reportFraud nat fitCount noon (report 0 true) s
    = (Message "Fraud report processed successfully", s') ∧
    transactions s' !! 0%nat = Some saved ∧
    status saved = DENIED ∧
    rec_tx saved = rec_tx pendingDoc ∧
    ipAddress saved = ipAddress pendingDoc ∧
    rec_riskScore saved = rec_riskScore pendingDoc ∧
    length (transactions s') = 1%nat ∧
    model s' = Some 1%nat ∧
    modelVersion (redis s') = 1%Z ∧
    sameButVersion (redis s) (redis s').
Proof.
  cbn zeta. split; [reflexivity|].
  destruct (report_applied nat fitCount noon (report 0 true)
              oneDocumentCounted 0%nat true pendingDoc 0%nat 1%nat)
    as (s' & saved & Hr & Hd & Hst & Htx & Hip & Hsc & Hlen & _ & Hm & Hv & Hk);
    try reflexivity.
  exists s', saved. split; [exact Hr|]. split; [exact Hd|].
  split; [exact Hst|]. split; [exact Htx|]. split; [exact Hip|].
  split; [exact Hsc|]. split; [exact Hlen|]. split; [exact Hm|].
  split; [|exact Hk]. rewrite Hv. reflexivity.
Defined.

(** The same document reported as a fraud at noon and as legitimate at
    night: the counting network goes from 0 to 2, the model version is 2,
    the document ends APPROVED. *)
Lemma report_twice_trains_twice_witness :
  let s := oneDocumentCounted in
  let once := reportFraud nat fitCount noon (report 0 true) s in
  let twice := reportFraud nat fitCount night (report 0 false) (snd once) in
  model s = Some 0%nat ∧
  model (snd once) = Some 1%nat ∧
  model (snd twice) = Some 2%nat ∧
  modelVersion (redis (snd twice)) = 2%Z ∧
  sameButVersion (redis s) (redis (snd twice)) ∧
  ∃ saved,
    transactions (snd twice) !! 0%nat = Some saved ∧
    status saved = APPROVED ∧
    rec_tx saved = rec_tx pendingDoc ∧
    ipAddress saved = ipAddress pendingDoc ∧
    rec_riskScore saved = rec_riskScore pendingDoc.
Proof.
  cbn zeta. split; [reflexivity|].
  destruct (report_twice_trains_twice nat fitCount noon night
              oneDocumentCounted 0%nat true false pendingDoc 0%nat 1%nat 2%nat
              eq_refl eq_refl eq_refl eq_refl)
    as (_ & _ & Hm1 & Hm2 & Hv & Hk & saved & Hd & Hst & Htx & Hip & Hsc & _).
  split; [exact Hm1|]. split; [exact Hm2|]. split; [exact Hv|].
  split; [exact Hk|].
  exists saved. split; [exact Hd|]. split; [exact Hst|].
  split; [exact Htx|]. split; [exact Hip|exact Hsc].
Defined.

Lemma flagged_iff_high_bucket_witness :
  let req := request "u1" "d1" 2000000 None in
  let s := unloaded Redis.empty in
  ∃ body s' doc,
    check planar unit predictHalf defaultConfig night req s = (Scored body, s') ∧
    transactions s' !! transactionId body = Some doc ∧
    status doc = FLAGGED ∧
    riskBucket (rec_riskScore doc) = HIGH ∧
    (status doc = FLAGGED ↔ riskBucket (rec_riskScore doc) = HIGH).
Proof.
  cbn zeta. eexists _, _.
  destruct (flagged_iff_high_bucket planar unit predictHalf defaultConfig night
              (request "u1" "d1" 2000000 None) (unloaded Redis.empty) _ _
              ltac:(run)) as (doc & Hd & Hiff & _).
  exists doc. split; [run|]. split; [exact Hd|].
  vm_compute in Hd. injection Hd as <-.
  split; [reflexivity|]. split; [reflexivity|exact Hiff].
Defined.

Lemma bearer_token_is_verified_witness :
  ¬ In " "%char (list_ascii_of_string "Bearer") ∧
  ¬ In " "%char (list_ascii_of_string "abc") ∧
  Auth.authenticateToken string verifyAbc "s3cret" (Some "Bearer abc")
  = Auth.Passed "u1" ∧
  Auth.authenticateToken string verifyAbc "other" (Some "Bearer abc")
  = Auth.Answered 403 "Invalid or expired token".
Proof.
  assert (H1 : ¬ In " "%char (list_ascii_of_string "Bearer"))
    by (cbn; intuition discriminate).
  assert (H2 : ¬ In " "%char (list_ascii_of_string "abc"))
    by (cbn; intuition discriminate).
  split; [exact H1|]. split; [exact H2|]. split.
  - exact (bearer_token_is_verified string verifyAbc "s3cret" "Bearer" "abc"
             H1 H2 ltac:(discriminate)).
  - exact (bearer_token_is_verified string verifyAbc "other" "Bearer" "abc"
             H1 H2 ltac:(discriminate)).
Defined.

End MoreScenarios.
